(** * The Scale Rebel: edge request filter, admin OTP service, contact form

  A shallow embedding of three request handlers of the site:

  - [Security]  : netlify/edge-functions/security.ts (the edge filter);
  - [AdminApi]  : the admin API with one-time-password login
                  (sendOTP, verifyOTP, logout, checkAuth, handler);
  - [SendEmail] : the contact-form mailer with its honeypot field.

  Conventions of the model.

  - A [string] stands for the JavaScript string with the same code
    units: its characters are the characters U+0000 to U+00FF, one for
    one (no encoding is involved).  Paths, query strings and header
    values are such strings by construction (a URL is serialised in
    ASCII, a header value is a byte string); of the JSON fields of a
    request body the model covers the values without a character above
    U+00FF.  On these strings [toLowerCase], [trim], [\s] and the [i]
    flag are what the JavaScript functions do: NO-BREAK SPACE is white
    space, and the letters of U+00C0 to U+00FE have their two cases.
  - Timestamps are integers counting microseconds (the resolution of a
    PostgreSQL TIMESTAMP).  Every SQL statement of one handler invocation
    sees the same instant [now].
  - The relational store is a record of tables, each a list of rows in
    insertion order.  For the admin API the store is assumed reachable:
    connection failures are outside the model, constraint violations are
    inside it.  PostgreSQL accepts no text value that holds the character
    NUL: a request that makes such a value a query parameter is outside
    the model as well.
  - Values drawn from [Math.random] and the answers of the mail API are
    inputs of the handlers. *)

From Stdlib Require Import String Ascii ZArith NArith List Bool Lia.
Import ListNotations.

Local Open Scope string_scope.
Local Open Scope Z_scope.

(* ------------------------------------------------------------------ *)
(** * JavaScript string primitives *)

Module JS.

Definition code (c : ascii) : N := N_of_ascii c.

Definition is_upper (c : ascii) : bool :=
  (N.leb 65 (code c)) && (N.leb (code c) 90).

Definition is_lower (c : ascii) : bool :=
  (N.leb 97 (code c)) && (N.leb (code c) 122).

Definition is_digit (c : ascii) : bool :=
  (N.leb 48 (code c)) && (N.leb (code c) 57).

(** The letters of U+00C0 to U+00DE and of U+00E0 to U+00FE: an upper
    and a lower case 32 apart, but for the multiplication sign (U+00D7)
    and the division sign (U+00F7), which are no letters. *)
Definition is_upper_latin1 (c : ascii) : bool :=
  (N.leb 192 (code c)) && (N.leb (code c) 222) && negb (N.eqb (code c) 215).

Definition is_lower_latin1 (c : ascii) : bool :=
  (N.leb 224 (code c)) && (N.leb (code c) 254) && negb (N.eqb (code c) 247).

(** The lower case of a character, as [toLowerCase] maps it: A to Z and
    the upper-case letters of U+00C0 to U+00DE; every other character
    below U+0100 is left as it is. *)
Definition lower_char (c : ascii) : ascii :=
  if is_upper c || is_upper_latin1 c then ascii_of_N (code c + 32) else c.

(** The upper case of a character, which is also how the [i] flag of a
    regular expression folds it.  Three characters below U+0100 have an
    upper case that is no single character below U+0100 (U+00DF, U+00B5
    and U+00FF); the [i] flag leaves the first as it is and matches the
    other two with themselves only, as here.  [toUpperCase] is applied
    to request methods only, which are ASCII. *)
Definition upper_char (c : ascii) : ascii :=
  if is_lower c || is_lower_latin1 c then ascii_of_N (code c - 32) else c.

(** White space and line terminators ([\s], [trim], [parseInt]) below
    U+0100: TAB, LF, VT, FF, CR, SPACE and NO-BREAK SPACE (U+00A0). *)
Definition is_space (c : ascii) : bool :=
  ((N.leb 9 (code c)) && (N.leb (code c) 13)) || N.eqb (code c) 32 ||
  N.eqb (code c) 160.

(** Line terminators, which [.] does not match. *)
Definition is_line_terminator (c : ascii) : bool :=
  N.eqb (code c) 10 || N.eqb (code c) 13.

Fixpoint map_string (f : ascii -> ascii) (s : string) : string :=
  match s with
  | EmptyString => EmptyString
  | String c s' => String (f c) (map_string f s')
  end.

Definition toLowerCase (s : string) : string := map_string lower_char s.
Definition toUpperCase (s : string) : string := map_string upper_char s.

(** [s.startsWith(p)] *)
Definition startsWith (s p : string) : bool := String.prefix p s.

(** [s.endsWith(p)]: some suffix of [s] is [p]. *)
Fixpoint endsWith (s p : string) : bool :=
  String.eqb s p ||
  match s with
  | EmptyString => false
  | String _ s' => endsWith s' p
  end.

(** [s.includes(p)] *)
Fixpoint includes (s p : string) : bool :=
  String.prefix p s ||
  match s with
  | EmptyString => false
  | String _ s' => includes s' p
  end.

Fixpoint drop (n : nat) (s : string) : string :=
  match n, s with
  | O, _ => s
  | S n', String _ s' => drop n' s'
  | S _, EmptyString => EmptyString
  end.

(** [s.replace(pat, rep)] with a string pattern: the first occurrence
    only.  (The replacement strings of the sources contain no [$].) *)
Fixpoint replace (s pat rep : string) : string :=
  if String.prefix pat s then rep ++ drop (String.length pat) s
  else match s with
       | EmptyString => EmptyString
       | String c s' => String c (replace s' pat rep)
       end.

Fixpoint trimStart (s : string) : string :=
  match s with
  | String c s' => if is_space c then trimStart s' else s
  | EmptyString => EmptyString
  end.

(** [trimEnd] drops the white space that is followed by white space
    only. *)
Fixpoint trimEnd (s : string) : string :=
  match s with
  | EmptyString => EmptyString
  | String c s' =>
      match trimEnd s' with
      | EmptyString => if is_space c then EmptyString else String c EmptyString
      | t => String c t
      end
  end.

Definition trim (s : string) : string := trimEnd (trimStart s).

(** [s.slice(0, n)] for [n >= 0]. *)
Definition slice0 (n : nat) (s : string) : string := substring 0 n s.

(** [s.split(" ")[0]]: the part before the first space. *)
Fixpoint firstWord (s : string) : string :=
  match s with
  | EmptyString => EmptyString
  | String c s' => if Ascii.eqb c " " then EmptyString else String c (firstWord s')
  end.

(** Truthiness of a value that is a string, [undefined] or [null]. *)
Definition truthy (v : option string) : bool :=
  match v with
  | Some s => negb (String.eqb s "")
  | None => false
  end.

(** [v || d] on such a value. *)
Definition orElse (v : option string) (d : string) : string :=
  match v with
  | Some s => if String.eqb s "" then d else s
  | None => d
  end.

(** [parseInt(s, 10)]: leading white space, an optional sign, then the
    longest run of decimal digits; [None] is NaN. *)
Fixpoint digits (acc : Z) (seen : bool) (s : string) : option Z :=
  match s with
  | String c s' =>
      if is_digit c
      then digits (10 * acc + Z.of_N (code c - 48)) true s'
      else if seen then Some acc else None
  | EmptyString => if seen then Some acc else None
  end.

Definition parseInt (s : string) : option Z :=
  match trimStart s with
  | String "-" s' => option_map Z.opp (digits 0 false s')
  | String "+" s' => digits 0 false s'
  | t => digits 0 false t
  end.

(** [a > b] on numbers, false when [a] is NaN. *)
Definition gt (a : option Z) (b : Z) : bool :=
  match a with
  | Some x => Z.ltb b x
  | None => false
  end.

End JS.

(* ------------------------------------------------------------------ *)
(** * Regular expressions

  The fragment of the JavaScript regular expressions that the sources
  use, with a backtracking matcher.  [test] answers what
  [RegExp.prototype.test] answers for an expression without the [g]
  flag: whether the expression matches at some position. *)

Module Regex.

Inductive re : Type :=
| Eps : re
| Chr : ascii -> re                       (* a literal character *)
| Any : re                                (* [.] *)
| Cls : bool -> list (ascii * ascii) -> re (* [[...]], negated if [true] *)
| Seq : re -> re -> re
| Alt : re -> re -> re
| Star : re -> re
| Bol : re                                (* [^] *)
| Eol : re                                (* [$] *)
| NLook : re -> re.                       (* [(?!...)] *)

(** A regular expression literal: the pattern and its [i] flag. *)
Record regexp : Type := RegExp { source : re; ignoreCase : bool }.

Fixpoint Lit (s : string) : re :=
  match s with
  | EmptyString => Eps
  | String c EmptyString => Chr c
  | String c s' => Seq (Chr c) (Lit s')
  end.

Definition Plus (r : re) : re := Seq r (Star r).
Definition Opt (r : re) : re := Alt r Eps.
(** Concatenation and alternation of a list of expressions. *)
Fixpoint Cat (rs : list re) : re :=
  match rs with
  | [] => Eps
  | [r] => r
  | r :: rs' => Seq r (Cat rs')
  end.

Fixpoint Alts (rs : list re) : re :=
  match rs with
  | [] => NLook Eps
  | [r] => r
  | r :: rs' => Alt r (Alts rs')
  end.

(** Members of [\s] as class ranges. *)
Definition space_ranges : list (ascii * ascii) :=
  [(ascii_of_N 9, ascii_of_N 13); (" "%char, " "%char);
   (ascii_of_N 160, ascii_of_N 160)].
Definition Space : re := Cls false space_ranges.

Definition in_range (c : ascii) (r : ascii * ascii) : bool :=
  N.leb (JS.code (fst r)) (JS.code c) && N.leb (JS.code c) (JS.code (snd r)).

Definition in_ranges (rs : list (ascii * ascii)) (c : ascii) : bool :=
  existsb (in_range c) rs.

Section Matcher.
(** The [i] flag of the expression being matched. *)
Variable ic : bool.

Definition chr_eq (p c : ascii) : bool :=
  if ic then Ascii.eqb (JS.upper_char p) (JS.upper_char c)
  else Ascii.eqb p c.

Definition cls_mem (rs : list (ascii * ascii)) (c : ascii) : bool :=
  if ic
  then in_ranges rs (JS.lower_char c) || in_ranges rs (JS.upper_char c)
  else in_ranges rs c.

(** Iteration of a matcher [step]; an iteration that consumes nothing
    is not repeated. *)
Fixpoint star (step : nat -> string -> (nat -> string -> bool) -> bool)
         (fuel : nat) (i : nat) (s : string)
         (k : nat -> string -> bool) : bool :=
  k i s ||
  match fuel with
  | O => false
  | S fuel' =>
      step i s (fun j t =>
        Nat.ltb (String.length t) (String.length s) && star step fuel' j t k)
  end.

(** [m r i s k]: [r] matches a prefix of [s], which starts at offset
    [i] of the input, and [k] accepts the rest. *)
Fixpoint m (r : re) (i : nat) (s : string)
         (k : nat -> string -> bool) {struct r} : bool :=
  match r with
  | Eps => k i s
  | Chr p =>
      match s with
      | String c s' => chr_eq p c && k (S i) s'
      | EmptyString => false
      end
  | Any =>
      match s with
      | String c s' => negb (JS.is_line_terminator c) && k (S i) s'
      | EmptyString => false
      end
  | Cls neg rs =>
      match s with
      | String c s' => xorb neg (cls_mem rs c) && k (S i) s'
      | EmptyString => false
      end
  | Seq a b => m a i s (fun j t => m b j t k)
  | Alt a b => m a i s k || m b i s k
  | Star a => star (m a) (S (String.length s)) i s k
  | Bol => Nat.eqb i 0 && k i s
  | Eol => String.eqb s "" && k i s
  | NLook a => negb (m a i s (fun _ _ => true)) && k i s
  end.

Fixpoint search (r : re) (i : nat) (s : string) : bool :=
  m r i s (fun _ _ => true) ||
  match s with
  | EmptyString => false
  | String _ s' => search r (S i) s'
  end.
End Matcher.

(** [pattern.test(s)] *)
Definition test (p : regexp) (s : string) : bool :=
  search (ignoreCase p) (source p) 0 s.

(** [/lit/i] and [/lit/] *)
Definition ci (r : re) : regexp := RegExp r true.
Definition cs (r : re) : regexp := RegExp r false.

(** Two properties of a matcher in continuation style: it looks at its
    continuation pointwise only, and it fails when the continuation
    always fails. *)
Definition step_ext (step : nat -> string -> (nat -> string -> bool) -> bool) : Prop :=
  forall i s k1 k2, (forall j t, k1 j t = k2 j t) -> step i s k1 = step i s k2.

Definition step_strict (step : nat -> string -> (nat -> string -> bool) -> bool) : Prop :=
  forall i s, step i s (fun _ _ => false) = false.

(** A reference for literal patterns: the strings as the flag makes the
    matcher see them, and the rest of [s] after the literal [p] at its
    head. *)
Definition fold_case (ic : bool) (s : string) : string :=
  if ic then JS.toUpperCase s else s.

Fixpoint starts (ic : bool) (p s : string) : option string :=
  match p, s with
  | EmptyString, _ => Some s
  | String a p', String c s' => if chr_eq ic a c then starts ic p' s' else None
  | String _ _, EmptyString => None
  end.

Definition is_some {A : Type} (o : option A) : bool :=
  match o with
  | Some _ => true
  | None => false
  end.

End Regex.

(* ------------------------------------------------------------------ *)
(** * The edge request filter (netlify/edge-functions/security.ts) *)

Module Security.
Import Regex.

Definition BLOCKED_EXTENSIONS : list string :=
  [ ".php"; ".asp"; ".aspx"; ".jsp"; ".cgi"; ".pl"; ".exe"; ".dll";
    ".env"; ".git"; ".bak"; ".sql"; ".config"; ".ini"; ".log"; ".sh";
    ".bash"; ".zsh"; ".py"; ".rb"; ".jar"; ".war"; ".class" ].

Definition BLOCKED_PATH_PATTERNS : list regexp :=
  [ (* WordPress-specific paths *)
    ci (Lit "/wp-admin"); ci (Lit "/wp-content"); ci (Lit "/wp-includes");
    ci (Lit "/wp-login"); ci (Lit "/wp-config"); ci (Lit "/wp-json");
    ci (Lit "/xmlrpc"); ci (Lit "/wp-cron"); ci (Lit "/wp-trackback");
    ci (Lit "/wp-comments"); ci (Lit "/wordpress");
    (* Common CMS paths *)
    ci (Lit "/administrator"); ci (Lit "/joomla"); ci (Lit "/drupal");
    ci (Lit "/magento"); ci (Lit "/phpmyadmin"); ci (Lit "/cpanel");
    ci (Lit "/plesk"); ci (Lit "/webmail"); ci (Lit "/roundcube");
    ci (Lit "/squirrelmail");
    (* Shell/exploit paths *)
    ci (Lit "/shell"); ci (Lit "/c99"); ci (Lit "/r57"); ci (Lit "/alfa");
    ci (Lit "/b374k"); ci (Lit "/weevely"); ci (Lit "/wso");
    (* Configuration and sensitive files *)
    ci (Lit ".git/"); ci (Lit ".svn/"); ci (Lit ".hg/");
    ci (Seq (Lit ".env") Eol); ci (Lit ".env."); ci (Lit ".htaccess");
    ci (Lit ".htpasswd"); ci (Lit ".npmrc"); ci (Lit ".dockerenv");
    ci (Seq (Lit "/.well-known/") (NLook (Lit "acme-challenge")));
    (* Backup files *)
    ci (Seq (Lit ".bak") Eol); ci (Seq (Lit ".backup") Eol);
    ci (Seq (Lit ".old") Eol); ci (Seq (Lit ".orig") Eol);
    ci (Seq (Lit ".save") Eol); ci (Seq (Lit ".swp") Eol);
    cs (Seq (Lit "~") Eol);
    (* Database dumps *)
    ci (Seq (Lit ".sql") Eol); ci (Lit "dump."); ci (Lit "backup.");
    ci (Lit "database."); ci (Lit "db.");
    (* Common attack paths *)
    ci (Lit "/cgi-bin/"); ci (Lit "/scripts/"); ci (Lit "/bin/");
    ci (Lit "/etc/passwd"); ci (Lit "/proc/"); ci (Lit "/var/log");
    ci (Lit "/tmp/");
    (* Probe paths *)
    ci (Lit "/eval"); ci (Lit "/exec"); ci (Lit "/system");
    ci (Lit "/passthru"); ci (Lit "/actuator"); ci (Lit "/console");
    ci (Lit "/debug"); ci (Lit "/trace"); ci (Lit "/manager");
    ci (Cat [Lit "/api/v"; Plus (Cls false [("0"%char, "9"%char)]); Lit "/admin"]);
    (* Common vulnerability endpoints *)
    ci (Lit "/solr"); ci (Lit "/jenkins"); ci (Lit "/struts");
    ci (Lit "/log4j"); ci (Lit "/vendor/"); ci (Lit "/node_modules/");
    ci (Lit "/bower_components/") ].

Definition BLOCKED_QUERY_PATTERNS : list regexp :=
  [ ci (Alt (Lit "%00") (Lit "\x00"));
    ci (Lit "<script");
    ci (Lit "javascript:");
    ci (Lit "vbscript:");
    ci (Lit "data:");
    ci (Lit "base64,");
    ci (Cat [Lit "union"; Plus Space; Lit "select"]);
    ci (Cat [Lit "select"; Plus Space; Star Any; Plus Space; Lit "from"]);
    ci (Cat [Lit "insert"; Plus Space; Lit "into"]);
    ci (Cat [Lit "drop"; Plus Space; Lit "table"]);
    ci (Cat [Lit "delete"; Plus Space; Lit "from"]);
    ci (Cat [Lit "update"; Plus Space; Star Any; Plus Space; Lit "set"]);
    ci (Cat [Lit ";"; Star Any; Lit "--"]);
    ci (Lit "../");
    ci (Lit "%2e%2e");
    ci (Cat [Lit "${"; Star Any; Lit "}"]);
    ci (Cat [Lit "{{"; Star Any; Lit "}}"]);
    ci (Lit "$poison");
    ci (Cat [Lit "eval"; Star Space; Lit "("]);
    ci (Cat [Lit "exec"; Star Space; Lit "("]);
    ci (Lit "cmd=");
    ci (Lit "passwd");
    ci (Lit "etc/shadow");
    ci (Lit "phpinfo");
    ci (Cat [Lit "system"; Star Space; Lit "("]);
    ci (Lit "file://");
    ci (Lit "gopher://");
    ci (Lit "dict://") ].

Definition BLOCKED_USER_AGENTS : list regexp :=
  [ ci (Lit "sqlmap"); ci (Lit "nikto"); ci (Lit "nmap");
    ci (Lit "masscan"); ci (Lit "zmeu"); ci (Lit "morfeus");
    ci (Lit "zgrab"); ci (Lit "gobuster"); ci (Lit "dirbuster");
    ci (Lit "wpscan"); ci (Lit "nessus"); ci (Lit "openvas");
    ci (Lit "nuclei"); ci (Lit "acunetix"); ci (Lit "burpsuite");
    ci (Lit "havij"); ci (Lit "w3af"); ci (Lit "arachni");
    ci (Lit "qualys");
    ci (Seq Bol Eol) (* Empty user agent *) ].

Definition SUSPICIOUS_HEADERS : list string :=
  [ "x-forwarded-host"; "x-original-url"; "x-rewrite-url" ].

(** The expression tested inside the handler for known scanners. *)
Definition MALICIOUS_SCANNERS : regexp :=
  ci (Alts [ Lit "sqlmap"; Lit "nikto"; Lit "zmeu"; Lit "morfeus";
             Lit "zgrab"; Lit "wpscan"; Lit "acunetix"; Lit "havij";
             Lit "w3af" ]).

(** The words of [MALICIOUS_SCANNERS], and each as an expression of its
    own: the known-malicious part of the user-agent denylist. *)
Definition MALICIOUS_WORDS : list string :=
  [ "sqlmap"; "nikto"; "zmeu"; "morfeus"; "zgrab"; "wpscan"; "acunetix";
    "havij"; "w3af" ].

Definition MALICIOUS_SIGNATURES : list regexp :=
  map (fun word => ci (Lit word)) MALICIOUS_WORDS.

(** A request as the filter sees it: the method, the path and query of
    the parsed URL, and the headers (names in lower case, one value per
    name, as a [Headers] object keeps them). *)
Record request : Type := Request {
  method : string;
  pathname : string;
  search : string;
  headers : list (string * string)
}.

Definition headers_get (h : list (string * string)) (name : string)
  : option string :=
  option_map snd (find (fun kv => String.eqb (fst kv) name) h).

Definition headers_has (h : list (string * string)) (name : string) : bool :=
  existsb (fun kv => String.eqb (fst kv) name) h.

Definition isBlockedExtension (pathname : string) : bool :=
  let lowerPath := JS.toLowerCase pathname in
  existsb (fun ext => JS.endsWith lowerPath ext) BLOCKED_EXTENSIONS.

Definition isBlockedPath (pathname : string) : bool :=
  existsb (fun pattern => test pattern pathname) BLOCKED_PATH_PATTERNS.

Definition hasSuspiciousQuery (search : string) : bool :=
  if String.eqb search "" then false
  else existsb (fun pattern => test pattern search) BLOCKED_QUERY_PATTERNS.

Definition isSuspiciousUserAgent (userAgent : option string) : bool :=
  if negb (JS.truthy userAgent) then true
  else existsb (fun pattern => test pattern (JS.orElse userAgent ""))
               BLOCKED_USER_AGENTS.

Definition hasSuspiciousHeaders (req : request) : bool :=
  existsb (fun header => headers_has (headers req) header) SUSPICIOUS_HEADERS.

Definition isOversizedRequest (req : request) : bool :=
  let contentLength := headers_get (headers req) "content-length" in
  if JS.truthy contentLength
  then JS.gt (JS.parseInt (JS.orElse contentLength "")) 1048576
  else false.

(** What the filter answers: a response of its own, or [context.next()]. *)
Inductive outcome : Type :=
| Respond (body : string) (status : Z)
| Next.

(** The result of one run: the lines written to the log, in order, and
    the outcome. *)
Definition result : Type := (list string * outcome)%type.

(** The method policy and the POST allow-list: the part of the handler
    below the user-agent check. *)
Definition methodPolicy (req : request) : result :=
  let pathname := pathname req in
  let method := JS.toUpperCase (method req) in
  let isAdminPath := JS.startsWith pathname "/api/admin/" in
  let allowedMethods :=
    if isAdminPath
    then ["GET"; "HEAD"; "OPTIONS"; "POST"; "PUT"; "DELETE"]
    else ["GET"; "HEAD"; "OPTIONS"; "POST"] in
  if negb (existsb (String.eqb method) allowedMethods)
  then (["Blocked request (method): " ++ method ++ " " ++ pathname],
        Respond "Method Not Allowed" 405)
  else
    if String.eqb method "POST" &&
       negb (existsb (fun path => JS.startsWith pathname path)
                     ["/api/send-email"; "/api/admin/"; "/.netlify/functions/"])
    then (["Blocked POST to non-allowed path: " ++ pathname],
          Respond "Method Not Allowed" 405)
    else ([], Next).

(** The handler (the default export). *)
Definition handler (req : request) : result :=
  let pathname := pathname req in
  let search := search req in
  let userAgent := headers_get (headers req) "user-agent" in
  if isOversizedRequest req
  then (["Blocked request (oversized): " ++ pathname],
        Respond "Payload Too Large" 413)
  else if isBlockedExtension pathname
  then (["Blocked request (extension): " ++ pathname],
        Respond "Not Found" 404)
  else if isBlockedPath pathname
  then (["Blocked request (path pattern): " ++ pathname],
        Respond "Not Found" 404)
  else if hasSuspiciousQuery search
  then (["Blocked request (suspicious query): " ++ pathname ++ search],
        Respond "Bad Request" 400)
  else if hasSuspiciousHeaders req
  then (["Blocked request (suspicious headers): " ++ pathname],
        Respond "Bad Request" 400)
  else if isSuspiciousUserAgent userAgent
  then
    if JS.truthy userAgent &&
       test MALICIOUS_SCANNERS (JS.orElse userAgent "")
    then (["Blocked request (malicious UA): " ++ JS.orElse userAgent ""
             ++ " for " ++ pathname],
          Respond "Forbidden" 403)
    else
      let '(logs, out) := methodPolicy req in
      (("Suspicious user agent detected: " ++ JS.orElse userAgent "(empty)"
          ++ " for " ++ pathname) :: logs, out)
  else methodPolicy req.

Definition status_of (r : result) : option Z :=
  match snd r with
  | Respond _ st => Some st
  | Next => None
  end.

End Security.

(* ------------------------------------------------------------------ *)
(** * The admin API: one-time-password login and sessions *)

Module AdminApi.
Import Regex.

(** ** The store *)

(** [INTERVAL 'n minutes'] and [INTERVAL 'n hours'] in microseconds. *)
Definition minutes (n : Z) : Z := n * 60 * 1000000.
Definition hours (n : Z) : Z := n * 60 * minutes 1.

(** A row of [otp_codes]. *)
Record otp_row : Type := OtpRow {
  otp_id : Z;
  otp_email : string;
  otp_code : string;
  otp_expires_at : Z;
  otp_used : bool;
  otp_created_at : Z
}.

(** A row of [admin_sessions]. *)
Record session_row : Type := SessionRow {
  ses_id : Z;
  ses_token : string;
  ses_email : string;
  ses_expires_at : Z;
  ses_created_at : Z
}.

(** The two tables of the login flow with their SERIAL sequences. *)
Record db : Type := Db {
  otp_codes : list otp_row;
  otp_seq : Z;
  admin_sessions : list session_row;
  ses_seq : Z
}.

Definition empty_db : db := Db [] 1 [] 1.

(** ** The environment of one invocation *)

(** [Netlify.env] *)
Record env : Type := Env {
  ADMIN_EMAIL : option string;
  RESEND_API_KEY : option string;
  FROM_EMAIL : option string
}.

(** How the call to the mail API ends. *)
Inductive fetch_result : Type :=
| FetchOk        (* a response with [ok] *)
| FetchNotOk     (* a response without [ok] *)
| FetchThrows.   (* the promise is rejected *)

(** What one invocation takes from outside: the clock, the values
    [generateOTP()] and [generateSessionToken()] draw, and the answer
    of the mail API. *)
Record world : Type := World {
  now : Z;
  otp_draw : string;
  token_draw : string;
  mail_api : fetch_result
}.

(** The JSON body of a request: the fields the handlers read, each a
    string or absent. *)
Record json_body : Type := Body {
  email : option string;
  code : option string
}.

(** [body] is [None] when [request.json()] is rejected. *)
Record request : Type := Request {
  method : string;
  pathname : string;
  authorization : option string;
  body : option json_body
}.

(** ** Responses *)

Inductive payload : Type :=
| PNull                                   (* no body *)
| PError (message : string)               (* [{ error }] *)
| PSent                                   (* [{ sent: true }] *)
| PToken (token : string) (expiresIn : Z) (* [{ token, expiresIn }] *)
| PSuccess.                               (* [{ success: true }] *)

(** The handlers of the client and inquiry routes; they run behind the
    authentication check and are not part of this model. *)
Inductive crud : Type :=
| GetClients | GetInquiries | CreateClient | LinkInquiry
| UpdateClient | DeleteClient.

Inductive answer : Type :=
| Reply (status : Z) (data : payload)
| Routed (h : crud).

(** The request sent to the mail API: sender, recipient, subject and
    the code interpolated into the markup. *)
Record mail : Type := Mail {
  mail_from : string;
  mail_to : string;
  mail_subject : string;
  mail_code : string
}.

(** The result of one invocation: the store afterwards, the requests
    issued to the mail API, and the answer. *)
Record result : Type := Result {
  db_after : db;
  mails : list mail;
  reply : answer
}.

Definition jsonResponse (data : payload) (status : Z) : answer :=
  Reply status data.

Definition errorResponse (message : string) (status : Z) : answer :=
  jsonResponse (PError message) status.

Definition handleCors : answer := Reply 204 PNull.

Definition status_of (a : answer) : option Z :=
  match a with
  | Reply st _ => Some st
  | Routed _ => None
  end.

(** ** Queries *)

(** [WHERE email = .. AND code = .. AND expires_at > NOW() AND used = FALSE] *)
Definition valid_otp (em c : string) (t : Z) (r : otp_row) : bool :=
  String.eqb (otp_email r) em && String.eqb (otp_code r) c &&
  Z.ltb t (otp_expires_at r) && negb (otp_used r).

(** [ORDER BY created_at DESC LIMIT 1]; among rows of equal
    [created_at] the first in table order is taken. *)
Fixpoint latest (rows : list otp_row) : option otp_row :=
  match rows with
  | [] => None
  | r :: rs =>
      match latest rs with
      | Some r' =>
          if Z.ltb (otp_created_at r) (otp_created_at r') then Some r' else Some r
      | None => Some r
      end
  end.

(** [SET used = TRUE] on one row. *)
Definition set_used (r : otp_row) : otp_row :=
  OtpRow (otp_id r) (otp_email r) (otp_code r)
         (otp_expires_at r) true (otp_created_at r).

(** [UPDATE otp_codes SET used = TRUE WHERE id = ..] *)
Definition mark_used (id : Z) (rows : list otp_row) : list otp_row :=
  map (fun r => if Z.eqb (otp_id r) id then set_used r else r) rows.

(** [DELETE FROM otp_codes WHERE expires_at < NOW()] *)
Definition purge_codes (t : Z) (rows : list otp_row) : list otp_row :=
  filter (fun r => negb (Z.ltb (otp_expires_at r) t)) rows.

(** [DELETE FROM admin_sessions WHERE expires_at < NOW()] *)
Definition purge_sessions (t : Z) (rows : list session_row) : list session_row :=
  filter (fun s => negb (Z.ltb (ses_expires_at s) t)) rows.

(** [SELECT COUNT( * ) .. WHERE email = .. AND created_at > NOW() - INTERVAL '15 minutes'] *)
Definition recent_count (em : string) (t : Z) (rows : list otp_row) : Z :=
  Z.of_nat (List.length
    (filter (fun r => String.eqb (otp_email r) em &&
                      Z.ltb (t - minutes 15) (otp_created_at r)) rows)).

(** [SELECT * FROM admin_sessions WHERE token = .. AND expires_at > NOW()] *)
Definition live_sessions (token : string) (t : Z) (rows : list session_row)
  : list session_row :=
  filter (fun s => String.eqb (ses_token s) token && Z.ltb t (ses_expires_at s))
         rows.

(** ** The handlers *)

Definition checkAuth (t : Z) (d : db) (req : request) : bool :=
  let authHeader := authorization req in
  if negb (JS.truthy authHeader) ||
     negb (JS.startsWith (JS.orElse authHeader "") "Bearer ")
  then false
  else
    let token := JS.replace (JS.orElse authHeader "") "Bearer " "" in
    Nat.ltb 0 (List.length (live_sessions token t (admin_sessions d))).

Definition sendOTP (e : env) (w : world) (d : db) (req : request) : result :=
  match body req with
  | None => Result d [] (errorResponse "Failed to send verification code" 500)
  | Some b =>
    if negb (JS.truthy (email b))
    then Result d [] (errorResponse "Email is required" 400)
    else
      let email := JS.orElse (email b) "" in
      if negb (JS.truthy (ADMIN_EMAIL e))
      then Result d [] (errorResponse "Admin login not configured" 500)
      else
        let adminEmail := JS.orElse (ADMIN_EMAIL e) "" in
        if negb (String.eqb (JS.toLowerCase email) (JS.toLowerCase adminEmail))
        then Result d [] (jsonResponse PSent 200)
        else
          (* Clean up expired OTP codes *)
          let codes := purge_codes (now w) (otp_codes d) in
          let d1 := Db codes (otp_seq d) (admin_sessions d) (ses_seq d) in
          (* Rate limit *)
          if Z.leb 5 (recent_count (JS.toLowerCase email) (now w) codes)
          then Result d1 [] (errorResponse "Too many attempts. Try again later." 429)
          else
            let code := otp_draw w in
            let row := OtpRow (otp_seq d) (JS.toLowerCase email) code
                              (now w + minutes 10) false (now w) in
            let d2 := Db (codes ++ [row]) (otp_seq d + 1)
                         (admin_sessions d) (ses_seq d) in
            if negb (JS.truthy (RESEND_API_KEY e)) || negb (JS.truthy (FROM_EMAIL e))
            then Result d2 [] (errorResponse "Email service not configured" 500)
            else
              let msg := Mail ("The Scale Rebel <" ++ JS.orElse (FROM_EMAIL e) "" ++ ">")
                              email "Your admin login code" code in
              match mail_api w with
              | FetchThrows =>
                  Result d2 [msg] (errorResponse "Failed to send verification code" 500)
              | FetchNotOk =>
                  Result d2 [msg] (errorResponse "Failed to send verification email" 500)
              | FetchOk => Result d2 [msg] (jsonResponse PSent 200)
              end
  end.

Definition verifyOTP (e : env) (w : world) (d : db) (req : request) : result :=
  match body req with
  | None => Result d [] (errorResponse "Verification failed" 500)
  | Some b =>
    if negb (JS.truthy (email b)) || negb (JS.truthy (code b))
    then Result d [] (errorResponse "Email and code are required" 400)
    else
      let email := JS.orElse (email b) "" in
      let code := JS.orElse (code b) "" in
      let adminEmail := ADMIN_EMAIL e in
      if negb (JS.truthy adminEmail) ||
         negb (String.eqb (JS.toLowerCase email)
                          (JS.toLowerCase (JS.orElse adminEmail "")))
      then Result d [] (errorResponse "Invalid code" 401)
      else
        (* Find valid OTP *)
        match latest (filter (valid_otp (JS.toLowerCase email) code (now w))
                             (otp_codes d)) with
        | None => Result d [] (errorResponse "Invalid or expired code" 401)
        | Some otp =>
          (* Mark OTP as used *)
          let codes := mark_used (otp_id otp) (otp_codes d) in
          (* Clean up old sessions *)
          let sessions := purge_sessions (now w) (admin_sessions d) in
          (* Create session (valid for 24 hours) *)
          let token := token_draw w in
          if existsb (fun s => String.eqb (ses_token s) token) sessions
          then (* the UNIQUE constraint on [token] rejects the INSERT *)
            Result (Db codes (otp_seq d) sessions (ses_seq d + 1)) []
                   (errorResponse "Verification failed" 500)
          else
            let row := SessionRow (ses_seq d) token (JS.toLowerCase email)
                                  (now w + hours 24) (now w) in
            Result (Db codes (otp_seq d) (sessions ++ [row]) (ses_seq d + 1)) []
                   (jsonResponse (PToken token 86400) 200)
        end
  end.

Definition logout (d : db) (req : request) : result :=
  let authHeader := authorization req in
  let d' :=
    if JS.truthy authHeader && JS.startsWith (JS.orElse authHeader "") "Bearer "
    then
      let token := JS.replace (JS.orElse authHeader "") "Bearer " "" in
      Db (otp_codes d) (otp_seq d)
         (filter (fun s => negb (String.eqb (ses_token s) token)) (admin_sessions d))
         (ses_seq d)
    else d in
  Result d' [] (jsonResponse PSuccess 200).

Definition route (suffix : string) : regexp := cs (Seq (Lit suffix) Eol).

(** The routes behind the authentication check. *)
Definition authenticated (w : world) (d : db) (req : request) : result :=
  let pathname := pathname req in
  if negb (checkAuth (now w) d req)
  then Result d [] (errorResponse "Unauthorized" 401)
  else
    if String.eqb (method req) "GET" && test (route "/api/admin/clients") pathname
    then Result d [] (Routed GetClients)
    else if String.eqb (method req) "GET" && test (route "/api/admin/inquiries") pathname
    then Result d [] (Routed GetInquiries)
    else if String.eqb (method req) "POST" && test (route "/api/admin/clients") pathname
    then Result d [] (Routed CreateClient)
    else if String.eqb (method req) "POST" && test (route "/api/admin/inquiries/link") pathname
    then Result d [] (Routed LinkInquiry)
    else if String.eqb (method req) "PUT" && test (route "/api/admin/clients") pathname
    then Result d [] (Routed UpdateClient)
    else if String.eqb (method req) "DELETE" && test (route "/api/admin/clients") pathname
    then Result d [] (Routed DeleteClient)
    else Result d [] (errorResponse "Not found" 404).

(** The main handler.  [initializeDatabase] creates the tables when
    they do not exist and leaves an existing store as it is. *)
Definition handler (e : env) (w : world) (d : db) (req : request) : result :=
  if String.eqb (method req) "OPTIONS"
  then Result d [] handleCors
  else
    let pathname := pathname req in
    if String.eqb (method req) "POST" && test (route "/api/admin/otp/send") pathname
    then sendOTP e w d req
    else if String.eqb (method req) "POST" && test (route "/api/admin/otp/verify") pathname
    then verifyOTP e w d req
    else if String.eqb (method req) "POST" && test (route "/api/admin/otp/logout") pathname
    then logout d req
    else authenticated w d req.

(** Whether a request reaches the authentication check: every request
    but the CORS preflight and the three OTP routes. *)
Definition requires_auth (req : request) : bool :=
  negb (String.eqb (method req) "OPTIONS") &&
  negb (String.eqb (method req) "POST" &&
        (test (route "/api/admin/otp/send") (pathname req) ||
         test (route "/api/admin/otp/verify") (pathname req) ||
         test (route "/api/admin/otp/logout") (pathname req))).

(** ** Runs *)

(** One request served: what came from outside and the request. *)
Definition event : Type := (world * request)%type.

Definition step (e : env) (d : db) (ev : event) : db :=
  db_after (handler e (fst ev) d (snd ev)).

Definition run (e : env) (d : db) (evs : list event) : db :=
  fold_left (step e) evs d.

(** The stores the handler can produce from the empty one. *)
Definition reachable (e : env) (d : db) : Prop :=
  exists evs, run e empty_db evs = d.

(** ** Well-formedness of the store *)

Definition otp_row_ok (r : otp_row) : bool :=
  Z.eqb (otp_expires_at r) (otp_created_at r + minutes 10).

Definition session_row_ok (s : session_row) : bool :=
  Z.eqb (ses_expires_at s) (ses_created_at s + hours 24).

Fixpoint distinct (l : list string) : bool :=
  match l with
  | [] => true
  | x :: l' => negb (existsb (String.eqb x) l') && distinct l'
  end.

(** Codes expire ten minutes after their creation, sessions twenty-four
    hours after theirs, and no two sessions share a token. *)
Definition db_ok (d : db) : bool :=
  forallb otp_row_ok (otp_codes d) &&
  forallb session_row_ok (admin_sessions d) &&
  distinct (map ses_token (admin_sessions d)).

End AdminApi.

(* ------------------------------------------------------------------ *)
(** * The contact-form mailer (send-email) *)

Module SendEmail.
Import Regex.

(** The submitted form: every field a string or absent. *)
Record FormData : Type := Form {
  name : option string;
  email : option string;
  phone : option string;
  company : option string;
  budget : option string;
  message : option string;
  website : option string   (* the honeypot *)
}.

(** What [req.json()] gives: a syntax error, [null], or a value whose
    fields can be read. *)
Inductive json : Type :=
| BadJson
| JsonNull
| Json (formData : FormData).

Record request : Type := Request {
  method : string;
  body : json
}.

Record env : Type := Env {
  RESEND_API_KEY : option string;
  CONTACT_EMAIL : option string;
  FROM_EMAIL : option string
}.

(** The error object of the mail API, as far as the handler reads it. *)
Record error_json : Type := ErrorJson {
  err_name : option string;
  err_message : option string;
  err_statusCode : option Z
}.

(** How the first call to the mail API ends; [errorData] is [None] when
    the error text is not JSON or is [null].  The second call, for the
    confirmation, sits in a [try] of its own and its outcome is not
    looked at. *)
Inductive fetch_result : Type :=
| FetchThrows
| FetchResponse (ok : bool) (status : Z) (errorData : option error_json).

Record world : Type := World {
  now : Z;
  notify_api : fetch_result;   (* the mail to the site owner *)
  store_throws : bool          (* [neon()] or one of its statements *)
}.

(** A row of [inquiries]. *)
Record inquiry : Type := Inquiry {
  inq_id : Z;
  inq_client_id : option Z;
  inq_name : string;
  inq_email : string;
  inq_company : option string;
  inq_budget : option string;
  inq_message : string;
  inq_created_at : Z
}.

Record store : Type := Store {
  inquiries : list inquiry;
  inquiries_seq : Z
}.

(** A request to the mail API: the addressing, the subject, and the
    values interpolated into the HTML and text bodies, in order. *)
Record mail : Type := Mail {
  mail_from : string;
  mail_to : string;
  mail_reply_to : string;
  mail_subject : string;
  mail_values : list string
}.

Inductive payload : Type :=
| PSuccess (message : string)   (* [{ success: true, message }] *)
| PError (error : string).      (* [{ error }] *)

Record result : Type := Result {
  store_after : store;
  mails : list mail;
  status : Z;
  data : payload
}.

Definition isValidEmail (email : string) : bool :=
  let notSpaceAt := Cls true (space_ranges ++ [("@"%char, "@"%char)]) in
  test (cs (Cat [Bol; Plus notSpaceAt; Lit "@"; Plus notSpaceAt; Lit ".";
                 Plus notSpaceAt; Eol])) email.

Definition escape_char (c : ascii) : string :=
  if Ascii.eqb c "&" then "&amp;"
  else if Ascii.eqb c "<" then "&lt;"
  else if Ascii.eqb c ">" then "&gt;"
  else if N.eqb (JS.code c) 34 then "&quot;"
  else if Ascii.eqb c "'" then "&#039;"
  else String c EmptyString.

Fixpoint escapeHtml (text : string) : string :=
  match text with
  | EmptyString => EmptyString
  | String c s => escape_char c ++ escapeHtml s
  end.

(** [text.replace(/\n/g, "<br>")] *)
Fixpoint breakLines (text : string) : string :=
  match text with
  | EmptyString => EmptyString
  | String c s =>
      if N.eqb (JS.code c) 10 then "<br>" ++ breakLines s
      else String c (breakLines s)
  end.

Definition sanitizeInput (text : string) (maxLength : N) : string :=
  JS.slice0 (N.to_nat maxLength) (JS.trim text).

Definition notSpace : re := Cls true space_ranges.
Definition httpScheme : re := Cat [Lit "http"; Opt (Chr "s"); Lit "://"].

Definition spamPatterns : list regexp :=
  [ ci (Lit "[url=");
    ci (Lit "[/url]");
    ci (Cat [Lit "<a"; Plus Space; Lit "href="]);
    ci (Cat [httpScheme; Plus notSpace; Plus Space;
             httpScheme; Plus notSpace; Plus Space; httpScheme]);
    ci (Alts [Lit "viagra"; Lit "cialis"; Lit "casino"; Lit "lottery";
              Lit "winner"; Cat [Lit "bitcoin"; Star Any; Lit "invest"]]);
    ci (Cat [Lit "click"; Plus Space; Lit "here"; Star Any; Lit "http"]);
    ci (Alts [Lit "$$$"; Lit "make money fast";
              Cat [Lit "work from home"; Star Any; Lit "$"]]) ].

Definition containsSpamPatterns (text : string) : bool :=
  existsb (fun pattern => test pattern text) spamPatterns.

Definition isValidName (name : string) : bool :=
  if test (ci httpScheme) name then false
  else if test (cs (Cls false
                 [("<"%char, "<"%char); (">"%char, ">"%char);
                  ("{"%char, "{"%char); ("}"%char, "}"%char);
                  ("["%char, "["%char); ("]"%char, "]"%char);
                  ("\"%char, "\"%char); ("/"%char, "/"%char)])) name
  then false
  else if negb (test (cs (Cls false [("a"%char, "z"%char); ("A"%char, "Z"%char)])) name)
  then false
  else true.

(** [s.includes(p)] on a value that may be absent ([?.]). *)
Definition includes_opt (s : option string) (p : string) : bool :=
  match s with
  | Some s => JS.includes s p
  | None => false
  end.

Definition configIssue : string :=
  "Email service configuration issue. Please contact us directly.".

(** The message for the caller when the mail API refuses the mail. *)
Definition userMessage (status : Z) (errorData : option error_json) : string :=
  match errorData with
  | None => "Failed to send email. Please try again later."
  | Some errorJson =>
      if match err_name errorJson with
         | Some n => String.eqb n "validation_error"
         | None => false
         end
      then
        if includes_opt (err_message errorJson) "verify a domain"
        then "Email service configuration issue. Please contact us directly via phone or email."
        else if includes_opt (err_message errorJson) "can only send"
        then configIssue
        else if includes_opt (err_message errorJson) "invalid" &&
                includes_opt (err_message errorJson) "from"
        then configIssue
        else configIssue
      else if Z.eqb status 403 ||
              match err_statusCode errorJson with
              | Some c => Z.eqb c 403
              | None => false
              end
      then configIssue
      else if Z.eqb status 401 then configIssue
      else if Z.eqb status 429
      then "Too many requests. Please wait a moment and try again."
      else "Failed to send email. Please try again later."
  end.

Definition sentOk : payload := PSuccess "Email sent successfully".

(** The handler (the default export). *)
Definition handler (e : env) (w : world) (st : store) (req : request) : result :=
  if negb (String.eqb (method req) "POST")
  then Result st [] 405 (PError "Method not allowed")
  else
    match body req with
    | BadJson => Result st [] 400 (PError "Invalid request format")
    | JsonNull => Result st [] 500 (PError "Internal server error")
    | Json formData =>
      (* Honeypot spam check *)
      if JS.truthy (website formData) &&
         negb (String.eqb (JS.trim (JS.orElse (website formData) "")) "")
      then Result st [] 200 sentOk
      else
        let name := sanitizeInput (JS.orElse (name formData) "") 200 in
        let email := sanitizeInput (JS.orElse (email formData) "") 254 in
        let phone :=
          if JS.truthy (phone formData)
          then Some (sanitizeInput (JS.orElse (phone formData) "") 30)
          else None in
        let message := sanitizeInput (JS.orElse (message formData) "") 10000 in
        if String.eqb name "" || String.eqb email "" || String.eqb message ""
        then Result st [] 400
               (PError "Missing required fields: name, email, and message are required")
        else if negb (isValidEmail email)
        then Result st [] 400 (PError "Please provide a valid email address")
        else if negb (isValidName name)
        then Result st [] 400 (PError "Please provide a valid name")
        else if containsSpamPatterns message || containsSpamPatterns name
        then Result st [] 200 sentOk
        else
          if negb (JS.truthy (RESEND_API_KEY e)) ||
             negb (JS.truthy (CONTACT_EMAIL e)) ||
             negb (JS.truthy (FROM_EMAIL e))
          then Result st [] 500
                 (PError "Email service not configured. Please contact us directly.")
          else
            let fromEmail := JS.orElse (FROM_EMAIL e) "" in
            let recipientEmail := JS.orElse (CONTACT_EMAIL e) "" in
            let notification :=
              Mail fromEmail recipientEmail email
                   ("New Inquiry from " ++ escapeHtml name)
                   [ escapeHtml name; escapeHtml email;
                     (if JS.truthy phone then escapeHtml (JS.orElse phone "")
                      else "Not provided");
                     breakLines (escapeHtml message);
                     name; email; JS.orElse phone "Not provided"; message ] in
            match notify_api w with
            | FetchThrows =>
                Result st [notification] 500 (PError "Internal server error")
            | FetchResponse false status errorData =>
                Result st [notification] 500 (PError (userMessage status errorData))
            | FetchResponse true _ _ =>
                (* Confirmation to the submitter; a failure is only logged *)
                let confirmation :=
                  (* the dash of the subject, U+2014, is above U+00FF: the
                     constant is given in UTF-8; no handler reads it *)
                  Mail fromEmail email recipientEmail
                       "Got your message — Scale Rebel Studio"
                       [ escapeHtml (JS.firstWord name); JS.firstWord name ] in
                (* Store inquiry in database; a failure is only logged *)
                let st' :=
                  if store_throws w then st
                  else
                    let company :=
                      if JS.truthy (company formData)
                      then Some (sanitizeInput (JS.orElse (company formData) "") 200)
                      else None in
                    let budget :=
                      if JS.truthy (budget formData)
                      then Some (sanitizeInput (JS.orElse (budget formData) "") 100)
                      else None in
                    Store (inquiries st ++
                             [Inquiry (inquiries_seq st) None name email
                                      company budget message (now w)])
                          (inquiries_seq st + 1) in
                Result st' [notification; confirmation] 200 sentOk
            end
    end.

End SendEmail.

(* ------------------------------------------------------------------ *)
(** * Predicates on the characters of a string *)

Module Chars.
Import Regex.

Fixpoint all_chars (P : ascii -> bool) (s : string) : bool :=
  match s with
  | EmptyString => true
  | String c s' => P c && all_chars P s'
  end.

Fixpoint any_char (P : ascii -> bool) (s : string) : bool :=
  match s with
  | EmptyString => false
  | String c s' => P c || any_char P s'
  end.

(** The expressions that consume exactly one character, with the test
    they put the character to. *)
Definition single (ic : bool) (r : re) : option (ascii -> bool) :=
  match r with
  | Chr p => Some (chr_eq ic p)
  | Any => Some (fun c => negb (JS.is_line_terminator c))
  | Cls neg rs => Some (fun c => xorb neg (cls_mem ic rs c))
  | _ => None
  end.

(** The characters [[^\s@]] admits, and the shape
    [local@domain.rest] of the strings [isValidEmail] accepts. *)
Definition email_char (c : ascii) : bool :=
  negb (JS.is_space c) && negb (Ascii.eqb c "@").

Definition email_shape (s : string) : Prop :=
  exists a b c : string,
    s = (a ++ "@" ++ b ++ "." ++ c)%string /\
    a <> ""%string /\ b <> ""%string /\ c <> ""%string /\
    all_chars email_char a = true /\
    all_chars email_char b = true /\
    all_chars email_char c = true.

(** The characters [isValidName] refuses, and the ASCII letters. *)
Definition name_special (c : ascii) : bool :=
  existsb (Ascii.eqb c)
    ["<"%char; ">"%char; "{"%char; "}"%char; "["%char; "]"%char;
     "\"%char; "/"%char].

Definition letter (c : ascii) : bool := JS.is_lower c || JS.is_upper c.

(** The characters that open or close markup or an attribute value:
    [<], [>], the double quote and the single quote. *)
Definition html_unsafe (c : ascii) : bool :=
  existsb (Ascii.eqb c) ["<"%char; ">"%char; ascii_of_N 34; "'"%char].

(** The literal words among the spam patterns of the contact form. *)
Definition SPAM_WORDS : list string :=
  [ "[url="; "[/url]"; "viagra"; "cialis"; "casino"; "lottery"; "winner";
    "$$$"; "make money fast" ].

End Chars.

(* ------------------------------------------------------------------ *)
(** * The literal signatures of the edge filter *)

Module Signatures.

(** The words of the path patterns that are plain text, without anchor,
    class or look-ahead. *)
Definition PATH_WORDS : list string :=
  [ "/wp-admin"; "/wp-content"; "/wp-includes"; "/wp-login"; "/wp-config";
    "/wp-json"; "/xmlrpc"; "/wp-cron"; "/wp-trackback"; "/wp-comments";
    "/wordpress";
    "/administrator"; "/joomla"; "/drupal"; "/magento"; "/phpmyadmin";
    "/cpanel"; "/plesk"; "/webmail"; "/roundcube"; "/squirrelmail";
    "/shell"; "/c99"; "/r57"; "/alfa"; "/b374k"; "/weevely"; "/wso";
    ".git/"; ".svn/"; ".hg/"; ".env."; ".htaccess"; ".htpasswd"; ".npmrc";
    ".dockerenv";
    "dump."; "backup."; "database."; "db.";
    "/cgi-bin/"; "/scripts/"; "/bin/"; "/etc/passwd"; "/proc/"; "/var/log";
    "/tmp/";
    "/eval"; "/exec"; "/system"; "/passthru"; "/actuator"; "/console";
    "/debug"; "/trace"; "/manager";
    "/solr"; "/jenkins"; "/struts"; "/log4j"; "/vendor/"; "/node_modules/";
    "/bower_components/" ].

(** The same for the query patterns. *)
Definition QUERY_WORDS : list string :=
  [ "%00"; "\x00"; "<script"; "javascript:"; "vbscript:"; "data:"; "base64,";
    "../"; "%2e%2e"; "$poison"; "cmd="; "passwd"; "etc/shadow"; "phpinfo";
    "file://"; "gopher://"; "dict://" ].

(** The status codes of the filter's own answers. *)
Definition REJECTIONS : list Z := [413; 404; 400; 403; 405].

(** A request the filter answers itself, with one of the given codes. *)
Definition rejected_with (codes : list Z) (r : Security.result) : Prop :=
  exists body st, snd r = Security.Respond body st /\ In st codes.

(** The routes of the contact form and of the admin API: method and
    path. *)
Definition API_ROUTES : list (string * string) :=
  [ ("POST", "/api/send-email");
    ("OPTIONS", "/api/admin/clients");
    ("POST", "/api/admin/otp/send");
    ("POST", "/api/admin/otp/verify");
    ("POST", "/api/admin/otp/logout");
    ("GET", "/api/admin/clients");
    ("POST", "/api/admin/clients");
    ("PUT", "/api/admin/clients");
    ("DELETE", "/api/admin/clients");
    ("GET", "/api/admin/inquiries");
    ("POST", "/api/admin/inquiries/link") ].

End Signatures.

(* ------------------------------------------------------------------ *)
(** * The fields of a submitted form as the handler reads them *)

Module FormFields.
Import SendEmail.

(** The honeypot test and the sanitised fields of a form. *)
Definition tripped (f : FormData) : bool :=
  JS.truthy (website f) && negb (String.eqb (JS.trim (JS.orElse (website f) "")) "").
Definition clean_name (f : FormData) : string :=
  sanitizeInput (JS.orElse (name f) "") 200.
Definition clean_email (f : FormData) : string :=
  sanitizeInput (JS.orElse (email f) "") 254.
Definition clean_message (f : FormData) : string :=
  sanitizeInput (JS.orElse (message f) "") 10000.

End FormFields.

(* ------------------------------------------------------------------ *)
(** * Properties of a store of the admin API *)

Module AdminSpec.
Import AdminApi.

(** The lower-cased admin address of an environment. *)
Definition admin_address (e : env) : string :=
  JS.toLowerCase (JS.orElse (ADMIN_EMAIL e) "").

(** Every stored code and session belongs to the admin address. *)
Definition admin_only (e : env) (d : db) : Prop :=
  (forall r, In r (otp_codes d) -> otp_email r = admin_address e) /\
  (forall s, In s (admin_sessions d) -> ses_email s = admin_address e).

(** The ids of a table are distinct and below the next value of its
    sequence. *)
Definition serial_ok (d : db) : Prop :=
  (forall r, In r (otp_codes d) -> otp_id r < otp_seq d) /\
  NoDup (map otp_id (otp_codes d)) /\
  (forall s, In s (admin_sessions d) -> ses_id s < ses_seq d) /\
  NoDup (map ses_id (admin_sessions d)).

(** The number of codes marked used. *)
Definition used_count (d : db) : nat :=
  List.length (filter otp_used (otp_codes d)).


End AdminSpec.

(* ------------------------------------------------------------------ *)
(** * The session token generator of the admin API *)

Module Token.

(** [s.charAt(n)]: the character at index [n], or the empty string. *)
Definition charAt (s : string) (n : nat) : string :=
  match String.get n s with
  | Some c => String c EmptyString
  | None => EmptyString
  end.

Definition token_chars : string :=
  "ABCDEFGHIJKLMNOPQRSTUVWXYZabcdefghijklmnopqrstuvwxyz0123456789".

(** The loop of [generateSessionToken]: [n] more rounds from round [i];
    [draw i] is the value of
    [Math.floor(Math.random() * chars.length)] in round [i]. *)
Fixpoint token_loop (draw : nat -> nat) (i n : nat) (token : string) : string :=
  match n with
  | O => token
  | S n' => token_loop draw (S i) n' (token ++ charAt token_chars (draw i))
  end.

Definition generateSessionToken (draw : nat -> nat) : string :=
  token_loop draw 0 64 "".

Definition alphanumeric (c : ascii) : bool :=
  JS.is_upper c || JS.is_lower c || JS.is_digit c.

End Token.

(* ------------------------------------------------------------------ *)
(** * Concrete requests and stores used in the examples below *)

Module Examples.

(** A browser asking for a script file. *)
Definition php_get : Security.request :=
  Security.Request "GET" "/index.PHP" ""
    [("user-agent", "Mozilla/5.0")].

(** The same path with a declared body of two million bytes. *)
Definition php_oversized : Security.request :=
  Security.Request "POST" "/index.php" ""
    [("content-length", "2000000"); ("user-agent", "Mozilla/5.0")].

(** A scanner, a request without user-agent, and a mapper. *)
Definition scanner_get : Security.request :=
  Security.Request "GET" "/" "" [("user-agent", "sqlmap/1.7#stable")].

Definition anonymous_get : Security.request :=
  Security.Request "GET" "/portfolio.html" "" [].

Definition nmap_get : Security.request :=
  Security.Request "GET" "/" "" [("user-agent", "Nmap Scripting Engine")].

(** The admin API with its mail service configured. *)
Definition admin_env : AdminApi.env :=
  AdminApi.Env (Some "Owner@ScaleRebel.com") (Some "re_key")
               (Some "login@scalerebel.com").

Definition owner : string := "owner@scalerebel.com".
Definition visitor : string := "visitor@example.org".

Definition send_req (em : string) : AdminApi.request :=
  AdminApi.Request "POST" "/api/admin/otp/send" None
    (Some (AdminApi.Body (Some em) None)).

Definition verify_req (em c : string) : AdminApi.request :=
  AdminApi.Request "POST" "/api/admin/otp/verify" None
    (Some (AdminApi.Body (Some em) (Some c))).

(** An invocation at time [t] whose random draws are [otp] and [tok] and
    whose mail is accepted. *)
Definition at_time (t : Z) (otp tok : string) : AdminApi.world :=
  AdminApi.World t otp tok AdminApi.FetchOk.

(** Two codes requested a minute apart, both drawing 424242. *)
Definition twin_db : AdminApi.db :=
  AdminApi.run admin_env AdminApi.empty_db
    [ (at_time 0 "424242" "", send_req owner);
      (at_time (AdminApi.minutes 1) "424242" "", send_req owner) ].


(** One code requested at time 0. *)
Definition one_code_db : AdminApi.db :=
  AdminApi.run admin_env AdminApi.empty_db
    [ (at_time 0 "424242" "", send_req owner) ].

(** Five codes requested within the first four seconds. *)
Definition five_codes_db : AdminApi.db :=
  AdminApi.run admin_env AdminApi.empty_db
    [ (at_time 0 "100001" "", send_req owner);
      (at_time 1000000 "200002" "", send_req owner);
      (at_time 2000000 "300003" "", send_req owner);
      (at_time 3000000 "400004" "", send_req owner);
      (at_time 4000000 "500005" "", send_req owner) ].

(** A login: a code requested at time 0 and redeemed a minute later for
    the session token [tokA]. *)
Definition session_db : AdminApi.db :=
  AdminApi.run admin_env AdminApi.empty_db
    [ (at_time 0 "424242" "", send_req owner);
      (at_time (AdminApi.minutes 1) "" "tokA", verify_req owner "424242") ].

Definition with_token (meth path : string) : AdminApi.request :=
  AdminApi.Request meth path (Some "Bearer tokA") None.

(** The contact form with its mail service configured, a world in which
    mail and store work, and an empty inquiry table. *)
Definition mail_env : SendEmail.env :=
  SendEmail.Env (Some "re_key") (Some "studio@scalerebel.com")
                (Some "forms@scalerebel.com").

Definition fair_world : SendEmail.world :=
  SendEmail.World 0 (SendEmail.FetchResponse true 200 None) false.

Definition no_inquiries : SendEmail.store := SendEmail.Store [] 1.

(** A submission with the honeypot field set to [site]. *)
(** The string that holds one NO-BREAK SPACE (U+00A0). *)
Definition nbsp : string := String (ascii_of_N 160) EmptyString.

Definition submission (site : option string) : SendEmail.request :=
  SendEmail.Request "POST"
    (SendEmail.Json
       (SendEmail.Form (Some "Ada Lovelace") (Some "ada@example.org") None None
                       None (Some "I would like a website.") site)).

(** A submission whose email lacks the at sign, and one that advertises. *)
Definition no_at_form : SendEmail.FormData :=
  SendEmail.Form (Some "Ada Lovelace") (Some "not-an-email") None None None
                 (Some "I would like a website.") None.

Definition casino_form : SendEmail.FormData :=
  SendEmail.Form (Some "Ada Lovelace") (Some "ada@example.org") None None None
                 (Some "Best CASINO bonus, join now") None.

End Examples.

(* ------------------------------------------------------------------ *)
(** * Facts about the string primitives and the matcher *)

Module JSFacts.
Import JS.

Lemma endsWith_app (pre p : string) : endsWith (pre ++ p) p = true.
Proof.
  induction pre as [|c pre IH]; simpl.
  - destruct p; simpl; [reflexivity|].
    rewrite Ascii.eqb_refl, String.eqb_refl. reflexivity.
  - rewrite IH. apply orb_true_r.
Qed.

Lemma endsWith_suffix (s p : string) :
  endsWith s p = true <-> exists pre, s = (pre ++ p)%string.
Proof.
  split.
  - induction s as [|c s IH]; cbn [endsWith]; intros H.
    + rewrite orb_false_r in H. apply String.eqb_eq in H. subst p.
      exists ""%string. reflexivity.
    + apply orb_true_iff in H. destruct H as [H|H].
      * apply String.eqb_eq in H. exists ""%string. simpl. congruence.
      * destruct (IH H) as [pre ->]. exists (String c pre). reflexivity.
  - intros [pre ->]. apply endsWith_app.
Qed.

Lemma prefix_app (p s : string) : String.prefix p (p ++ s) = true.
Proof.
  induction p as [|c p IH]; simpl.
  - destruct s; reflexivity.
  - destruct (ascii_dec c c); [exact IH | congruence].
Qed.

Lemma drop_app (p s : string) : drop (String.length p) (p ++ s) = s.
Proof. induction p as [|c p IH]; simpl; [reflexivity | exact IH]. Qed.

(** Removing the first occurrence of a prefix removes the prefix. *)
Lemma replace_at_prefix (p t rep : string) :
  String.prefix p t = true ->
  replace t p rep = (rep ++ drop (String.length p) t)%string.
Proof. intros H. destruct t; cbn [replace]; rewrite H; reflexivity. Qed.

Lemma replace_prefix (p s : string) : replace (p ++ s) p "" = s.
Proof.
  rewrite replace_at_prefix by apply prefix_app.
  rewrite drop_app. reflexivity.
Qed.

Lemma prefix_split (p s : string) :
  String.prefix p s = true -> exists t, s = (p ++ t)%string.
Proof.
  revert s. induction p as [|c p IH]; intros s H.
  - exists s. reflexivity.
  - destruct s as [|d s]; simpl in H; [discriminate|].
    destruct (ascii_dec c d) as [->|]; [|discriminate].
    destruct (IH _ H) as [t ->]. exists t. reflexivity.
Qed.

Lemma truthy_Some (s : string) : s <> ""%string -> truthy (Some s) = true.
Proof.
  intros H. simpl. destruct (String.eqb_spec s ""); [contradiction | reflexivity].
Qed.

Lemma orElse_Some (s d : string) : s <> ""%string -> orElse (Some s) d = s.
Proof.
  intros H. simpl. destruct (String.eqb_spec s ""); [contradiction | reflexivity].
Qed.

End JSFacts.

Module RegexFacts.
Import Regex.

(** An alternation is found where one of its branches is. *)
Lemma search_Alt (ic : bool) (a b : re) (s : string) (i : nat) :
  search ic (Alt a b) i s = search ic a i s || search ic b i s.
Proof.
  revert i. induction s as [|c s IH]; intros i; simpl.
  - rewrite !orb_false_r. reflexivity.
  - rewrite IH.
    destruct (m ic a i (String c s) _), (m ic b i (String c s) _),
             (search ic a (S i) s), (search ic b (S i) s); reflexivity.
Qed.

Lemma test_Alt (ic : bool) (a b : re) (s : string) :
  test (RegExp (Alt a b) ic) s = test (RegExp a ic) s || test (RegExp b ic) s.
Proof. apply search_Alt. Qed.

(** *** The iteration is not cut short

    The matcher depends on its continuation pointwise only and fails when
    the continuation always fails; hence the fuel that [Star] passes to
    [star], the length of the input plus one, is as good as any larger
    fuel. *)

Section Fuel.
Variable ic : bool.

Lemma star_ext step : step_ext step -> forall fuel, step_ext (star step fuel).
Proof.
  intros Hstep fuel. induction fuel as [|fuel IH]; intros i s k1 k2 H; cbn [star].
  - rewrite H. reflexivity.
  - rewrite H. f_equal. apply Hstep. intros j t. f_equal. apply IH, H.
Qed.

Lemma m_ext (r : re) : step_ext (m ic r).
Proof.
  induction r as [|p| |neg rs|a IHa b IHb|a IHa b IHb|a IHa| | |a IHa];
    intros i s k1 k2 H; cbn [m].
  - apply H.
  - destruct s; [reflexivity | rewrite H; reflexivity].
  - destruct s; [reflexivity | rewrite H; reflexivity].
  - destruct s; [reflexivity | rewrite H; reflexivity].
  - apply IHa. intros j t. apply IHb, H.
  - rewrite (IHa i s k1 k2 H), (IHb i s k1 k2 H). reflexivity.
  - apply star_ext; assumption.
  - rewrite H. reflexivity.
  - rewrite H. reflexivity.
  - rewrite H. reflexivity.
Qed.

Lemma star_strict step :
  step_ext step -> step_strict step -> forall fuel, step_strict (star step fuel).
Proof.
  intros Hext Hstrict fuel. induction fuel as [|fuel IH]; intros i s; cbn [star].
  - reflexivity.
  - cbn [orb]. transitivity (step i s (fun _ _ => false)); [|apply Hstrict].
    apply Hext. intros j t. rewrite IH. apply andb_false_r.
Qed.

Lemma m_strict (r : re) : step_strict (m ic r).
Proof.
  induction r as [|p| |neg rs|a IHa b IHb|a IHa b IHb|a IHa| | |a IHa];
    intros i s; cbn [m].
  - reflexivity.
  - destruct s; [reflexivity | apply andb_false_r].
  - destruct s; [reflexivity | apply andb_false_r].
  - destruct s; [reflexivity | apply andb_false_r].
  - transitivity (m ic a i s (fun _ _ => false)); [|apply IHa].
    apply m_ext. intros j t. apply IHb.
  - rewrite IHa, IHb. reflexivity.
  - apply star_strict; [apply m_ext | exact IHa].
  - apply andb_false_r.
  - apply andb_false_r.
  - apply andb_false_r.
Qed.

Lemma star_fuel step :
  step_ext step -> step_strict step ->
  forall fuel i s k,
    (String.length s <= fuel)%nat ->
    star step (S fuel) i s k = star step fuel i s k.
Proof.
  intros Hext Hstrict fuel.
  induction fuel as [|fuel IH]; intros i s k Hlen;
    cbn [star]; f_equal.
  - transitivity (step i s (fun _ _ => false)); [|apply Hstrict].
    apply Hext. intros j t.
    replace (Nat.ltb (String.length t) (String.length s)) with false;
      [reflexivity|].
    symmetry. apply Nat.ltb_ge. lia.
  - apply Hext. intros j t.
    destruct (Nat.ltb_spec (String.length t) (String.length s)) as [Hlt|Hge];
      [|reflexivity].
    cbn [andb]. apply IH. lia.
Qed.

(** [Star a] with any fuel above the length of the input. *)
Lemma Star_any_fuel (a : re) (extra : nat) (i : nat) (s : string)
      (k : nat -> string -> bool) :
  star (m ic a) (S (String.length s) + extra) i s k = m ic (Star a) i s k.
Proof.
  cbn [m]. induction extra as [|extra IH].
  - rewrite Nat.add_0_r. reflexivity.
  - rewrite Nat.add_succ_r, <- IH.
    apply star_fuel; [apply m_ext | apply m_strict | lia].
Qed.

End Fuel.

(** *** Literal patterns

    On a pattern without operators the matcher is a substring search,
    on the upper-cased strings when the [i] flag is set. *)

Lemma m_Lit (ic : bool) (p : string) :
  forall (i : nat) (s : string) (k : nat -> string -> bool),
    m ic (Lit p) i s k =
    match starts ic p s with
    | Some t => k (i + String.length p)%nat t
    | None => false
    end.
Proof.
  induction p as [|a p IH]; intros i s k.
  - cbn. rewrite Nat.add_0_r. reflexivity.
  - destruct p as [|b p].
    + cbn. destruct s as [|c s]; [reflexivity|].
      rewrite Nat.add_1_r. destruct (chr_eq ic a c); reflexivity.
    + change (Lit (String a (String b p))) with (Seq (Chr a) (Lit (String b p))).
      cbn [m]. destruct s as [|c s]; [reflexivity|].
      cbn [starts]. destruct (chr_eq ic a c); [|reflexivity].
      cbn [andb]. rewrite IH.
      replace (S i + String.length (String b p))%nat
        with (i + String.length (String a (String b p)))%nat
        by (cbn [String.length]; lia).
      reflexivity.
Qed.

Lemma starts_prefix (ic : bool) (p s : string) :
  is_some (starts ic p s) = String.prefix (fold_case ic p) (fold_case ic s).
Proof.
  revert s. induction p as [|a p IH]; intros s.
  - destruct ic, s; reflexivity.
  - destruct s as [|c s]; [destruct ic; reflexivity|].
    cbn [starts]. specialize (IH s). unfold chr_eq.
    destruct ic; cbn [fold_case JS.toUpperCase JS.map_string String.prefix] in *.
    + destruct (ascii_dec (JS.upper_char a) (JS.upper_char c)) as [E|E].
      * rewrite E, Ascii.eqb_refl. exact IH.
      * destruct (Ascii.eqb_spec (JS.upper_char a) (JS.upper_char c));
          [contradiction | reflexivity].
    + destruct (ascii_dec a c) as [E|E].
      * rewrite E, Ascii.eqb_refl. exact IH.
      * destruct (Ascii.eqb_spec a c); [contradiction | reflexivity].
Qed.

Lemma search_Lit (ic : bool) (p s : string) (i : nat) :
  search ic (Lit p) i s = JS.includes (fold_case ic s) (fold_case ic p).
Proof.
  assert (E : forall j t,
             m ic (Lit p) j t (fun _ _ => true) =
             String.prefix (fold_case ic p) (fold_case ic t)).
  { intros j t. rewrite m_Lit, <- starts_prefix.
    destruct (starts ic p t); reflexivity. }
  revert i. induction s as [|c s IH]; intros i; cbn [search]; rewrite E.
  - destruct ic; reflexivity.
  - rewrite IH. destruct ic; reflexivity.
Qed.

(** [/word/i.test(s)]: the upper-cased [s] contains the upper-cased
    [word]; [/word/.test(s)]: [s] contains [word]. *)
Lemma test_Lit_ci (p s : string) :
  test (ci (Lit p)) s = JS.includes (JS.toUpperCase s) (JS.toUpperCase p).
Proof. apply (search_Lit true). Qed.

Lemma test_Lit_cs (p s : string) : test (cs (Lit p)) s = JS.includes s p.
Proof. apply (search_Lit false). Qed.

End RegexFacts.

(* ------------------------------------------------------------------ *)
(** * The edge filter: properties *)

Module SecurityProofs.
Import Regex Security.

Lemma malicious_signatures (u : string) :
  test MALICIOUS_SCANNERS u = existsb (fun p => test p u) MALICIOUS_SIGNATURES.
Proof.
  unfold MALICIOUS_SCANNERS, MALICIOUS_SIGNATURES, MALICIOUS_WORDS, ci.
  cbn [Alts existsb map].
  rewrite !RegexFacts.test_Alt, orb_false_r. reflexivity.
Qed.

(** The known-malicious signatures are part of the user-agent denylist. *)
Lemma malicious_subset (p : regexp) :
  In p MALICIOUS_SIGNATURES -> In p BLOCKED_USER_AGENTS.
Proof.
  unfold MALICIOUS_SIGNATURES, MALICIOUS_WORDS, BLOCKED_USER_AGENTS. cbn [In map].
  intros H. repeat (destruct H as [<-|H]; [tauto|]). contradiction.
Qed.

Lemma malicious_is_suspicious (u : string) :
  test MALICIOUS_SCANNERS u = true ->
  existsb (fun p => test p u) BLOCKED_USER_AGENTS = true.
Proof.
  rewrite malicious_signatures. intros H.
  apply existsb_exists in H. destruct H as [p [Hin Hp]].
  apply existsb_exists. exists p. split; [apply malicious_subset, Hin | exact Hp].
Qed.

(** The test for known scanners in words: the upper-cased user-agent
    contains one of the nine words, upper-cased. *)
Lemma malicious_contains (u : string) :
  test MALICIOUS_SCANNERS u =
  existsb (fun word => JS.includes (JS.toUpperCase u) (JS.toUpperCase word))
          MALICIOUS_WORDS.
Proof.
  rewrite malicious_signatures. unfold MALICIOUS_SIGNATURES.
  induction MALICIOUS_WORDS as [|word l IH]; [reflexivity|].
  cbn [map existsb]. rewrite RegexFacts.test_Lit_ci, IH. reflexivity.
Qed.

Lemma malicious_nonempty (u : string) :
  test MALICIOUS_SCANNERS u = true -> u <> ""%string.
Proof. intros H ->. vm_compute in H. discriminate. Qed.

(** The method policy answers 405 or lets the request through. *)
Lemma methodPolicy_status (req : request) :
  status_of (methodPolicy req) = Some 405 \/ snd (methodPolicy req) = Next.
Proof.
  unfold methodPolicy, status_of.
  destruct (negb (existsb _ _)); [left; reflexivity|].
  destruct (_ && _); [left | right]; reflexivity.
Qed.

(** C5, as stated, fails: a path with a blocked extension is answered by
    the earlier oversize rule with 413 when the declared content-length
    exceeds 1 MiB. *)
Lemma blocked_extension_oversized :
  isBlockedExtension (pathname Examples.php_oversized) = true /\
  handler Examples.php_oversized =
    (["Blocked request (oversized): /index.php"], Respond "Payload Too Large" 413).
Proof. split; reflexivity. Qed.

(** C5 (amended): a request whose lower-cased path ends in one of the
    blocked extensions is answered 404 "Not Found" whatever its method,
    query and headers are, unless its declared content-length exceeds
    1 MiB: then the oversize rule, which comes first, answers 413. *)
Theorem blocked_extension_not_found (req : request) (ext pre : string) :
  In ext BLOCKED_EXTENSIONS ->
  JS.toLowerCase (pathname req) = (pre ++ ext)%string ->
  handler req =
    if isOversizedRequest req
    then (["Blocked request (oversized): " ++ pathname req],
          Respond "Payload Too Large" 413)
    else (["Blocked request (extension): " ++ pathname req],
          Respond "Not Found" 404).
Proof.
  intros Hin Hsuf.
  assert (Hext : isBlockedExtension (pathname req) = true).
  { unfold isBlockedExtension. apply existsb_exists. exists ext.
    split; [exact Hin|]. rewrite Hsuf. apply JSFacts.endsWith_app. }
  unfold handler. rewrite Hext. destruct (isOversizedRequest req); reflexivity.
Qed.

Lemma blocked_extension_not_found_witness :
  handler Examples.php_get =
    (["Blocked request (extension): /index.PHP"], Respond "Not Found" 404) /\
  handler (Request "DELETE" "/backup/site.tar.BAK" "?x=1" []) =
    (["Blocked request (extension): /backup/site.tar.BAK"], Respond "Not Found" 404).
Proof.
  split.
  - apply (blocked_extension_not_found Examples.php_get ".php" "/index").
    + left. reflexivity.
    + reflexivity.
  - apply (blocked_extension_not_found
             (Request "DELETE" "/backup/site.tar.BAK" "?x=1" [])
             ".bak" "/backup/site.tar").
    + do 10 right. left. reflexivity.
    + reflexivity.
Defined.

(** C9: a request that reaches the user-agent check (none of the five
    earlier rules fires) is answered 403 when its user-agent matches the
    known-malicious signatures; when the user-agent is empty, absent or
    matches the rest of the denylist only, one line is logged and the
    request goes on to the method policy, whose result is returned. *)
Theorem user_agent_rule (req : request) :
  isOversizedRequest req = false ->
  isBlockedExtension (pathname req) = false ->
  isBlockedPath (pathname req) = false ->
  hasSuspiciousQuery (search req) = false ->
  hasSuspiciousHeaders req = false ->
  let userAgent := headers_get (headers req) "user-agent" in
  (forall u, userAgent = Some u ->
     existsb (fun p => test p u) MALICIOUS_SIGNATURES = true ->
     handler req =
       (["Blocked request (malicious UA): " ++ u ++ " for " ++ pathname req],
        Respond "Forbidden" 403)) /\
  (isSuspiciousUserAgent userAgent = true ->
   (forall u, userAgent = Some u ->
      existsb (fun p => test p u) MALICIOUS_SIGNATURES = false) ->
   handler req =
     (("Suspicious user agent detected: " ++ JS.orElse userAgent "(empty)"
         ++ " for " ++ pathname req) :: fst (methodPolicy req),
      snd (methodPolicy req))).
Proof.
  intros H1 H2 H3 H4 H5 userAgent. unfold handler.
  rewrite H1, H2, H3, H4, H5. fold userAgent. split.
  - intros u Hu Hm. rewrite <- malicious_signatures in Hm.
    pose proof (malicious_nonempty _ Hm) as Hne.
    rewrite Hu. unfold isSuspiciousUserAgent.
    rewrite (JSFacts.truthy_Some _ Hne), !(JSFacts.orElse_Some _ _ Hne).
    cbn [negb andb]. rewrite (malicious_is_suspicious _ Hm), Hm. reflexivity.
  - intros Hs Hm. rewrite Hs.
    assert (Hno : JS.truthy userAgent &&
                  test MALICIOUS_SCANNERS (JS.orElse userAgent "") = false).
    { destruct userAgent as [u|] eqn:E; [|reflexivity].
      simpl. destruct (String.eqb_spec u ""); [reflexivity|].
      rewrite malicious_signatures, (Hm u eq_refl). reflexivity. }
    rewrite Hno. destruct (methodPolicy req). reflexivity.
Qed.

Lemma user_agent_rule_witness :
  handler Examples.scanner_get =
    (["Blocked request (malicious UA): sqlmap/1.7#stable for /"],
     Respond "Forbidden" 403) /\
  handler Examples.anonymous_get =
    (["Suspicious user agent detected: (empty) for /portfolio.html"], Next) /\
  handler Examples.nmap_get =
    (["Suspicious user agent detected: Nmap Scripting Engine for /"], Next).
Proof.
  split; [|split].
  - exact (proj1 (user_agent_rule Examples.scanner_get
                    eq_refl eq_refl eq_refl eq_refl eq_refl)
                 "sqlmap/1.7#stable" eq_refl eq_refl).
  - apply (proj2 (user_agent_rule Examples.anonymous_get
                    eq_refl eq_refl eq_refl eq_refl eq_refl)).
    + reflexivity.
    + intros u Hu. discriminate Hu.
  - apply (proj2 (user_agent_rule Examples.nmap_get
                    eq_refl eq_refl eq_refl eq_refl eq_refl)).
    + reflexivity.
    + intros u Hu. injection Hu as <-. reflexivity.
Defined.

End SecurityProofs.

(* ------------------------------------------------------------------ *)
(** * The admin API: properties *)

Module AdminProofs.
Import AdminApi.

(** ** Lists *)

Lemma filter_none {A : Type} (f : A -> bool) (l : list A) :
  (forall x, In x l -> f x = false) -> filter f l = [].
Proof.
  induction l as [|a l IH]; intros H; simpl; [reflexivity|].
  rewrite (H a (or_introl eq_refl)). apply IH.
  intros x Hx. apply H. right. exact Hx.
Qed.

Lemma forallb_filter {A : Type} (p f : A -> bool) (l : list A) :
  forallb p l = true -> forallb p (filter f l) = true.
Proof.
  rewrite !forallb_forall. intros H x Hx.
  apply filter_In in Hx. apply H, Hx.
Qed.

Lemma filter_idem {A : Type} (f : A -> bool) (l : list A) :
  filter f (filter f l) = filter f l.
Proof.
  induction l as [|a l IH]; simpl; [reflexivity|].
  destruct (f a) eqn:E; simpl; [rewrite E, IH|]; auto.
Qed.

Lemma length_filter_pos {A : Type} (f : A -> bool) (l : list A) :
  Nat.ltb 0 (List.length (filter f l)) = true <->
  exists x, In x l /\ f x = true.
Proof.
  split.
  - destruct (filter f l) as [|x t] eqn:E; [discriminate|].
    intros _. exists x. apply filter_In. rewrite E. left. reflexivity.
  - intros [x Hx]. apply filter_In in Hx.
    destruct (filter f l); [contradiction | reflexivity].
Qed.

Lemma distinct_notin (x : string) (l : list string) :
  existsb (String.eqb x) l = false <-> ~ In x l.
Proof.
  split.
  - intros H Hin. apply Bool.not_true_iff_false in H. apply H.
    apply existsb_exists. exists x. split; [exact Hin | apply String.eqb_refl].
  - intros H. apply Bool.not_true_iff_false. intros E.
    apply existsb_exists in E. destruct E as [y [Hy E]].
    apply String.eqb_eq in E. subst y. contradiction.
Qed.

Lemma distinct_NoDup (l : list string) : distinct l = true <-> NoDup l.
Proof.
  induction l as [|x l IH]; simpl.
  - split; [constructor | reflexivity].
  - rewrite andb_true_iff, negb_true_iff, distinct_notin, IH.
    split; [intros [H1 H2]; constructor; assumption |].
    intros H. inversion H; subst. split; assumption.
Qed.

Lemma NoDup_map_filter {A : Type} (g : A -> string) (f : A -> bool) (l : list A) :
  NoDup (map g l) -> NoDup (map g (filter f l)).
Proof.
  induction l as [|a l IH]; simpl; intros H; [constructor|].
  inversion H as [|? ? Hnotin Hnd]; subst.
  destruct (f a); simpl; [|apply IH, Hnd].
  constructor; [|apply IH, Hnd].
  intros Hin. apply Hnotin. apply in_map_iff in Hin.
  destruct Hin as [y [Hy Hin]]. apply filter_In in Hin.
  apply in_map_iff. exists y. tauto.
Qed.

Lemma NoDup_snoc (x : string) (l : list string) :
  NoDup l -> ~ In x l -> NoDup (l ++ [x]).
Proof.
  induction l as [|a l IH]; simpl; intros Hnd Hx.
  - constructor; [tauto | constructor].
  - inversion Hnd; subst. constructor.
    + rewrite in_app_iff. simpl. intuition congruence.
    + apply IH; tauto.
Qed.

(** ** The store stays well formed *)

Lemma db_ok_iff (d : db) :
  db_ok d = true <->
  forallb otp_row_ok (otp_codes d) = true /\
  forallb session_row_ok (admin_sessions d) = true /\
  NoDup (map ses_token (admin_sessions d)).
Proof.
  unfold db_ok. rewrite !andb_true_iff, distinct_NoDup. tauto.
Qed.

Lemma mark_used_ok (id : Z) (rows : list otp_row) :
  forallb otp_row_ok rows = true -> forallb otp_row_ok (mark_used id rows) = true.
Proof.
  unfold mark_used. induction rows as [|r rows IH]; simpl; [reflexivity|].
  rewrite !andb_true_iff. intros [Hr Hrows]. split; [|apply IH, Hrows].
  destruct (Z.eqb (otp_id r) id); exact Hr.
Qed.

Lemma sendOTP_db_ok (e : env) (w : world) (d : db) (req : request) :
  db_ok d = true -> db_ok (db_after (sendOTP e w d req)) = true.
Proof.
  intros H. pose proof H as H0. apply db_ok_iff in H0. destruct H0 as [Hc [Hs Hn]].
  assert (Hpurged : db_ok (Db (purge_codes (now w) (otp_codes d)) (otp_seq d)
                              (admin_sessions d) (ses_seq d)) = true).
  { apply db_ok_iff. cbn. repeat split; try assumption.
    apply forallb_filter, Hc. }
  assert (Hins : forall em c,
             db_ok (Db (purge_codes (now w) (otp_codes d) ++
                          [OtpRow (otp_seq d) em c (now w + minutes 10) false (now w)])
                       (otp_seq d + 1) (admin_sessions d) (ses_seq d)) = true).
  { intros em c. apply db_ok_iff. cbn [otp_codes admin_sessions].
    repeat split; try assumption.
    rewrite forallb_app. unfold purge_codes.
    rewrite (forallb_filter _ _ _ Hc). cbn.
    unfold otp_row_ok. cbn. rewrite Z.eqb_refl. reflexivity. }
  unfold sendOTP. cbv zeta.
  destruct (body req) as [b|]; [|exact H].
  destruct (negb (JS.truthy (email b))); [exact H|].
  destruct (negb (JS.truthy (ADMIN_EMAIL e))); [exact H|].
  destruct (negb (String.eqb _ _)); [exact H|].
  destruct (Z.leb 5 _); [exact Hpurged|].
  destruct (_ || _); [apply Hins|].
  destruct (mail_api w); apply Hins.
Qed.

Lemma verifyOTP_db_ok (e : env) (w : world) (d : db) (req : request) :
  db_ok d = true -> db_ok (db_after (verifyOTP e w d req)) = true.
Proof.
  intros H. pose proof H as H0. apply db_ok_iff in H0. destruct H0 as [Hc [Hs Hn]].
  unfold verifyOTP. cbv zeta.
  destruct (body req) as [b|]; [|exact H].
  destruct (_ || _); [exact H|].
  destruct (_ || _); [exact H|].
  destruct (latest _) as [otp|]; [|exact H].
  destruct (existsb _ _) eqn:Efresh; cbn [db_after]; apply db_ok_iff;
    cbn [otp_codes admin_sessions].
  - repeat split.
    + apply mark_used_ok, Hc.
    + apply forallb_filter, Hs.
    + apply NoDup_map_filter, Hn.
  - repeat split.
    + apply mark_used_ok, Hc.
    + rewrite forallb_app. unfold purge_sessions.
      rewrite (forallb_filter _ _ _ Hs). cbn.
      unfold session_row_ok. cbn. rewrite Z.eqb_refl. reflexivity.
    + rewrite map_app. cbn. apply NoDup_snoc.
      * apply NoDup_map_filter, Hn.
      * intros Hin. apply in_map_iff in Hin. destruct Hin as [s [Hs1 Hs2]].
        apply Bool.not_true_iff_false in Efresh. apply Efresh.
        apply existsb_exists. exists s. split; [exact Hs2|].
        apply String.eqb_eq. exact Hs1.
Qed.

Lemma logout_db_ok (d : db) (req : request) :
  db_ok d = true -> db_ok (db_after (logout d req)) = true.
Proof.
  intros H. pose proof H as H0. apply db_ok_iff in H0. destruct H0 as [Hc [Hs Hn]].
  unfold logout. cbv zeta. cbn [db_after].
  destruct (_ && _); [|exact H].
  apply db_ok_iff. cbn. repeat split.
  - exact Hc.
  - apply forallb_filter, Hs.
  - apply NoDup_map_filter, Hn.
Qed.

Lemma authenticated_db (w : world) (d : db) (req : request) :
  db_after (authenticated w d req) = d.
Proof.
  unfold authenticated. cbv zeta.
  repeat (match goal with
          | |- context [if ?c then _ else _] => destruct c
          end; try reflexivity).
Qed.

Lemma handler_db_ok (e : env) (w : world) (d : db) (req : request) :
  db_ok d = true -> db_ok (db_after (handler e w d req)) = true.
Proof.
  intros H. unfold handler. cbv zeta.
  destruct (String.eqb (method req) "OPTIONS"); [exact H|].
  destruct (_ && _); [apply sendOTP_db_ok, H|].
  destruct (_ && _); [apply verifyOTP_db_ok, H|].
  destruct (_ && _); [apply logout_db_ok, H|].
  rewrite authenticated_db. exact H.
Qed.

Lemma run_db_ok (e : env) (evs : list event) (d : db) :
  db_ok d = true -> db_ok (run e d evs) = true.
Proof.
  revert d. induction evs as [|ev evs IH]; intros d H; simpl; [exact H|].
  apply IH. unfold step. apply handler_db_ok, H.
Qed.

(** Every store the handler produces from the empty one is well formed. *)
Lemma reachable_db_ok (e : env) (d : db) : reachable e d -> db_ok d = true.
Proof. intros [evs <-]. apply run_db_ok. reflexivity. Qed.

(** ** Verification of a code *)

(** A row valid at a later instant is valid at an earlier one. *)
Lemma valid_otp_earlier (em c : string) (t t' : Z) (r : otp_row) :
  t <= t' -> valid_otp em c t' r = true -> valid_otp em c t r = true.
Proof.
  unfold valid_otp. rewrite !andb_true_iff, !Z.ltb_lt.
  intros Ht [[[H1 H2] H3] H4]. repeat split; try assumption. lia.
Qed.

Lemma valid_otp_set_used (em c : string) (t : Z) (r : otp_row) :
  valid_otp em c t (set_used r) = false.
Proof. unfold valid_otp. cbn. apply andb_false_r. Qed.

(** Once the only valid row is marked used, no row is valid, then or
    later. *)
Lemma no_valid_after_mark (em c : string) (t t' : Z) (otp : otp_row)
      (rows : list otp_row) :
  filter (valid_otp em c t) rows = [otp] ->
  t <= t' ->
  filter (valid_otp em c t') (mark_used (otp_id otp) rows) = [].
Proof.
  intros Hone Ht. apply filter_none. intros x Hx.
  unfold mark_used in Hx. apply in_map_iff in Hx. destruct Hx as [y [Hy Hin]].
  destruct (Z.eqb_spec (otp_id y) (otp_id otp)) as [Hid|Hid].
  - subst x. apply valid_otp_set_used.
  - subst x. destruct (valid_otp em c t' y) eqn:E; [|reflexivity].
    exfalso. apply Hid.
    assert (Hy : In y (filter (valid_otp em c t) rows)).
    { apply filter_In. split; [exact Hin|].
      apply (valid_otp_earlier em c t t'); assumption. }
    rewrite Hone in Hy. destruct Hy as [<-|[]]. reflexivity.
Qed.

Lemma length_one {A : Type} (l : list A) :
  List.length l = 1%nat -> exists x, l = [x].
Proof.
  destruct l as [|x [|y l]]; try discriminate. intros _. exists x. reflexivity.
Qed.

(** What [verifyOTP] does once the body carries an email and a code and
    the email is the admin's. *)
Lemma verifyOTP_admin (e : env) (w : world) (d : db) (req : request)
      (em c admin : string) :
  body req = Some (Body (Some em) (Some c)) ->
  em <> ""%string -> c <> ""%string ->
  ADMIN_EMAIL e = Some admin -> admin <> ""%string ->
  JS.toLowerCase em = JS.toLowerCase admin ->
  verifyOTP e w d req =
    match latest (filter (valid_otp (JS.toLowerCase em) c (now w)) (otp_codes d)) with
    | None => Result d [] (errorResponse "Invalid or expired code" 401)
    | Some otp =>
        let codes := mark_used (otp_id otp) (otp_codes d) in
        let sessions := purge_sessions (now w) (admin_sessions d) in
        if existsb (fun s => String.eqb (ses_token s) (token_draw w)) sessions
        then Result (Db codes (otp_seq d) sessions (ses_seq d + 1)) []
                    (errorResponse "Verification failed" 500)
        else Result (Db codes (otp_seq d)
                        (sessions ++ [SessionRow (ses_seq d) (token_draw w)
                                        (JS.toLowerCase em) (now w + hours 24) (now w)])
                        (ses_seq d + 1)) []
                    (jsonResponse (PToken (token_draw w) 86400) 200)
    end.
Proof.
  intros Hb Hem Hc Ha Hadm Hlow. unfold verifyOTP. rewrite Hb. cbn [email code].
  rewrite Ha.
  rewrite !(JSFacts.truthy_Some _ Hem), !(JSFacts.truthy_Some _ Hc),
          !(JSFacts.truthy_Some _ Hadm).
  rewrite !(JSFacts.orElse_Some _ _ Hem), !(JSFacts.orElse_Some _ _ Hc),
          !(JSFacts.orElse_Some _ _ Hadm).
  rewrite Hlow, String.eqb_refl. cbn [negb orb]. reflexivity.
Qed.

(** C1, as stated, fails: two stored rows may hold the same code value
    (two requests drew 424242); the first verification redeems one of
    them, and the replay of the same code redeems the other. *)
Lemma replay_accepted_with_duplicate :
  let req := Examples.verify_req Examples.owner "424242" in
  let first := verifyOTP Examples.admin_env
                 (Examples.at_time (minutes 2) "" "tokA") Examples.twin_db req in
  reply first = Reply 200 (PToken "tokA" 86400) /\
  reply (verifyOTP Examples.admin_env
           (Examples.at_time (minutes 3) "" "tokB") (db_after first) req)
    = Reply 200 (PToken "tokB" 86400).
Proof. split; reflexivity. Qed.

(** C1 (amended): when exactly one stored row is valid for the admin
    email and the presented code (unused, unexpired), and the session
    token drawn is not stored already, the first verification answers 200
    with the token and marks that row used; every later verification
    presenting the same email and code to the resulting store answers 401
    and changes nothing. *)
Theorem otp_single_use (e : env) (w w' : world) (d : db) (req : request)
        (em c admin : string) :
  body req = Some (Body (Some em) (Some c)) ->
  em <> ""%string -> c <> ""%string ->
  ADMIN_EMAIL e = Some admin -> admin <> ""%string ->
  JS.toLowerCase em = JS.toLowerCase admin ->
  List.length (filter (valid_otp (JS.toLowerCase em) c (now w)) (otp_codes d)) = 1%nat ->
  existsb (fun s => String.eqb (ses_token s) (token_draw w))
          (purge_sessions (now w) (admin_sessions d)) = false ->
  now w <= now w' ->
  let first := verifyOTP e w d req in
  reply first = Reply 200 (PToken (token_draw w) 86400) /\
  (exists otp,
      In otp (otp_codes d) /\
      valid_otp (JS.toLowerCase em) c (now w) otp = true /\
      otp_codes (db_after first) = mark_used (otp_id otp) (otp_codes d) /\
      In (set_used otp) (otp_codes (db_after first))) /\
  verifyOTP e w' (db_after first) req =
    Result (db_after first) [] (errorResponse "Invalid or expired code" 401).
Proof.
  intros Hb Hem Hc Ha Hadm Hlow Hone Hfresh Ht first.
  destruct (length_one _ Hone) as [otp Hotp].
  assert (Hin : In otp (otp_codes d) /\
                valid_otp (JS.toLowerCase em) c (now w) otp = true).
  { apply filter_In. rewrite Hotp. left. reflexivity. }
  assert (Hfirst : first =
            Result (Db (mark_used (otp_id otp) (otp_codes d)) (otp_seq d)
                       (purge_sessions (now w) (admin_sessions d) ++
                          [SessionRow (ses_seq d) (token_draw w) (JS.toLowerCase em)
                                      (now w + hours 24) (now w)])
                       (ses_seq d + 1)) []
                   (jsonResponse (PToken (token_draw w) 86400) 200)).
  { unfold first. rewrite (verifyOTP_admin e w d req em c admin) by assumption.
    rewrite Hotp. cbn [latest]. cbv zeta. rewrite Hfresh. reflexivity. }
  rewrite Hfirst. cbn [reply db_after otp_codes]. split; [reflexivity|]. split.
  - exists otp. destruct Hin as [Hin Hvalid]. repeat split; try assumption.
    unfold mark_used. apply in_map_iff. exists otp.
    rewrite Z.eqb_refl. split; [reflexivity | exact Hin].
  - rewrite (verifyOTP_admin e w' _ req em c admin) by assumption.
    cbn [otp_codes].
    rewrite (no_valid_after_mark _ _ (now w) (now w') otp _ Hotp Ht).
    reflexivity.
Qed.

Lemma otp_single_use_witness :
  let req := Examples.verify_req Examples.owner "424242" in
  let first := verifyOTP Examples.admin_env
                 (Examples.at_time (minutes 2) "" "tokA") Examples.one_code_db req in
  reply first = Reply 200 (PToken "tokA" 86400) /\
  verifyOTP Examples.admin_env (Examples.at_time (minutes 3) "" "tokB")
            (db_after first) req =
    Result (db_after first) [] (errorResponse "Invalid or expired code" 401).
Proof.
  intros req first.
  destruct (otp_single_use Examples.admin_env
              (Examples.at_time (minutes 2) "" "tokA")
              (Examples.at_time (minutes 3) "" "tokB")
              Examples.one_code_db req
              Examples.owner "424242" "Owner@ScaleRebel.com") as [H1 [_ H3]].
  - reflexivity.
  - discriminate.
  - discriminate.
  - reflexivity.
  - discriminate.
  - reflexivity.
  - reflexivity.
  - reflexivity.
  - vm_compute. discriminate.
  - split; [exact H1 | exact H3].
Defined.




(** ** Sessions *)

(** A handler never changes a stored session row: each row of the
    session table afterwards was there before, or is the row minted by
    this invocation, created now and expiring in 24 hours. *)
Lemma sessions_never_extended (e : env) (w : world) (d : db) (req : request)
      (s : session_row) :
  In s (admin_sessions (db_after (handler e w d req))) ->
  In s (admin_sessions d) \/
  (ses_created_at s = now w /\ ses_expires_at s = now w + hours 24).
Proof.
  unfold handler. cbv zeta.
  destruct (String.eqb (method req) "OPTIONS"); [tauto|].
  destruct (_ && _).
  { unfold sendOTP. cbv zeta.
    destruct (body req) as [b|]; [|tauto].
    destruct (negb (JS.truthy (email b))); [tauto|].
    destruct (negb (JS.truthy (ADMIN_EMAIL e))); [tauto|].
    destruct (negb (String.eqb _ _)); [tauto|].
    destruct (Z.leb 5 _); [tauto|].
    destruct (_ || _); [tauto|].
    destruct (mail_api w); tauto. }
  destruct (_ && _).
  { unfold verifyOTP. cbv zeta.
    destruct (body req) as [b|]; [|tauto].
    destruct (_ || _); [tauto|].
    destruct (_ || _); [tauto|].
    destruct (latest _) as [otp|]; [|tauto].
    destruct (existsb _ _); cbn [db_after admin_sessions]; intros Hin.
    - left. apply filter_In in Hin. tauto.
    - apply in_app_iff in Hin. destruct Hin as [Hin|[<-|[]]].
      + left. apply filter_In in Hin. tauto.
      + right. split; reflexivity. }
  destruct (_ && _).
  { unfold logout. cbv zeta. cbn [db_after].
    destruct (_ && _); [|tauto].
    cbn [admin_sessions]. intros Hin. left. apply filter_In in Hin. tauto. }
  rewrite authenticated_db. tauto.
Qed.

(** [checkAuth] accepts exactly the headers "Bearer <token>" whose token
    is that of a stored, unexpired session. *)
Lemma checkAuth_iff (t : Z) (d : db) (req : request) :
  checkAuth t d req = true <->
  exists token s,
    authorization req = Some ("Bearer " ++ token)%string /\
    In s (admin_sessions d) /\ ses_token s = token /\ t < ses_expires_at s.
Proof.
  unfold checkAuth. cbv zeta. split.
  - destruct (authorization req) as [h|]; [|discriminate].
    destruct (JS.truthy (Some h)); [|discriminate].
    cbn [negb orb JS.orElse].
    destruct (String.eqb h ""); [discriminate|].
    destruct (JS.startsWith h "Bearer ") eqn:Hpre; [|discriminate].
    cbn [negb]. intros H.
    apply JSFacts.prefix_split in Hpre. destruct Hpre as [token ->].
    rewrite JSFacts.replace_prefix in H.
    apply length_filter_pos in H. destruct H as [s [Hin Hs]].
    apply andb_true_iff in Hs. destruct Hs as [Htok Hexp].
    exists token, s. split; [reflexivity|]. split; [exact Hin|].
    split; [apply String.eqb_eq, Htok | apply Z.ltb_lt, Hexp].
  - intros [token [s [Hh [Hin [Htok Hexp]]]]]. rewrite Hh.
    cbn [JS.truthy JS.orElse].
    change (String.eqb ("Bearer " ++ token) "") with false.
    cbn [negb orb].
    unfold JS.startsWith. rewrite JSFacts.prefix_app. cbn [negb].
    rewrite JSFacts.replace_prefix.
    apply length_filter_pos. exists s. split; [exact Hin|].
    apply andb_true_iff. split; [apply String.eqb_eq, Htok | apply Z.ltb_lt, Hexp].
Qed.

(** A request that reaches the authentication check and fails it is
    answered 401. *)
Lemma unauthorized (e : env) (w : world) (d : db) (req : request) :
  requires_auth req = true ->
  checkAuth (now w) d req = false ->
  handler e w d req = Result d [] (errorResponse "Unauthorized" 401).
Proof.
  unfold requires_auth, handler. cbv zeta. intros Hreq Hauth.
  apply andb_true_iff in Hreq. destruct Hreq as [Hopt Hotp].
  apply negb_true_iff in Hopt. rewrite Hopt.
  apply negb_true_iff in Hotp.
  destruct (String.eqb (method req) "POST").
  - cbn [andb] in *. apply orb_false_iff in Hotp. destruct Hotp as [Hotp H3].
    apply orb_false_iff in Hotp. destruct Hotp as [H1 H2].
    rewrite H1, H2, H3. unfold authenticated. rewrite Hauth. reflexivity.
  - cbn [andb]. unfold authenticated. rewrite Hauth. reflexivity.
Qed.

(** C4, as stated, fails: the CORS preflight and the logout route answer
    204 and 200 to a request that presents a session token 25 hours after
    its issuance, although the token no longer authenticates. *)
Lemma expired_token_not_always_401 :
  let late := Examples.at_time (hours 25) "" "" in
  checkAuth (now late) Examples.session_db
            (Examples.with_token "OPTIONS" "/api/admin/clients") = false /\
  reply (handler Examples.admin_env late Examples.session_db
           (Examples.with_token "OPTIONS" "/api/admin/clients")) = Reply 204 PNull /\
  reply (handler Examples.admin_env late Examples.session_db
           (Examples.with_token "POST" "/api/admin/otp/logout")) = Reply 200 PSuccess.
Proof. repeat split; reflexivity. Qed.

(** C4 (amended): in a well-formed store a request authenticates exactly
    when its header is "Bearer <token>" and a session row holds that token
    with the instant of the request before the row's creation plus 24
    hours; no invocation changes the expiry of a stored session; and a
    request that reaches the authentication check (any request but the
    OPTIONS preflight and the POSTs to the three OTP routes) and presents
    a token whose rows were all created 24 hours ago or earlier is
    answered 401, the store unchanged. *)
Theorem session_authentication (e : env) (w : world) (d : db) (req : request) :
  db_ok d = true ->
  (checkAuth (now w) d req = true <->
   exists token s,
     authorization req = Some ("Bearer " ++ token)%string /\
     In s (admin_sessions d) /\ ses_token s = token /\
     now w < ses_created_at s + hours 24) /\
  (forall s, In s (admin_sessions (db_after (handler e w d req))) ->
     In s (admin_sessions d) \/
     (ses_created_at s = now w /\ ses_expires_at s = now w + hours 24)) /\
  (requires_auth req = true ->
   (forall token s,
      authorization req = Some ("Bearer " ++ token)%string ->
      In s (admin_sessions d) -> ses_token s = token ->
      ses_created_at s + hours 24 <= now w) ->
   handler e w d req = Result d [] (errorResponse "Unauthorized" 401)).
Proof.
  intros Hok. apply db_ok_iff in Hok. destruct Hok as [_ [Hses _]].
  rewrite forallb_forall in Hses.
  assert (Hiff : checkAuth (now w) d req = true <->
                 exists token s,
                   authorization req = Some ("Bearer " ++ token)%string /\
                   In s (admin_sessions d) /\ ses_token s = token /\
                   now w < ses_created_at s + hours 24).
  { rewrite checkAuth_iff. split; intros [token [s [Hh [Hin [Htok Hexp]]]]];
      exists token, s; repeat split; try assumption;
      specialize (Hses s Hin); unfold session_row_ok in Hses;
      apply Z.eqb_eq in Hses; lia. }
  split; [exact Hiff|]. split.
  - intros s. apply sessions_never_extended.
  - intros Hreq Hlate. apply unauthorized; [exact Hreq|].
    apply Bool.not_true_is_false. intros E.
    apply Hiff in E. destruct E as [token [s [Hh [Hin [Htok Hexp]]]]].
    specialize (Hlate token s Hh Hin Htok). lia.
Qed.

Lemma session_authentication_witness :
  let early := Examples.at_time (hours 24) "" "" in
  let late := Examples.at_time (minutes 1 + hours 24) "" "" in
  let req := Examples.with_token "GET" "/api/admin/clients" in
  checkAuth (now early) Examples.session_db req = true /\
  handler Examples.admin_env late Examples.session_db req =
    Result Examples.session_db [] (errorResponse "Unauthorized" 401).
Proof.
  intros early late req. split.
  - apply (proj1 (session_authentication Examples.admin_env early
                    Examples.session_db req eq_refl)).
    exists "tokA"%string,
      (SessionRow 1 "tokA" "owner@scalerebel.com" (minutes 1 + hours 24) (minutes 1)).
    repeat split. left. reflexivity.
  - apply (proj2 (proj2 (session_authentication Examples.admin_env late
                           Examples.session_db req eq_refl))).
    + reflexivity.
    + intros token s _ Hin _. destruct Hin as [<-|[]]. vm_compute. discriminate.
Defined.

(** ** Logout *)

(** C8: logout answers 200 [{success: true}] for every request; with a
    header "Bearer <token>" it deletes the rows holding that token and no
    other row, otherwise it leaves the store as it is; the codes are
    untouched; and a second logout with the same request gives the same
    answer and leaves the store it finds unchanged. *)
Theorem logout_always_succeeds (d : db) (req : request) :
  let r := logout d req in
  reply r = Reply 200 PSuccess /\
  (forall token, authorization req = Some ("Bearer " ++ token)%string ->
     admin_sessions (db_after r) =
       filter (fun s => negb (String.eqb (ses_token s) token)) (admin_sessions d) /\
     forall s, In s (admin_sessions (db_after r)) <->
               In s (admin_sessions d) /\ ses_token s <> token) /\
  ((forall token, authorization req <> Some ("Bearer " ++ token)%string) ->
     db_after r = d) /\
  otp_codes (db_after r) = otp_codes d /\
  logout (db_after r) req = r.
Proof.
  cbv zeta. split; [reflexivity|]. split; [|split; [|split]].
  - intros token Hh. unfold logout. rewrite Hh. cbn [JS.truthy JS.orElse].
    change (String.eqb ("Bearer " ++ token) "") with false. cbn [negb andb].
    unfold JS.startsWith. rewrite JSFacts.prefix_app, JSFacts.replace_prefix.
    cbn [db_after admin_sessions]. split; [reflexivity|].
    intros s. rewrite filter_In, negb_true_iff.
    destruct (String.eqb_spec (ses_token s) token); intuition congruence.
  - intros Hno. unfold logout. cbn [db_after].
    destruct (JS.truthy (authorization req) && _) eqn:E; [|reflexivity].
    exfalso. apply andb_true_iff in E. destruct E as [_ E].
    destruct (authorization req) as [h|] eqn:Eh; [|discriminate].
    cbn [JS.orElse] in E. destruct (String.eqb h ""); [discriminate|].
    apply JSFacts.prefix_split in E. destruct E as [token ->].
    exact (Hno token eq_refl).
  - unfold logout. cbn [db_after]. destruct (_ && _); reflexivity.
  - unfold logout. cbn [db_after].
    destruct (JS.truthy (authorization req) && _); [|reflexivity].
    cbn [admin_sessions otp_codes otp_seq ses_seq]. rewrite filter_idem.
    reflexivity.
Qed.

(** The handler routes POST /api/admin/otp/logout to [logout] without an
    authentication check. *)
Lemma handler_logout (e : env) (w : world) (d : db)
      (auth : option string) (b : option json_body) :
  handler e w d (Request "POST" "/api/admin/otp/logout" auth b) =
  logout d (Request "POST" "/api/admin/otp/logout" auth b).
Proof. reflexivity. Qed.

(** ** The CORS preflight *)

(** C10: an OPTIONS request is answered 204 with no body for every path,
    header, body and store, and the store is left as it is; the same
    request sent with GET and no Authorization header is answered 401. *)
Theorem options_preflight (e : env) (w : world) (d : db) (path : string)
        (auth : option string) (b : option json_body) :
  handler e w d (Request "OPTIONS" path auth b) = Result d [] (Reply 204 PNull) /\
  status_of (reply (handler e w d (Request "OPTIONS" path auth b))) <> Some 401 /\
  handler e w d (Request "GET" path None b) =
    Result d [] (errorResponse "Unauthorized" 401).
Proof.
  split; [reflexivity|]. split; [discriminate|].
  apply unauthorized; reflexivity.
Qed.

(** ** Requesting a code *)

(** What [sendOTP] does for a non-empty email with the admin address
    configured. *)
Lemma sendOTP_email (e : env) (w : world) (d : db) (req : request)
      (b : json_body) (em admin : string) :
  body req = Some b -> email b = Some em -> em <> ""%string ->
  ADMIN_EMAIL e = Some admin -> admin <> ""%string ->
  sendOTP e w d req =
    if negb (String.eqb (JS.toLowerCase em) (JS.toLowerCase admin))
    then Result d [] (jsonResponse PSent 200)
    else
      let codes := purge_codes (now w) (otp_codes d) in
      if Z.leb 5 (recent_count (JS.toLowerCase em) (now w) codes)
      then Result (Db codes (otp_seq d) (admin_sessions d) (ses_seq d)) []
                  (errorResponse "Too many attempts. Try again later." 429)
      else
        let row := OtpRow (otp_seq d) (JS.toLowerCase em) (otp_draw w)
                          (now w + minutes 10) false (now w) in
        let d2 := Db (codes ++ [row]) (otp_seq d + 1)
                     (admin_sessions d) (ses_seq d) in
        if negb (JS.truthy (RESEND_API_KEY e)) || negb (JS.truthy (FROM_EMAIL e))
        then Result d2 [] (errorResponse "Email service not configured" 500)
        else
          let msg := Mail ("The Scale Rebel <" ++ JS.orElse (FROM_EMAIL e) "" ++ ">")
                          em "Your admin login code" (otp_draw w) in
          match mail_api w with
          | FetchThrows =>
              Result d2 [msg] (errorResponse "Failed to send verification code" 500)
          | FetchNotOk =>
              Result d2 [msg] (errorResponse "Failed to send verification email" 500)
          | FetchOk => Result d2 [msg] (jsonResponse PSent 200)
          end.
Proof.
  intros Hb He Hem Ha Hadm. unfold sendOTP. rewrite Hb, He, Ha.
  rewrite !(JSFacts.truthy_Some _ Hem), !(JSFacts.truthy_Some _ Hadm).
  rewrite !(JSFacts.orElse_Some _ _ Hem), !(JSFacts.orElse_Some _ _ Hadm).
  cbn [negb]. reflexivity.
Qed.

(** With every code expiring ten minutes after its creation, the purge
    that precedes the count leaves only rows created in the last ten
    minutes: these are what the rate limit counts. *)
Lemma rate_limit_window (em : string) (t : Z) (rows : list otp_row) :
  forallb otp_row_ok rows = true ->
  recent_count em t (purge_codes t rows) =
  Z.of_nat (List.length
    (filter (fun r => String.eqb (otp_email r) em &&
                      Z.leb (t - minutes 10) (otp_created_at r)) rows)).
Proof.
  intros Hok. unfold recent_count, purge_codes. do 2 f_equal.
  induction rows as [|r rows IH]; [reflexivity|].
  cbn [forallb] in Hok. apply andb_true_iff in Hok. destruct Hok as [Hr Hrows].
  unfold otp_row_ok in Hr. apply Z.eqb_eq in Hr.
  cbn [filter]. rewrite Hr.
  destruct (Z.leb_spec (t - minutes 10) (otp_created_at r)) as [Hle|Hlt].
  - replace (Z.ltb (otp_created_at r + minutes 10) t) with false
      by (symmetry; apply Z.ltb_ge; lia).
    cbn [negb filter].
    replace (Z.ltb (t - minutes 15) (otp_created_at r)) with true
      by (symmetry; apply Z.ltb_lt; unfold minutes in *; lia).
    rewrite !andb_true_r.
    destruct (String.eqb (otp_email r) em); rewrite (IH Hrows); reflexivity.
  - replace (Z.ltb (otp_created_at r + minutes 10) t) with true
      by (symmetry; apply Z.ltb_lt; lia).
    cbn [negb]. rewrite andb_false_r. apply IH, Hrows.
Qed.

(** The limit fires when five codes for the admin address were created
    in the last ten minutes. *)
Lemma rate_limit_fires (e : env) (w : world) (d : db) (req : request)
      (b : json_body) (em admin : string) :
  body req = Some b -> email b = Some em -> em <> ""%string ->
  ADMIN_EMAIL e = Some admin -> admin <> ""%string ->
  JS.toLowerCase em = JS.toLowerCase admin ->
  db_ok d = true ->
  (5 <= List.length
          (filter (fun r => String.eqb (otp_email r) (JS.toLowerCase em) &&
                            Z.leb (now w - minutes 10) (otp_created_at r))
                  (otp_codes d)))%nat ->
  reply (sendOTP e w d req) = Reply 429 (PError "Too many attempts. Try again later.").
Proof.
  intros Hb He Hem Ha Hadm Hlow Hok Hfive.
  apply db_ok_iff in Hok. destruct Hok as [Hrows _].
  rewrite (sendOTP_email e w d req b em admin) by assumption.
  rewrite Hlow, String.eqb_refl. cbn [negb]. cbv zeta.
  rewrite <- Hlow, (rate_limit_window _ _ _ Hrows).
  replace (Z.leb 5 _) with true by (symmetry; apply Z.leb_le; lia).
  reflexivity.
Qed.

(** The limit does not fire when every code for the admin address is
    older than ten minutes, however many were issued in the last
    fifteen. *)
Lemma rate_limit_forgets_expired (e : env) (w : world) (d : db) (req : request)
      (b : json_body) (em admin : string) :
  body req = Some b -> email b = Some em -> em <> ""%string ->
  ADMIN_EMAIL e = Some admin -> admin <> ""%string ->
  JS.toLowerCase em = JS.toLowerCase admin ->
  db_ok d = true ->
  (forall r, In r (otp_codes d) -> otp_email r = JS.toLowerCase em ->
             otp_created_at r + minutes 10 < now w) ->
  status_of (reply (sendOTP e w d req)) <> Some 429.
Proof.
  intros Hb He Hem Ha Hadm Hlow Hok Hold.
  apply db_ok_iff in Hok. destruct Hok as [Hrows _].
  rewrite (sendOTP_email e w d req b em admin) by assumption.
  rewrite Hlow, String.eqb_refl. cbn [negb]. cbv zeta.
  rewrite <- Hlow, (rate_limit_window _ _ _ Hrows).
  rewrite filter_none.
  - cbn [List.length Z.of_nat Z.leb Z.compare].
    destruct (_ || _); [discriminate|].
    destruct (mail_api w); discriminate.
  - intros r Hr.
    destruct (String.eqb_spec (otp_email r) (JS.toLowerCase em)) as [E|]; [|reflexivity].
    specialize (Hold r Hr E). cbn [andb]. apply Z.leb_gt. lia.
Qed.

(** C2: the code does not do what the claim says.  Five codes were issued
    to the admin address in the first four seconds; they are counted as
    recent at minute 11, yet the request at minute 11 is served: the purge
    of expired codes has deleted them before the count.  (At minute 10 the
    sixth request is still refused.) *)
Theorem sixth_request_served_after_ten_minutes :
  let w := Examples.at_time (minutes 11) "600006" "" in
  let req := Examples.send_req Examples.owner in
  recent_count Examples.owner (now w) (otp_codes Examples.five_codes_db) = 5 /\
  reply (sendOTP Examples.admin_env w Examples.five_codes_db req) = Reply 200 PSent /\
  reply (sendOTP Examples.admin_env (Examples.at_time (minutes 10) "600006" "")
           Examples.five_codes_db req)
    = Reply 429 (PError "Too many attempts. Try again later.").
Proof. repeat split; reflexivity. Qed.

(** C3, as stated, fails: with five recent codes stored, the request for
    the admin address is answered 429 and the same request for another
    address 200 [{sent: true}]. *)
Lemma send_answer_reveals_admin :
  let w := Examples.at_time (minutes 1) "600006" "" in
  reply (sendOTP Examples.admin_env w Examples.five_codes_db
           (Examples.send_req Examples.owner))
    = Reply 429 (PError "Too many attempts. Try again later.") /\
  reply (sendOTP Examples.admin_env w Examples.five_codes_db
           (Examples.send_req Examples.visitor))
    = Reply 200 PSent.
Proof. split; reflexivity. Qed.

(** The purge removes rows: it does not raise the count of the rate
    limit. *)
Lemma recent_count_purge (em : string) (t t' : Z) (rows : list otp_row) :
  recent_count em t (purge_codes t' rows) <= recent_count em t rows.
Proof.
  unfold recent_count, purge_codes. apply Nat2Z.inj_le.
  induction rows as [|r rows IH]; cbn [filter]; [apply Nat.le_refl|].
  destruct (negb (Z.ltb (otp_expires_at r) t')); cbn [filter];
    destruct (String.eqb (otp_email r) em && Z.ltb (t - minutes 15) (otp_created_at r));
    cbn [List.length]; lia.
Qed.

(** C3 (amended): with the admin address configured, a request for a
    non-empty email that is not the admin's (compared in lower case) is
    answered 200 [{sent: true}], stores nothing and sends nothing; a
    request for the admin's email is answered 200 [{sent: true}] when
    fewer than five codes for it were created in the last fifteen
    minutes, the mail service is configured and the mail API accepts the
    mail. *)
Theorem send_answer (e : env) (w : world) (d : db) (req : request)
        (b : json_body) (em admin : string) :
  body req = Some b -> email b = Some em -> em <> ""%string ->
  ADMIN_EMAIL e = Some admin -> admin <> ""%string ->
  (JS.toLowerCase em <> JS.toLowerCase admin ->
   sendOTP e w d req = Result d [] (Reply 200 PSent)) /\
  (JS.toLowerCase em = JS.toLowerCase admin ->
   recent_count (JS.toLowerCase em) (now w) (otp_codes d) < 5 ->
   JS.truthy (RESEND_API_KEY e) = true ->
   JS.truthy (FROM_EMAIL e) = true ->
   mail_api w = FetchOk ->
   reply (sendOTP e w d req) = Reply 200 PSent).
Proof.
  intros Hb He Hem Ha Hadm.
  rewrite (sendOTP_email e w d req b em admin) by assumption. split.
  - intros Hne. destruct (String.eqb_spec (JS.toLowerCase em) (JS.toLowerCase admin));
      [contradiction | reflexivity].
  - intros Heq Hcount Hkey Hfrom Hapi. rewrite Heq, String.eqb_refl. cbn [negb].
    cbv zeta. rewrite <- Heq.
    pose proof (recent_count_purge (JS.toLowerCase em) (now w) (now w) (otp_codes d))
      as Hle.
    replace (Z.leb 5 _) with false by (symmetry; apply Z.leb_gt; lia).
    rewrite Hkey, Hfrom, Hapi. reflexivity.
Qed.

Lemma send_answer_witness :
  let w := Examples.at_time (minutes 1) "600006" "" in
  sendOTP Examples.admin_env w Examples.five_codes_db
          (Examples.send_req Examples.visitor)
    = Result Examples.five_codes_db [] (Reply 200 PSent) /\
  reply (sendOTP Examples.admin_env w Examples.one_code_db
           (Examples.send_req Examples.owner)) = Reply 200 PSent.
Proof.
  intros w. split.
  - apply (proj1 (send_answer Examples.admin_env w Examples.five_codes_db
                    (Examples.send_req Examples.visitor)
                    (Body (Some Examples.visitor) None)
                    Examples.visitor "Owner@ScaleRebel.com"
                    eq_refl eq_refl ltac:(discriminate) eq_refl ltac:(discriminate))).
    discriminate.
  - apply (proj2 (send_answer Examples.admin_env w Examples.one_code_db
                    (Examples.send_req Examples.owner)
                    (Body (Some Examples.owner) None)
                    Examples.owner "Owner@ScaleRebel.com"
                    eq_refl eq_refl ltac:(discriminate) eq_refl ltac:(discriminate)));
      reflexivity.
Defined.

End AdminProofs.

(* ------------------------------------------------------------------ *)
(** * The contact form: properties *)

Module SendEmailProofs.
Import SendEmail.

Lemma trim_empty : JS.trim "" = ""%string.
Proof. reflexivity. Qed.

(** C6, as stated, fails: a honeypot field that holds white space only (a
    space, or a no-break space) is not empty, yet the submission is
    processed like any other: two mails are sent and the inquiry is
    stored. *)
Lemma blank_honeypot_is_processed :
  let r := handler Examples.mail_env Examples.fair_world Examples.no_inquiries
             (Examples.submission (Some " ")) in
  status r = 200 /\
  List.length (mails r) = 2%nat /\
  inquiries (store_after r) =
    [Inquiry 1 None "Ada Lovelace" "ada@example.org" None None
             "I would like a website." 0] /\
  handler Examples.mail_env Examples.fair_world Examples.no_inquiries
          (Examples.submission (Some Examples.nbsp)) = r.
Proof. repeat split; reflexivity. Qed.

(** C6 (amended): a POST submission whose honeypot field [website] is
    non-empty after trimming white space is answered 200
    [{success: true}]; no mail is sent and the inquiry table is left as
    it is. *)
Theorem honeypot_silently_succeeds (e : env) (w : world) (st : store)
        (formData : FormData) (site : string) :
  website formData = Some site ->
  JS.trim site <> ""%string ->
  handler e w st (Request "POST" (Json formData)) =
    Result st [] 200 (PSuccess "Email sent successfully").
Proof.
  intros Hsite Htrim. unfold handler. cbn [method body negb String.eqb].
  change (String.eqb "POST" "POST") with true. cbn [negb].
  rewrite Hsite.
  assert (Hne : site <> ""%string).
  { intros ->. apply Htrim. reflexivity. }
  rewrite (JSFacts.truthy_Some _ Hne), (JSFacts.orElse_Some _ _ Hne).
  destruct (String.eqb_spec (JS.trim site) ""); [contradiction|].
  reflexivity.
Qed.

Lemma honeypot_silently_succeeds_witness :
  handler Examples.mail_env Examples.fair_world Examples.no_inquiries
          (Examples.submission (Some "http://spam.example")) =
    Result Examples.no_inquiries [] 200 (PSuccess "Email sent successfully").
Proof.
  apply (honeypot_silently_succeeds Examples.mail_env Examples.fair_world
           Examples.no_inquiries _ "http://spam.example").
  - reflexivity.
  - discriminate.
Defined.

End SendEmailProofs.

(* ------------------------------------------------------------------ *)
(** * More on the matcher: classes, iteration of one character, anchors *)

Module RegexShapes.
Import Regex Chars.

Lemma m_single (ic : bool) (r : re) (P : ascii -> bool) :
  single ic r = Some P ->
  forall i s k,
    m ic r i s k =
    match s with
    | String c s' => P c && k (S i) s'
    | EmptyString => false
    end.
Proof.
  destruct r; cbn [single]; intros H; try discriminate;
    injection H as <-; intros i s k; reflexivity.
Qed.

(** An expression of one character is found where some character passes
    its test. *)
Lemma search_single (ic : bool) (r : re) (P : ascii -> bool) :
  single ic r = Some P ->
  forall s i, search ic r i s = any_char P s.
Proof.
  intros H s. induction s as [|c s IH]; intros i; cbn [search any_char];
    rewrite (m_single ic r P H).
  - reflexivity.
  - rewrite IH, andb_true_r. reflexivity.
Qed.

Lemma star_single_sound (ic : bool) (r : re) (P : ascii -> bool) :
  single ic r = Some P ->
  forall fuel i s k,
    star (m ic r) fuel i s k = true ->
    exists p t, s = (p ++ t)%string /\ all_chars P p = true /\
                k (i + String.length p)%nat t = true.
Proof.
  intros H fuel. induction fuel as [|fuel IH]; intros i s k Hm; cbn [star] in Hm.
  - rewrite orb_false_r in Hm. exists ""%string, s. cbn.
    rewrite Nat.add_0_r. auto.
  - apply orb_true_iff in Hm. destruct Hm as [Hm|Hm].
    + exists ""%string, s. cbn. rewrite Nat.add_0_r. auto.
    + rewrite (m_single ic r P H) in Hm. destruct s as [|c s]; [discriminate|].
      apply andb_true_iff in Hm. destruct Hm as [Hc Hm].
      apply andb_true_iff in Hm. destruct Hm as [_ Hm].
      destruct (IH _ _ _ Hm) as [p [t [-> [Hp Hk]]]].
      exists (String c p), t. cbn [append all_chars String.length].
      rewrite Hc, Hp, Nat.add_succ_r. auto.
Qed.

Lemma length_app (p t : string) :
  String.length (p ++ t) = (String.length p + String.length t)%nat.
Proof. induction p as [|c p IH]; cbn; [reflexivity | rewrite IH; reflexivity]. Qed.

Lemma star_single_complete (ic : bool) (r : re) (P : ascii -> bool) :
  single ic r = Some P ->
  forall p fuel i t k,
    (String.length p <= fuel)%nat ->
    all_chars P p = true ->
    k (i + String.length p)%nat t = true ->
    star (m ic r) fuel i (p ++ t) k = true.
Proof.
  intros H p. induction p as [|c p IH]; intros fuel i t k Hfuel Hp Hk.
  - cbn in Hk. rewrite Nat.add_0_r in Hk.
    destruct fuel; cbn [star append]; rewrite Hk; reflexivity.
  - destruct fuel as [|fuel]; [cbn in Hfuel; lia|].
    cbn [all_chars] in Hp. apply andb_true_iff in Hp. destruct Hp as [Hc Hp].
    cbn [star append]. rewrite (m_single ic r P H), Hc. cbn [andb].
    replace (Nat.ltb (String.length (p ++ t)) (String.length (String c (p ++ t))))
      with true by (symmetry; apply Nat.ltb_lt; cbn; lia).
    cbn [andb]. rewrite IH; [apply orb_true_r | cbn in Hfuel; lia | exact Hp |].
    cbn [String.length] in Hk. rewrite Nat.add_succ_r in Hk. exact Hk.
Qed.

(** [r*] for an expression [r] of one character: some prefix of passing
    characters is consumed and the continuation accepts the rest. *)
Lemma Star_single (ic : bool) (r : re) (P : ascii -> bool) :
  single ic r = Some P ->
  forall i s k,
    m ic (Star r) i s k = true <->
    exists p t, s = (p ++ t)%string /\ all_chars P p = true /\
                k (i + String.length p)%nat t = true.
Proof.
  intros H i s k. cbn [m]. split.
  - apply (star_single_sound ic r P H).
  - intros [p [t [-> [Hp Hk]]]].
    apply (star_single_complete ic r P H); try assumption.
    rewrite length_app. lia.
Qed.

(** [r+]: the same with a prefix that is not empty. *)
Lemma Plus_single (ic : bool) (r : re) (P : ascii -> bool) :
  single ic r = Some P ->
  forall i s k,
    m ic (Plus r) i s k = true <->
    exists p t, s = (p ++ t)%string /\ p <> ""%string /\ all_chars P p = true /\
                k (i + String.length p)%nat t = true.
Proof.
  intros H i s k. unfold Plus. cbn [m]. rewrite (m_single ic r P H). split.
  - destruct s as [|c s]; [discriminate|]. intros Hm.
    apply andb_true_iff in Hm. destruct Hm as [Hc Hm].
    apply (Star_single ic r P H) in Hm. destruct Hm as [p [t [-> [Hp Hk]]]].
    exists (String c p), t. cbn [append all_chars String.length].
    rewrite Hc, Hp, Nat.add_succ_r. repeat split; try assumption. discriminate.
  - intros [p [t [-> [Hne [Hp Hk]]]]]. destruct p as [|c p]; [contradiction|].
    cbn [append all_chars] in *. apply andb_true_iff in Hp. destruct Hp as [Hc Hp].
    rewrite Hc. cbn [andb]. apply (Star_single ic r P H).
    exists p, t. cbn [String.length] in Hk. rewrite Nat.add_succ_r in Hk. auto.
Qed.

(** An expression that begins with [^] matches at the start only. *)
Lemma search_Bol (ic : bool) (r : re) (s : string) (i : nat) :
  (0 < i)%nat -> search ic (Seq Bol r) i s = false.
Proof.
  revert i. induction s as [|c s IH]; intros i Hi; cbn [search m].
  - destruct i; [lia | reflexivity].
  - rewrite IH by lia. destruct i; [lia | reflexivity].
Qed.

Lemma test_Bol (ic : bool) (r : re) (s : string) :
  test (RegExp (Seq Bol r) ic) s = m ic r 0 s (fun _ _ => true).
Proof.
  unfold test. cbn [ignoreCase source]. destruct s as [|c s]; cbn [search m].
  - cbn. apply orb_false_r.
  - rewrite search_Bol by lia. cbn. apply orb_false_r.
Qed.

Lemma starts_exact (p s t : string) :
  starts false p s = Some t <-> s = (p ++ t)%string.
Proof.
  revert s. induction p as [|a p IH]; intros s; cbn [starts append].
  - split; [intros H; injection H as ->; reflexivity | intros ->; reflexivity].
  - destruct s as [|c s]; [split; discriminate|].
    unfold chr_eq. destruct (Ascii.eqb_spec a c) as [->|Hne].
    + rewrite IH. split; [intros ->; reflexivity | intros H; injection H as ->; reflexivity].
    + split; [discriminate | intros H; injection H as E _; congruence].
Qed.

Lemma all_chars_ext (P Q : ascii -> bool) (s : string) :
  (forall c, P c = Q c) -> all_chars P s = all_chars Q s.
Proof.
  intros H. induction s as [|c s IH]; cbn; [reflexivity | rewrite H, IH; reflexivity].
Qed.

Lemma code_eqb (c d : ascii) : N.eqb (JS.code c) (JS.code d) = Ascii.eqb c d.
Proof.
  destruct (Ascii.eqb_spec c d) as [->|Hne]; [apply N.eqb_refl|].
  apply N.eqb_neq. intros E. apply Hne.
  unfold JS.code in E.
  rewrite <- (ascii_N_embedding c), <- (ascii_N_embedding d), E. reflexivity.
Qed.

(** The class [[^\s@]] admits the characters that are neither white space
    nor [@]. *)
Lemma not_space_at (c : ascii) :
  xorb true (cls_mem false (space_ranges ++ [("@"%char, "@"%char)]) c) = email_char c.
Proof.
  destruct c as [[] [] [] [] [] [] [] []]; reflexivity.
Qed.

Lemma append_empty (s : string) : (s ++ "")%string = s.
Proof. induction s as [|c s IH]; cbn; [reflexivity | rewrite IH; reflexivity]. Qed.

End RegexShapes.

(* ------------------------------------------------------------------ *)
(** * The contact form: validation and effects *)

Module SendEmailMore.
Import Regex Chars SendEmail FormFields.

(** [[^\s@]+] consumes a non-empty run of characters that are neither
    white space nor [@]. *)
Lemma Plus_email_char (i : nat) (s : string) (k : nat -> string -> bool) :
  m false (Plus (Cls true (space_ranges ++ [("@"%char, "@"%char)]))) i s k = true <->
  exists p t, s = (p ++ t)%string /\ p <> ""%string /\
              all_chars email_char p = true /\
              k (i + String.length p)%nat t = true.
Proof.
  rewrite (RegexShapes.Plus_single false
             (Cls true (space_ranges ++ [("@"%char, "@"%char)]))
             (fun c => xorb true
                         (cls_mem false (space_ranges ++ [("@"%char, "@"%char)]) c))
             eq_refl).
  split; intros [p [t [Hs [Hne [Hp Hk]]]]]; exists p, t; repeat split;
    try assumption.
  - erewrite RegexShapes.all_chars_ext; [exact Hp|].
    intros c. symmetry. apply RegexShapes.not_space_at.
  - erewrite RegexShapes.all_chars_ext; [exact Hp|].
    intros c. apply RegexShapes.not_space_at.
Qed.

(** What the expression of [isValidEmail] accepts, piece by piece. *)
Lemma email_tail (i : nat) (s : string) :
  m false (Seq (Plus (Cls true (space_ranges ++ [("@"%char, "@"%char)]))) Eol)
    i s (fun _ _ => true) = true <->
  s <> ""%string /\ all_chars email_char s = true.
Proof.
  cbn [m]. rewrite Plus_email_char. split.
  - intros [p [t [-> [Hne [Hp Hk]]]]].
    apply andb_true_iff in Hk. destruct Hk as [Hk _]. apply String.eqb_eq in Hk.
    subst t. rewrite RegexShapes.append_empty. split; assumption.
  - intros [Hne Hs]. exists s, ""%string.
    rewrite RegexShapes.append_empty. repeat split; assumption.
Qed.

Lemma email_part (sep : ascii) (rest : re) (i : nat) (s : string) :
  m false (Seq (Plus (Cls true (space_ranges ++ [("@"%char, "@"%char)])))
               (Seq (Chr sep) rest)) i s (fun _ _ => true) = true <->
  exists a t, s = (a ++ String sep t)%string /\ a <> ""%string /\
              all_chars email_char a = true /\
              m false rest (S (i + String.length a)) t (fun _ _ => true) = true.
Proof.
  cbn [m]. rewrite Plus_email_char. split.
  - intros [p [t [-> [Hne [Hp Hk]]]]]. destruct t as [|c t]; [discriminate|].
    apply andb_true_iff in Hk. destruct Hk as [Hc Hk].
    unfold chr_eq in Hc. apply Ascii.eqb_eq in Hc. subst c.
    exists p, t. repeat split; assumption.
  - intros [a [t [-> [Hne [Ha Hk]]]]]. exists a, (String sep t).
    repeat split; try assumption.
    unfold chr_eq. rewrite Ascii.eqb_refl. exact Hk.
Qed.

Lemma valid_email_parts (email : string) :
  isValidEmail email = true <-> email_shape email.
Proof.
  unfold isValidEmail, email_shape. cbv zeta. unfold cs.
  change (Cat _) with
    (Seq Bol
       (Seq (Plus (Cls true (space_ranges ++ [("@"%char, "@"%char)])))
            (Seq (Chr "@")
                 (Seq (Plus (Cls true (space_ranges ++ [("@"%char, "@"%char)])))
                      (Seq (Chr ".")
                           (Seq (Plus (Cls true (space_ranges ++ [("@"%char, "@"%char)])))
                                Eol)))))).
  rewrite RegexShapes.test_Bol, email_part. split.
  - intros [a [t [-> [Ha [Hoka Hm]]]]].
    apply email_part in Hm. destruct Hm as [b [t' [-> [Hb [Hokb Hm]]]]].
    apply email_tail in Hm. destruct Hm as [Hc Hokc].
    exists a, b, t'. repeat split; assumption.
  - intros [a [b [c [-> [Ha [Hb [Hc [Hoka [Hokb Hokc]]]]]]]]].
    exists a, (b ++ "." ++ c)%string. repeat split; try assumption.
    apply email_part. exists b, c. repeat split; try assumption.
    apply email_tail. split; assumption.
Qed.

(** X1: [isValidEmail] accepts exactly the strings [a@b.c] whose three
    parts are non-empty and free of white space and of [@]. *)
Theorem isValidEmail_shape (email : string) :
  isValidEmail email = true <-> email_shape email.
Proof. exact (valid_email_parts email). Qed.

(** ** Names *)

Lemma any_char_ext (P Q : ascii -> bool) (s : string) :
  (forall c, P c = Q c) -> any_char P s = any_char Q s.
Proof.
  intros H. induction s as [|c s IH]; cbn; [reflexivity | rewrite H, IH; reflexivity].
Qed.

(** [/[...]/.test(s)] without flags: some character of [s] is in the
    class. *)
Lemma test_class (rs : list (ascii * ascii)) (s : string) :
  test (cs (Cls false rs)) s = any_char (in_ranges rs) s.
Proof.
  unfold test, cs. cbn [ignoreCase source].
  rewrite (RegexShapes.search_single false (Cls false rs)
             (fun c => xorb false (cls_mem false rs c)) eq_refl).
  apply any_char_ext. intros c. reflexivity.
Qed.

Lemma in_range_point (c x : ascii) : in_range c (x, x) = Ascii.eqb c x.
Proof.
  unfold in_range. cbn [fst snd]. rewrite <- RegexShapes.code_eqb.
  destruct (N.leb_spec (JS.code x) (JS.code c)), (N.leb_spec (JS.code c) (JS.code x)),
           (N.eqb_spec (JS.code c) (JS.code x)); cbn; try reflexivity; lia.
Qed.

Lemma specials_class (c : ascii) :
  in_ranges [("<"%char, "<"%char); (">"%char, ">"%char);
             ("{"%char, "{"%char); ("}"%char, "}"%char);
             ("["%char, "["%char); ("]"%char, "]"%char);
             ("\"%char, "\"%char); ("/"%char, "/"%char)] c = name_special c.
Proof.
  unfold in_ranges, name_special. cbn [existsb].
  rewrite !in_range_point. reflexivity.
Qed.

Lemma letters_class (c : ascii) :
  in_ranges [("a"%char, "z"%char); ("A"%char, "Z"%char)] c = letter c.
Proof.
  unfold in_ranges, letter. cbn [existsb]. rewrite orb_false_r. reflexivity.
Qed.

Lemma starts_app (ic : bool) (p q s : string) :
  starts ic (p ++ q) s =
  match starts ic p s with
  | Some t => starts ic q t
  | None => None
  end.
Proof.
  revert s. induction p as [|a p IH]; intros s; cbn [append starts].
  - reflexivity.
  - destruct s as [|c s]; [reflexivity|].
    destruct (chr_eq ic a c); [apply IH | reflexivity].
Qed.

(** [http], an optional [s], [://]: at the head of [s] stands [http://]
    or [https://], in any letter case. *)
Lemma m_httpScheme (i : nat) (s : string) :
  m true httpScheme i s (fun _ _ => true) =
  is_some (starts true "http://" s) || is_some (starts true "https://" s).
Proof.
  unfold httpScheme, Opt.
  change (Cat _) with (Seq (Lit "http") (Seq (Alt (Chr "s") Eps) (Lit "://"))).
  cbn [m]. rewrite RegexFacts.m_Lit.
  change "http://"%string with ("http" ++ "://")%string.
  change "https://"%string with ("http" ++ "s://")%string.
  rewrite !starts_app.
  destruct (starts true "http" s) as [t|]; [|reflexivity].
  rewrite !RegexFacts.m_Lit.
  destruct t as [|c t].
  - reflexivity.
  - rewrite RegexFacts.m_Lit.
    change (starts true "s://" (String c t))
      with (if chr_eq true "s" c then starts true "://" t else None).
    destruct (chr_eq true "s" c); cbn [andb orb];
      destruct (starts true "://" t), (starts true "://" (String c t)); reflexivity.
Qed.

Lemma starts_upper (p t : string) :
  is_some (starts true p t) = String.prefix (JS.toUpperCase p) (JS.toUpperCase t).
Proof. apply (RegexFacts.starts_prefix true). Qed.

Lemma test_httpScheme (s : string) :
  test (ci httpScheme) s =
  JS.includes (JS.toUpperCase s) "HTTP://" || JS.includes (JS.toUpperCase s) "HTTPS://".
Proof.
  unfold test, ci. cbn [ignoreCase source]. generalize 0%nat.
  induction s as [|c s IH]; intros i; cbn [search]; rewrite m_httpScheme,
    !starts_upper.
  - reflexivity.
  - rewrite IH.
    change (JS.toUpperCase "http://") with "HTTP://"%string.
    change (JS.toUpperCase "https://") with "HTTPS://"%string.
    change (JS.toUpperCase (String c s))
      with (String (JS.upper_char c) (JS.toUpperCase s)).
    cbn [JS.includes].
    set (a := String.prefix "HTTP://" _). set (b := String.prefix "HTTPS://" _).
    destruct a, b, (JS.includes (JS.toUpperCase s) "HTTP://"),
             (JS.includes (JS.toUpperCase s) "HTTPS://"); reflexivity.
Qed.

(** X2: [isValidName] accepts exactly the names that hold an ASCII letter,
    none of the characters [< > { } [ ] \ /], and neither [http://] nor
    [https://] in any letter case. *)
Theorem isValidName_iff (name : string) :
  isValidName name = true <->
  JS.includes (JS.toUpperCase name) "HTTP://" = false /\
  JS.includes (JS.toUpperCase name) "HTTPS://" = false /\
  any_char name_special name = false /\
  any_char letter name = true.
Proof.
  unfold isValidName. rewrite test_httpScheme, !test_class.
  rewrite (any_char_ext _ _ name specials_class),
          (any_char_ext _ _ name letters_class).
  destruct (JS.includes (JS.toUpperCase name) "HTTP://"),
           (JS.includes (JS.toUpperCase name) "HTTPS://"),
           (any_char name_special name), (any_char letter name);
    cbn; intuition congruence.
Qed.

(** ** Escaping *)

Lemma any_char_app (P : ascii -> bool) (s t : string) :
  any_char P (s ++ t) = any_char P s || any_char P t.
Proof.
  induction s as [|c s IH]; cbn; [reflexivity|].
  rewrite IH. apply orb_assoc.
Qed.

Lemma escape_char_safe (c : ascii) : any_char html_unsafe (escape_char c) = false.
Proof.
  unfold escape_char.
  destruct (Ascii.eqb_spec c "&"); [reflexivity|].
  destruct (Ascii.eqb_spec c "<"); [reflexivity|].
  destruct (Ascii.eqb_spec c ">"); [reflexivity|].
  destruct (N.eqb_spec (JS.code c) 34) as [|Hq]; [reflexivity|].
  destruct (Ascii.eqb_spec c "'"); [reflexivity|].
  cbn [any_char]. rewrite orb_false_r. unfold html_unsafe. cbn [existsb].
  rewrite <- (RegexShapes.code_eqb c (ascii_of_N 34)).
  change (JS.code (ascii_of_N 34)) with 34%N.
  destruct (Ascii.eqb_spec c "<"); [contradiction|].
  destruct (Ascii.eqb_spec c ">"); [contradiction|].
  destruct (N.eqb_spec (JS.code c) 34); [contradiction|].
  destruct (Ascii.eqb_spec c "'"); [contradiction|].
  reflexivity.
Qed.

(** X3: the text [escapeHtml] returns holds no [<], no [>] and no quote
    of either kind, whatever the input. *)
Theorem escapeHtml_safe (text : string) :
  any_char html_unsafe (escapeHtml text) = false.
Proof.
  induction text as [|c text IH]; [reflexivity|].
  cbn [escapeHtml]. rewrite any_char_app, escape_char_safe, IH. reflexivity.
Qed.

(** ** Sanitising *)

Lemma substring_length (n : nat) (s : string) :
  (String.length (substring 0 n s) <= n)%nat.
Proof.
  revert s. induction n as [|n IH]; intros s.
  - destruct s; cbn; lia.
  - destruct s as [|c s]; cbn; [lia|]. specialize (IH s). lia.
Qed.

Lemma trimStart_head (s : string) (c : ascii) (rest : string) :
  JS.trimStart s = String c rest -> JS.is_space c = false.
Proof.
  induction s as [|d s IH]; cbn [JS.trimStart]; [discriminate|].
  destruct (JS.is_space d) eqn:E; [exact IH|].
  intros H. injection H as <- _. exact E.
Qed.

Lemma trimEnd_head (s : string) (c : ascii) (rest : string) :
  JS.trimEnd s = String c rest -> exists rest', s = String c rest'.
Proof.
  destruct s as [|d s]; cbn [JS.trimEnd]; [discriminate|].
  destruct (JS.trimEnd s).
  - destruct (JS.is_space d); [discriminate|].
    intros H. injection H as <- _. eauto.
  - intros H. injection H as <- _. eauto.
Qed.

(** X4: [sanitizeInput] returns at most [maxLength] characters, and its
    result does not begin with white space. *)
Theorem sanitizeInput_bounds (text : string) (maxLength : N) :
  (String.length (sanitizeInput text maxLength) <= N.to_nat maxLength)%nat /\
  forall c rest, sanitizeInput text maxLength = String c rest ->
                 JS.is_space c = false.
Proof.
  unfold sanitizeInput, JS.slice0. split; [apply substring_length|].
  intros c rest H.
  destruct (JS.trim text) as [|d t] eqn:E.
  - destruct (N.to_nat maxLength); discriminate.
  - destruct (N.to_nat maxLength); [discriminate|].
    cbn in H. injection H as <- _.
    unfold JS.trim in E. apply trimEnd_head in E. destruct E as [rest' E].
    apply (trimStart_head text d rest' E).
Qed.

(** ** What the handler leaves behind *)

Lemma length_200 (s : string) : (String.length (sanitizeInput s 200) <= 200)%nat.
Proof. unfold sanitizeInput, JS.slice0. apply substring_length. Qed.

Lemma length_254 (s : string) : (String.length (sanitizeInput s 254) <= 254)%nat.
Proof. unfold sanitizeInput, JS.slice0. apply substring_length. Qed.

Lemma length_100 (s : string) : (String.length (sanitizeInput s 100) <= 100)%nat.
Proof. unfold sanitizeInput, JS.slice0. apply substring_length. Qed.

Lemma length_10000 (s : string) :
  (String.length (sanitizeInput s 10000) <= N.to_nat 10000)%nat.
Proof. unfold sanitizeInput, JS.slice0. apply substring_length. Qed.

(** X5: one invocation leaves the inquiry table as it is or appends one
    row to it.  The row gets the next id, no client, the time of the
    invocation; its email has the shape a@b.c, its name passes
    [isValidName], its message is not empty, and name, email, message,
    company and budget hold at most 200, 254, 10000, 200 and 100
    characters.  A row is appended only with the answer 200 and after
    both mails were handed to the mail API. *)
Theorem stored_inquiry_well_formed (e : env) (w : world) (st : store)
        (req : request) :
  let r := handler e w st req in
  store_after r = st \/
  exists q,
    store_after r = Store (inquiries st ++ [q]) (inquiries_seq st + 1) /\
    inq_id q = inquiries_seq st /\ inq_client_id q = None /\
    inq_created_at q = now w /\
    email_shape (inq_email q) /\ isValidName (inq_name q) = true /\
    inq_message q <> ""%string /\
    (String.length (inq_name q) <= 200)%nat /\
    (String.length (inq_email q) <= 254)%nat /\
    (String.length (inq_message q) <= N.to_nat 10000)%nat /\
    (forall c, inq_company q = Some c -> (String.length c <= 200)%nat) /\
    (forall b, inq_budget q = Some b -> (String.length b <= 100)%nat) /\
    status r = 200 /\ List.length (mails r) = 2%nat.
Proof.
  unfold handler. cbv zeta.
  destruct (negb (String.eqb (method req) "POST")); [left; reflexivity|].
  destruct (body req) as [| |f]; [left; reflexivity | left; reflexivity|].
  destruct (JS.truthy (website f) && _); [left; reflexivity|].
  destruct (String.eqb (sanitizeInput (JS.orElse (name f) "") 200) "" || _ || _)
    eqn:Erequired; [left; reflexivity|].
  destruct (isValidEmail _) eqn:Eemail; [|left; reflexivity].
  destruct (isValidName _) eqn:Ename; [|left; reflexivity].
  cbn [negb].
  destruct (containsSpamPatterns _ || _); [left; reflexivity|].
  destruct (negb (JS.truthy (RESEND_API_KEY e)) || _ || _); [left; reflexivity|].
  destruct (notify_api w) as [|[|] st' err]; [left; reflexivity | | left; reflexivity].
  cbn [store_after status mails List.length].
  destruct (store_throws w); [left; reflexivity|]. right.
  eexists. split; [reflexivity|].
  cbn [inq_id inq_client_id inq_created_at inq_email inq_name inq_message
       inq_company inq_budget].
  apply orb_false_iff in Erequired. destruct Erequired as [_ Emsg].
  repeat split.
  - apply valid_email_parts, Eemail.
  - exact Ename.
  - intros H. rewrite H in Emsg. discriminate.
  - apply length_200.
  - apply length_254.
  - apply length_10000.
  - intros c. destruct (JS.truthy (company f)); [|discriminate].
    intros H. injection H as <-. apply length_200.
  - intros b. destruct (JS.truthy (budget f)); [|discriminate].
    intros H. injection H as <-. apply length_100.
Qed.

(** X6: a mail request is issued only for a POST whose honeypot is not
    tripped, whose sanitised email has the shape a@b.c, whose name passes
    [isValidName] and whose message and name match no spam pattern.  The
    first request goes to CONTACT_EMAIL with the submitter as reply-to;
    a second one, the confirmation to the submitter, is issued only after
    the mail API accepted the first, and then the answer is 200;
    otherwise the answer is 500 and nothing is stored. *)
Theorem mail_only_after_validation (e : env) (w : world) (st : store)
        (req : request) :
  let r := handler e w st req in
  mails r = [] \/
  exists f note,
    body req = Json f /\ method req = "POST"%string /\
    tripped f = false /\
    email_shape (clean_email f) /\
    isValidName (clean_name f) = true /\
    containsSpamPatterns (clean_message f) = false /\
    containsSpamPatterns (clean_name f) = false /\
    ((mails r = [note] /\ status r = 500 /\ store_after r = st) \/
     (exists conf, mails r = [note; conf] /\ mail_to conf = clean_email f /\
                   status r = 200)) /\
    mail_to note = JS.orElse (CONTACT_EMAIL e) "" /\
    mail_reply_to note = clean_email f.
Proof.
  unfold handler, tripped, clean_email, clean_name, clean_message. cbv zeta.
  destruct (String.eqb_spec (method req) "POST") as [Hpost|];
    [|left; reflexivity].
  cbn [negb].
  destruct (body req) as [| |f]; [left; reflexivity | left; reflexivity|].
  destruct (JS.truthy (website f) && _) eqn:Ehoney; [left; reflexivity|].
  destruct (String.eqb (sanitizeInput (JS.orElse (name f) "") 200) "" || _ || _);
    [left; reflexivity|].
  destruct (isValidEmail _) eqn:Eemail; [|left; reflexivity].
  destruct (isValidName _) eqn:Ename; [|left; reflexivity].
  cbn [negb].
  destruct (containsSpamPatterns _ || _) eqn:Espam; [left; reflexivity|].
  apply orb_false_iff in Espam. destruct Espam as [Espam1 Espam2].
  destruct (negb (JS.truthy (RESEND_API_KEY e)) || _ || _); [left; reflexivity|].
  right. exists f. eexists. split; [reflexivity|]. split; [exact Hpost|].
  split; [exact Ehoney|]. split; [apply valid_email_parts, Eemail|].
  split; [exact Ename|]. split; [exact Espam1|]. split; [exact Espam2|].
  destruct (notify_api w) as [|[|] st' err]; cbn [mails status store_after].
  - split; [left; repeat split|]. split; reflexivity.
  - split; [right; eexists; repeat split|]. split; reflexivity.
  - split; [left; repeat split|]. split; reflexivity.
Qed.

(** X7: a POST whose honeypot is not tripped and whose sanitised email is
    not of the shape a@b.c is answered 400; no mail request is issued and
    nothing is stored. *)
Theorem malformed_email_refused (e : env) (w : world) (st : store)
        (f : FormData) :
  tripped f = false ->
  ~ email_shape (clean_email f) ->
  let r := handler e w st (Request "POST" (Json f)) in
  status r = 400 /\ mails r = [] /\ store_after r = st.
Proof.
  unfold tripped, clean_email. intros Hhoney Hshape. unfold handler. cbv zeta.
  cbn [method body]. change (String.eqb "POST" "POST") with true. cbn [negb].
  rewrite Hhoney.
  destruct (String.eqb (sanitizeInput (JS.orElse (name f) "") 200) "" || _ || _);
    [repeat split|].
  destruct (isValidEmail _) eqn:Eemail; [|repeat split].
  exfalso. apply Hshape, valid_email_parts, Eemail.
Qed.

Lemma malformed_email_refused_witness :
  let r := handler Examples.mail_env Examples.fair_world Examples.no_inquiries
             (Request "POST" (Json Examples.no_at_form)) in
  status r = 400 /\ mails r = [] /\ store_after r = Examples.no_inquiries.
Proof.
  apply (malformed_email_refused Examples.mail_env Examples.fair_world
           Examples.no_inquiries Examples.no_at_form).
  - reflexivity.
  - intros H. apply valid_email_parts in H. vm_compute in H. discriminate H.
Defined.

(** A text that holds one of the spam words, in any letter case, matches
    the spam patterns. *)
Lemma spam_word_matches (text word : string) :
  In word SPAM_WORDS ->
  JS.includes (JS.toUpperCase text) (JS.toUpperCase word) = true ->
  containsSpamPatterns text = true.
Proof.
  intros Hin Hinc. unfold containsSpamPatterns, spamPatterns, ci.
  cbn [existsb Alts]. rewrite !RegexFacts.test_Alt.
  change (RegExp (Lit ?p) true) with (ci (Lit p)).
  rewrite !RegexFacts.test_Lit_ci.
  unfold SPAM_WORDS in Hin. cbn [In] in Hin.
  repeat (destruct Hin as [<-|Hin];
          [rewrite Hinc; cbn [orb]; rewrite ?orb_true_r; reflexivity|]).
  contradiction.
Qed.

(** X8: a submission whose sanitised message holds one of the spam words
    (in any letter case) causes no mail request and no stored inquiry,
    whatever else it holds. *)
Theorem spam_leaves_no_trace (e : env) (w : world) (st : store)
        (req : request) (f : FormData) (word : string) :
  body req = Json f ->
  In word SPAM_WORDS ->
  JS.includes (JS.toUpperCase (clean_message f)) (JS.toUpperCase word) = true ->
  mails (handler e w st req) = [] /\ store_after (handler e w st req) = st.
Proof.
  intros Hbody Hin Hinc.
  pose proof (spam_word_matches _ _ Hin Hinc) as Hspam.
  unfold clean_message in Hspam. unfold handler. cbv zeta. rewrite Hbody.
  destruct (negb (String.eqb (method req) "POST")); [split; reflexivity|].
  destruct (JS.truthy (website f) && _); [split; reflexivity|].
  destruct (String.eqb (sanitizeInput (JS.orElse (name f) "") 200) "" || _ || _);
    [split; reflexivity|].
  destruct (isValidEmail _); [|split; reflexivity].
  destruct (isValidName _); [|split; reflexivity].
  cbn [negb]. rewrite Hspam. cbn [orb]. split; reflexivity.
Qed.

Lemma spam_leaves_no_trace_witness :
  mails (handler Examples.mail_env Examples.fair_world Examples.no_inquiries
           (Request "POST" (Json Examples.casino_form))) = [] /\
  store_after (handler Examples.mail_env Examples.fair_world Examples.no_inquiries
                 (Request "POST" (Json Examples.casino_form)))
    = Examples.no_inquiries.
Proof.
  apply (spam_leaves_no_trace Examples.mail_env Examples.fair_world
           Examples.no_inquiries (Request "POST" (Json Examples.casino_form))
           Examples.casino_form "casino").
  - reflexivity.
  - do 4 right. left. reflexivity.
  - reflexivity.
Defined.

End SendEmailMore.

(* ------------------------------------------------------------------ *)
(** * The edge filter: what reaches the origin *)

Module SecurityMore.
Import Regex Security Signatures.

(** X9: the filter answers with 413, 404, 400, 403 or 405 or hands the
    request on, and every answer of its own is logged. *)
Theorem filter_answers (req : request) :
  snd (handler req) = Next \/
  (rejected_with REJECTIONS (handler req) /\ fst (handler req) <> []).
Proof.
  unfold handler, rejected_with, REJECTIONS. cbv zeta.
  destruct (isOversizedRequest req);
    [right; split; [do 2 eexists; split; [reflexivity | cbn; tauto] | discriminate]|].
  destruct (isBlockedExtension _);
    [right; split; [do 2 eexists; split; [reflexivity | cbn; tauto] | discriminate]|].
  destruct (isBlockedPath _);
    [right; split; [do 2 eexists; split; [reflexivity | cbn; tauto] | discriminate]|].
  destruct (hasSuspiciousQuery _);
    [right; split; [do 2 eexists; split; [reflexivity | cbn; tauto] | discriminate]|].
  destruct (hasSuspiciousHeaders req);
    [right; split; [do 2 eexists; split; [reflexivity | cbn; tauto] | discriminate]|].
  assert (Hpolicy : snd (methodPolicy req) = Next \/
                    (exists body, snd (methodPolicy req) = Respond body 405) /\
                    fst (methodPolicy req) <> []).
  { unfold methodPolicy. cbv zeta.
    destruct (negb (existsb _ _));
      [right; split; [eexists; reflexivity | discriminate]|].
    destruct (_ && _);
      [right; split; [eexists; reflexivity | discriminate] | left; reflexivity]. }
  destruct (isSuspiciousUserAgent _).
  - destruct (_ && _);
      [right; split; [do 2 eexists; split; [reflexivity | cbn; tauto] | discriminate]|].
    destruct (methodPolicy req) as [logs out]. cbn [fst snd] in *.
    destruct Hpolicy as [->|[[body ->] _]]; [left; reflexivity|].
    right. split; [do 2 eexists; split; [reflexivity | cbn; tauto] | discriminate].
  - destruct Hpolicy as [H|[[body H] Hlog]]; [left; exact H|].
    right. split; [|exact Hlog].
    exists body, 405. split; [exact H | cbn; tauto].
Qed.

Ltac found_word Hin Hinc :=
  repeat (destruct Hin as [<-|Hin];
          [rewrite Hinc; rewrite ?orb_true_l, ?orb_true_r; reflexivity|]);
  contradiction.

(** A path that holds one of the path words, in any letter case, matches
    the path patterns. *)
Lemma path_word_blocked (path word : string) :
  In word PATH_WORDS ->
  JS.includes (JS.toUpperCase path) (JS.toUpperCase word) = true ->
  isBlockedPath path = true.
Proof.
  intros Hin Hinc. unfold isBlockedPath, BLOCKED_PATH_PATTERNS.
  cbn [existsb]. rewrite !RegexFacts.test_Lit_ci.
  unfold PATH_WORDS in Hin. cbn [In] in Hin.
  found_word Hin Hinc.
Qed.

Lemma query_word_suspicious (query word : string) :
  In word QUERY_WORDS ->
  JS.includes (JS.toUpperCase query) (JS.toUpperCase word) = true ->
  hasSuspiciousQuery query = true.
Proof.
  intros Hin Hinc. unfold hasSuspiciousQuery.
  destruct (String.eqb_spec query "") as [->|_].
  - exfalso. unfold QUERY_WORDS in Hin. cbn [In] in Hin.
    repeat (destruct Hin as [<-|Hin]; [discriminate Hinc|]). contradiction.
  - unfold BLOCKED_QUERY_PATTERNS, ci. cbn [existsb].
    rewrite RegexFacts.test_Alt.
    change (RegExp (Lit ?p) true) with (ci (Lit p)).
    rewrite !RegexFacts.test_Lit_ci.
    unfold QUERY_WORDS in Hin. cbn [In] in Hin.
    found_word Hin Hinc.
Qed.

(** X10: a request whose path holds one of the path words, in any letter
    case, never reaches the origin: it is answered 404, or 413 when it
    is oversized. *)
Theorem path_signature_stopped (req : request) (word : string) :
  In word PATH_WORDS ->
  JS.includes (JS.toUpperCase (pathname req)) (JS.toUpperCase word) = true ->
  rejected_with [413; 404] (handler req).
Proof.
  intros Hin Hinc. pose proof (path_word_blocked _ _ Hin Hinc) as Hpath.
  unfold handler, rejected_with. cbv zeta.
  destruct (isOversizedRequest req);
    [do 2 eexists; split; [reflexivity | cbn; tauto]|].
  destruct (isBlockedExtension _);
    [do 2 eexists; split; [reflexivity | cbn; tauto]|].
  rewrite Hpath. do 2 eexists; split; [reflexivity | cbn; tauto].
Qed.

Lemma path_signature_stopped_witness :
  rejected_with [413; 404]
    (handler (Request "GET" "/blog/WP-Admin/setup" "" [("user-agent", "Mozilla/5.0")])).
Proof.
  apply (path_signature_stopped
           (Request "GET" "/blog/WP-Admin/setup" "" [("user-agent", "Mozilla/5.0")])
           "/wp-admin").
  - left. reflexivity.
  - reflexivity.
Defined.

(** X11: a request whose query string holds one of the query words, in any
    letter case, never reaches the origin: it is answered 400, unless an
    earlier rule answers 413 or 404. *)
Theorem query_signature_stopped (req : request) (word : string) :
  In word QUERY_WORDS ->
  JS.includes (JS.toUpperCase (search req)) (JS.toUpperCase word) = true ->
  rejected_with [413; 404; 400] (handler req).
Proof.
  intros Hin Hinc. pose proof (query_word_suspicious _ _ Hin Hinc) as Hquery.
  unfold handler, rejected_with. cbv zeta.
  destruct (isOversizedRequest req);
    [do 2 eexists; split; [reflexivity | cbn; tauto]|].
  destruct (isBlockedExtension _);
    [do 2 eexists; split; [reflexivity | cbn; tauto]|].
  destruct (isBlockedPath _);
    [do 2 eexists; split; [reflexivity | cbn; tauto]|].
  rewrite Hquery. do 2 eexists; split; [reflexivity | cbn; tauto].
Qed.

Lemma query_signature_stopped_witness :
  rejected_with [413; 404; 400]
    (handler (Request "GET" "/portfolio.html" "?file=../../secret"
                      [("user-agent", "Mozilla/5.0")])).
Proof.
  apply (query_signature_stopped
           (Request "GET" "/portfolio.html" "?file=../../secret"
                    [("user-agent", "Mozilla/5.0")]) "../").
  - do 7 right. left. reflexivity.
  - reflexivity.
Defined.

(** X12: a request whose user-agent holds one of the nine scanner words, in
    any letter case, never reaches the origin: it is answered 403, unless
    an earlier rule answers 413, 404 or 400. *)
Theorem scanner_stopped (req : request) (u word : string) :
  headers_get (headers req) "user-agent" = Some u ->
  In word MALICIOUS_WORDS ->
  JS.includes (JS.toUpperCase u) (JS.toUpperCase word) = true ->
  rejected_with [413; 404; 400; 403] (handler req).
Proof.
  intros Hua Hin Hinc.
  assert (Hm : test MALICIOUS_SCANNERS u = true).
  { rewrite SecurityProofs.malicious_contains. apply existsb_exists.
    exists word. split; assumption. }
  pose proof (SecurityProofs.malicious_nonempty _ Hm) as Hne.
  unfold handler, rejected_with. cbv zeta.
  destruct (isOversizedRequest req);
    [do 2 eexists; split; [reflexivity | cbn; tauto]|].
  destruct (isBlockedExtension _);
    [do 2 eexists; split; [reflexivity | cbn; tauto]|].
  destruct (isBlockedPath _);
    [do 2 eexists; split; [reflexivity | cbn; tauto]|].
  destruct (hasSuspiciousQuery _);
    [do 2 eexists; split; [reflexivity | cbn; tauto]|].
  destruct (hasSuspiciousHeaders req);
    [do 2 eexists; split; [reflexivity | cbn; tauto]|].
  rewrite Hua. unfold isSuspiciousUserAgent.
  rewrite (JSFacts.truthy_Some _ Hne), !(JSFacts.orElse_Some _ _ Hne).
  cbn [negb andb]. rewrite (SecurityProofs.malicious_is_suspicious _ Hm), Hm.
  do 2 eexists; split; [reflexivity | cbn; tauto].
Qed.

Lemma scanner_stopped_witness :
  rejected_with [413; 404; 400; 403]
    (handler (Request "POST" "/api/admin/otp/send" ""
                      [("user-agent", "Mozilla/5.0 (compatible; Nikto/2.5)")])).
Proof.
  apply (scanner_stopped
           (Request "POST" "/api/admin/otp/send" ""
                    [("user-agent", "Mozilla/5.0 (compatible; Nikto/2.5)")])
           "Mozilla/5.0 (compatible; Nikto/2.5)" "nikto").
  - reflexivity.
  - right. left. reflexivity.
  - reflexivity.
Defined.

(** X13: the method policy lets a request through exactly when its
    upper-cased method is GET, HEAD or OPTIONS, or POST on a path under
    /api/send-email, /api/admin/ or /.netlify/functions/, or PUT or DELETE
    on a path under /api/admin/; every other request is answered 405. *)
Theorem method_policy_allows (req : request) :
  let m := JS.toUpperCase (method req) in
  let under := JS.startsWith (pathname req) in
  (snd (methodPolicy req) = Next <->
   In m ["GET"; "HEAD"; "OPTIONS"]%string \/
   (m = "POST"%string /\
    (under "/api/send-email" = true \/ under "/api/admin/" = true \/
     under "/.netlify/functions/" = true)) \/
   (In m ["PUT"; "DELETE"]%string /\ under "/api/admin/" = true)) /\
  (snd (methodPolicy req) <> Next ->
   snd (methodPolicy req) = Respond "Method Not Allowed" 405).
Proof.
  cbv zeta. unfold methodPolicy. cbv zeta. cbn [existsb In].
  generalize (JS.toUpperCase (method req)) as m. intros m.
  generalize (JS.startsWith (pathname req) "/api/admin/") as admin.
  generalize (JS.startsWith (pathname req) "/api/send-email") as mail.
  generalize (JS.startsWith (pathname req) "/.netlify/functions/") as fn.
  intros fn mail admin.
  destruct admin, mail, fn; cbn [existsb];
    (destruct (String.eqb_spec m "GET") as [->|HG];
     [|destruct (String.eqb_spec m "HEAD") as [->|HH];
      [|destruct (String.eqb_spec m "OPTIONS") as [->|HO];
       [|destruct (String.eqb_spec m "POST") as [->|HP];
        [|destruct (String.eqb_spec m "PUT") as [->|HU];
         [|destruct (String.eqb_spec m "DELETE") as [->|HD]]]]]]);
    cbn;
    (split; [split; intros H; try reflexivity; try discriminate H;
             intuition (try discriminate; try congruence)
            | intros H; try reflexivity; exfalso; apply H; reflexivity]).
Qed.

(** X14: the filter hands on the requests of the site's own API: a request
    for one of the routes of the contact form and of the admin API that
    is not oversized, has no suspicious query and no suspicious header,
    and whose user-agent is not a known scanner, reaches the origin. *)
Theorem own_routes_pass (req : request) :
  In (method req, pathname req) API_ROUTES ->
  isOversizedRequest req = false ->
  hasSuspiciousQuery (search req) = false ->
  hasSuspiciousHeaders req = false ->
  JS.truthy (headers_get (headers req) "user-agent") &&
    test MALICIOUS_SCANNERS (JS.orElse (headers_get (headers req) "user-agent") "")
    = false ->
  snd (handler req) = Next.
Proof.
  intros Hroute Hsize Hquery Hheaders Hua.
  assert (Hpath : isBlockedExtension (pathname req) = false /\
                  isBlockedPath (pathname req) = false /\
                  methodPolicy req = ([], Next)).
  { unfold methodPolicy. cbv zeta.
    unfold API_ROUTES in Hroute. cbn [In] in Hroute.
    repeat (destruct Hroute as [E|Hroute];
            [injection E as <- <-; repeat split; vm_compute; reflexivity|]).
    contradiction. }
  destruct Hpath as [Hext [Hblocked Hpolicy]].
  unfold handler. cbv zeta.
  rewrite Hsize, Hext, Hblocked, Hquery, Hheaders, Hua, Hpolicy.
  destruct (isSuspiciousUserAgent _); reflexivity.
Qed.

Lemma own_routes_pass_witness :
  snd (handler (Request "PUT" "/api/admin/clients" ""
                  [("user-agent", "Mozilla/5.0"); ("content-length", "120")]))
    = Next.
Proof.
  apply (own_routes_pass
           (Request "PUT" "/api/admin/clients" ""
              [("user-agent", "Mozilla/5.0"); ("content-length", "120")]));
    try reflexivity.
  do 7 right. left. reflexivity.
Defined.

End SecurityMore.

(* ------------------------------------------------------------------ *)
(** * The admin API: invariants of the store, logging in and out *)

Module AdminMore.
Import AdminApi AdminSpec.

(** ** Whose rows are stored *)

Lemma sendOTP_admin_only (e : env) (w : world) (d : db) (req : request) :
  admin_only e d -> admin_only e (db_after (sendOTP e w d req)).
Proof.
  intros [Hc Hs]. unfold sendOTP. cbv zeta.
  destruct (body req) as [b|]; [|split; assumption].
  destruct (negb (JS.truthy (email b))); [split; assumption|].
  destruct (negb (JS.truthy (ADMIN_EMAIL e))); [split; assumption|].
  destruct (String.eqb_spec (JS.toLowerCase (JS.orElse (email b) ""))
                            (JS.toLowerCase (JS.orElse (ADMIN_EMAIL e) "")))
    as [Heq|]; [|split; assumption].
  cbn [negb].
  assert (Hpurged : forall r, In r (purge_codes (now w) (otp_codes d)) ->
                              otp_email r = admin_address e).
  { intros r Hr. apply filter_In in Hr. apply Hc, Hr. }
  assert (Hins : forall c r,
             In r (purge_codes (now w) (otp_codes d) ++
                     [OtpRow (otp_seq d) (JS.toLowerCase (JS.orElse (email b) "")) c
                             (now w + minutes 10) false (now w)]) ->
             otp_email r = admin_address e).
  { intros c r Hr. apply in_app_iff in Hr. destruct Hr as [Hr|[<-|[]]].
    - apply Hpurged, Hr.
    - exact Heq. }
  destruct (Z.leb 5 _); [split; [exact Hpurged | exact Hs]|].
  destruct (_ || _); [split; [apply Hins | exact Hs]|].
  destruct (mail_api w); (split; [apply Hins | exact Hs]).
Qed.

Lemma mark_used_email (id : Z) (rows : list otp_row) (r : otp_row) :
  In r (mark_used id rows) ->
  exists r0, In r0 rows /\ otp_email r = otp_email r0 /\ otp_id r = otp_id r0.
Proof.
  unfold mark_used. intros Hr. apply in_map_iff in Hr.
  destruct Hr as [r0 [<- Hin]]. exists r0.
  destruct (Z.eqb (otp_id r0) id); auto.
Qed.

Lemma verifyOTP_admin_only (e : env) (w : world) (d : db) (req : request) :
  admin_only e d -> admin_only e (db_after (verifyOTP e w d req)).
Proof.
  intros [Hc Hs]. unfold verifyOTP. cbv zeta.
  destruct (body req) as [b|]; [|split; assumption].
  destruct (_ || _); [split; assumption|].
  destruct (negb (JS.truthy (ADMIN_EMAIL e))); [split; assumption|].
  cbn [orb].
  destruct (String.eqb_spec (JS.toLowerCase (JS.orElse (email b) ""))
                            (JS.toLowerCase (JS.orElse (ADMIN_EMAIL e) "")))
    as [Heq|]; [|split; assumption].
  cbn [negb].
  destruct (latest _) as [otp|]; [|split; assumption].
  assert (Hcodes : forall r, In r (mark_used (otp_id otp) (otp_codes d)) ->
                             otp_email r = admin_address e).
  { intros r Hr. apply mark_used_email in Hr. destruct Hr as [r0 [Hin [-> _]]].
    apply Hc, Hin. }
  destruct (existsb _ _); cbn [db_after otp_codes admin_sessions];
    (split; [exact Hcodes|]); intros s Hin.
  - apply filter_In in Hin. apply Hs, Hin.
  - apply in_app_iff in Hin. destruct Hin as [Hin|[<-|[]]].
    + apply filter_In in Hin. apply Hs, Hin.
    + exact Heq.
Qed.

Lemma handler_admin_only (e : env) (w : world) (d : db) (req : request) :
  admin_only e d -> admin_only e (db_after (handler e w d req)).
Proof.
  intros H. unfold handler. cbv zeta.
  destruct (String.eqb (method req) "OPTIONS"); [exact H|].
  destruct (_ && _); [apply sendOTP_admin_only, H|].
  destruct (_ && _); [apply verifyOTP_admin_only, H|].
  destruct (_ && _).
  - destruct H as [Hc Hs]. unfold logout. cbv zeta. cbn [db_after].
    destruct (_ && _); [|split; assumption].
    split; [exact Hc|]. cbn [admin_sessions]. intros s Hin.
    apply filter_In in Hin. apply Hs, Hin.
  - rewrite AdminProofs.authenticated_db. exact H.
Qed.

(** X15: in every store the handler produces from the empty one, each code
    and each session belongs to the lower-cased admin address. *)
Theorem rows_belong_to_admin (e : env) (d : db) :
  reachable e d -> admin_only e d.
Proof.
  intros [evs <-]. unfold run.
  assert (H : admin_only e empty_db) by (split; intros ? []).
  revert H. generalize empty_db.
  induction evs as [|ev evs IH]; intros d0 H; cbn [fold_left]; [exact H|].
  apply IH. unfold step. apply handler_admin_only, H.
Qed.

Lemma rows_belong_to_admin_witness :
  admin_only Examples.admin_env Examples.session_db.
Proof.
  apply (rows_belong_to_admin Examples.admin_env Examples.session_db).
  exists [ (Examples.at_time 0 "424242" "", Examples.send_req Examples.owner);
           (Examples.at_time (minutes 1) "" "tokA",
            Examples.verify_req Examples.owner "424242") ].
  reflexivity.
Defined.

(** ** Serial ids *)

Lemma NoDup_map_filter_Z {A : Type} (g : A -> Z) (f : A -> bool) (l : list A) :
  NoDup (map g l) -> NoDup (map g (filter f l)).
Proof.
  induction l as [|a l IH]; simpl; intros H; [constructor|].
  inversion H as [|? ? Hnotin Hnd]; subst.
  destruct (f a); simpl; [|apply IH, Hnd].
  constructor; [|apply IH, Hnd].
  intros Hin. apply Hnotin. apply in_map_iff in Hin.
  destruct Hin as [y [Hy Hin]]. apply filter_In in Hin.
  apply in_map_iff. exists y. tauto.
Qed.

Lemma NoDup_snoc_fresh {A : Type} (g : A -> Z) (l : list A) (x : A) :
  NoDup (map g l) -> (forall y, In y l -> g y < g x) -> NoDup (map g (l ++ [x])).
Proof.
  induction l as [|a l IH]; simpl; intros Hnd Hlt.
  - constructor; [tauto | constructor].
  - inversion Hnd as [|? ? Hnotin Hnd']; subst. constructor.
    + rewrite map_app, in_app_iff. simpl. intros [H|[H|[]]]; [contradiction|].
      specialize (Hlt a (or_introl eq_refl)). lia.
    + apply IH; [exact Hnd' | intros y Hy; apply Hlt; right; exact Hy].
Qed.

Lemma mark_used_ids (id : Z) (rows : list otp_row) :
  map otp_id (mark_used id rows) = map otp_id rows.
Proof.
  unfold mark_used. rewrite map_map. apply map_ext.
  intros r. destruct (Z.eqb (otp_id r) id); reflexivity.
Qed.

Lemma serial_codes_insert (t : Z) (rows : list otp_row) (seq : Z) (row : otp_row) :
  (forall r, In r rows -> otp_id r < seq) -> NoDup (map otp_id rows) ->
  otp_id row = seq ->
  (forall r, In r (purge_codes t rows ++ [row]) -> otp_id r < seq + 1) /\
  NoDup (map otp_id (purge_codes t rows ++ [row])).
Proof.
  intros Hlt Hnd Hid. split.
  - intros r Hr. apply in_app_iff in Hr. destruct Hr as [Hr|[<-|[]]]; [|lia].
    apply filter_In in Hr. specialize (Hlt r (proj1 Hr)). lia.
  - apply NoDup_snoc_fresh; [apply NoDup_map_filter_Z, Hnd|].
    intros y Hy. apply filter_In in Hy. rewrite Hid. apply Hlt, Hy.
Qed.

Lemma sendOTP_serial_ok (e : env) (w : world) (d : db) (req : request) :
  serial_ok d -> serial_ok (db_after (sendOTP e w d req)).
Proof.
  intros H. pose proof H as [Hlt [Hnd [Hs1 Hs2]]]. unfold sendOTP. cbv zeta.
  destruct (body req) as [b|]; [|exact H].
  destruct (negb (JS.truthy (email b))); [exact H|].
  destruct (negb (JS.truthy (ADMIN_EMAIL e))); [exact H|].
  destruct (negb (String.eqb _ _)); [exact H|].
  assert (Hpurged : serial_ok (Db (purge_codes (now w) (otp_codes d)) (otp_seq d)
                                  (admin_sessions d) (ses_seq d))).
  { repeat split; cbn; try assumption.
    - intros r Hr. apply filter_In in Hr. apply Hlt, Hr.
    - apply NoDup_map_filter_Z, Hnd. }
  assert (Hins : forall em c,
             serial_ok (Db (purge_codes (now w) (otp_codes d) ++
                              [OtpRow (otp_seq d) em c (now w + minutes 10) false (now w)])
                           (otp_seq d + 1) (admin_sessions d) (ses_seq d))).
  { intros em c.
    destruct (serial_codes_insert (now w) (otp_codes d) (otp_seq d)
                (OtpRow (otp_seq d) em c (now w + minutes 10) false (now w))
                Hlt Hnd eq_refl) as [H1 H2].
    repeat split; cbn; assumption. }
  destruct (Z.leb 5 _); [exact Hpurged|].
  destruct (_ || _); [apply Hins|].
  destruct (mail_api w); apply Hins.
Qed.

Lemma verifyOTP_serial_ok (e : env) (w : world) (d : db) (req : request) :
  serial_ok d -> serial_ok (db_after (verifyOTP e w d req)).
Proof.
  intros H. pose proof H as [Hlt [Hnd [Hs1 Hs2]]]. unfold verifyOTP. cbv zeta.
  destruct (body req) as [b|]; [|exact H].
  destruct (_ || _); [exact H|].
  destruct (_ || _); [exact H|].
  destruct (latest _) as [otp|]; [|exact H].
  assert (Hcodes : (forall r, In r (mark_used (otp_id otp) (otp_codes d)) ->
                              otp_id r < otp_seq d) /\
                   NoDup (map otp_id (mark_used (otp_id otp) (otp_codes d)))).
  { split; [|rewrite mark_used_ids; exact Hnd].
    intros r Hr. apply (in_map otp_id) in Hr. rewrite mark_used_ids in Hr.
    apply in_map_iff in Hr. destruct Hr as [r0 [<- Hr0]]. apply Hlt, Hr0. }
  destruct Hcodes as [Hc1 Hc2].
  destruct (existsb _ _); cbn [db_after]; repeat split; cbn; try assumption.
  - intros s Hs. apply filter_In in Hs. specialize (Hs1 s (proj1 Hs)). lia.
  - apply NoDup_map_filter_Z, Hs2.
  - intros s Hs. apply in_app_iff in Hs. destruct Hs as [Hs|[<-|[]]]; [|cbn; lia].
    apply filter_In in Hs. specialize (Hs1 s (proj1 Hs)). lia.
  - apply NoDup_snoc_fresh; [apply NoDup_map_filter_Z, Hs2|].
    intros y Hy. apply filter_In in Hy. cbn. apply Hs1, Hy.
Qed.

Lemma handler_serial_ok (e : env) (w : world) (d : db) (req : request) :
  serial_ok d -> serial_ok (db_after (handler e w d req)).
Proof.
  intros H. unfold handler. cbv zeta.
  destruct (String.eqb (method req) "OPTIONS"); [exact H|].
  destruct (_ && _); [apply sendOTP_serial_ok, H|].
  destruct (_ && _); [apply verifyOTP_serial_ok, H|].
  destruct (_ && _).
  - destruct H as [Hlt [Hnd [Hs1 Hs2]]]. unfold logout. cbv zeta. cbn [db_after].
    destruct (_ && _); [|repeat split; assumption].
    repeat split; cbn; try assumption.
    + intros s Hs. apply filter_In in Hs. apply Hs1, Hs.
    + apply NoDup_map_filter_Z, Hs2.
  - rewrite AdminProofs.authenticated_db. exact H.
Qed.

Lemma reachable_serial_ok (e : env) (d : db) : reachable e d -> serial_ok d.
Proof.
  intros [evs <-]. unfold run.
  assert (H : serial_ok empty_db).
  { repeat split; cbn; try constructor; intros ? []. }
  revert H. generalize empty_db.
  induction evs as [|ev evs IH]; intros d0 H; cbn [fold_left]; [exact H|].
  apply IH. unfold step. apply handler_serial_ok, H.
Qed.

Lemma latest_In (rows : list otp_row) (r : otp_row) :
  latest rows = Some r -> In r rows.
Proof.
  revert r. induction rows as [|a rows IH]; intros r; cbn [latest]; [discriminate|].
  destruct (latest rows) as [r'|].
  - destruct (Z.ltb _ _); intros H; injection H as <-;
      [right; apply IH; reflexivity | left; reflexivity].
  - intros H. injection H as <-. left. reflexivity.
Qed.

Lemma mark_one_used (otp : otp_row) (rows : list otp_row) :
  NoDup (map otp_id rows) -> In otp rows -> otp_used otp = false ->
  List.length (filter otp_used (mark_used (otp_id otp) rows)) =
  S (List.length (filter otp_used rows)).
Proof.
  induction rows as [|a rows IH]; intros Hnd Hin Hused; [contradiction|].
  cbn [map] in Hnd. inversion Hnd as [|? ? Hnotin Hnd']; subst.
  unfold mark_used in *. cbn [map filter].
  destruct Hin as [->|Hin].
  - rewrite Z.eqb_refl. cbn [set_used otp_used]. rewrite Hused. cbn [List.length].
    f_equal. f_equal. f_equal.
    transitivity (map (fun r : otp_row => r) rows); [|apply map_id].
    apply map_ext_in. intros r Hr.
    destruct (Z.eqb_spec (otp_id r) (otp_id otp)) as [E|]; [|reflexivity].
    exfalso. apply Hnotin. rewrite <- E. apply in_map, Hr.
  - destruct (Z.eqb_spec (otp_id a) (otp_id otp)) as [E|].
    + exfalso. apply Hnotin. rewrite E. apply in_map, Hin.
    + destruct (otp_used a); cbn [List.length]; rewrite (IH Hnd' Hin Hused);
        reflexivity.
Qed.

(** X16: in a store the handler produced from the empty one, a verification
    answered 200 marks exactly one code used: the number of used codes
    grows by one, the number of codes stays, and exactly one session is
    added to those that have not expired. *)
Theorem verification_consumes_one_code (e : env) (w : world) (d : db)
        (req : request) (token : string) (ttl : Z) :
  reachable e d ->
  reply (verifyOTP e w d req) = Reply 200 (PToken token ttl) ->
  used_count (db_after (verifyOTP e w d req)) = S (used_count d) /\
  List.length (otp_codes (db_after (verifyOTP e w d req))) =
    List.length (otp_codes d) /\
  exists s,
    admin_sessions (db_after (verifyOTP e w d req)) =
      (purge_sessions (now w) (admin_sessions d) ++ [s])%list /\
    ses_token s = token /\ token = token_draw w /\ ttl = 86400 /\
    ses_expires_at s = now w + hours 24.
Proof.
  intros Hreach. apply reachable_serial_ok in Hreach.
  destruct Hreach as [_ [Hnd _]].
  unfold verifyOTP, used_count. cbv zeta.
  destruct (body req) as [b|]; [|discriminate].
  destruct (_ || _); [discriminate|].
  destruct (_ || _); [discriminate|].
  destruct (latest _) as [otp|] eqn:Elatest; [|discriminate].
  apply latest_In in Elatest. apply filter_In in Elatest.
  destruct Elatest as [Hin Hvalid].
  destruct (existsb _ _); [discriminate|].
  cbn [reply db_after otp_codes admin_sessions]. unfold jsonResponse.
  intros H. injection H as <- <-.
  split; [|split].
  - apply mark_one_used; try assumption.
    unfold valid_otp in Hvalid. apply andb_true_iff in Hvalid.
    destruct Hvalid as [_ Hu]. apply negb_true_iff in Hu. exact Hu.
  - unfold mark_used. apply length_map.
  - eexists. split; [reflexivity|]. repeat split.
Qed.

Lemma verification_consumes_one_code_witness :
  let r := verifyOTP Examples.admin_env (Examples.at_time (minutes 2) "" "tokA")
             Examples.twin_db (Examples.verify_req Examples.owner "424242") in
  used_count (db_after r) = S (used_count Examples.twin_db) /\
  List.length (otp_codes (db_after r)) = List.length (otp_codes Examples.twin_db) /\
  exists s,
    admin_sessions (db_after r) =
      (purge_sessions (minutes 2) (admin_sessions Examples.twin_db) ++ [s])%list /\
    ses_token s = "tokA"%string /\ "tokA"%string = "tokA"%string /\
    86400 = 86400 /\ ses_expires_at s = minutes 2 + hours 24.
Proof.
  apply (verification_consumes_one_code Examples.admin_env
           (Examples.at_time (minutes 2) "" "tokA") Examples.twin_db
           (Examples.verify_req Examples.owner "424242") "tokA" 86400).
  - exists [ (Examples.at_time 0 "424242" "", Examples.send_req Examples.owner);
             (Examples.at_time (minutes 1) "424242" "",
              Examples.send_req Examples.owner) ].
    reflexivity.
  - reflexivity.
Defined.

(** ** Logging in and out *)

Lemma latest_some (rows : list otp_row) :
  rows <> [] -> exists r, latest rows = Some r.
Proof.
  destruct rows as [|a rows]; [contradiction|]. intros _. cbn [latest].
  destruct (latest rows) as [r'|]; [|eauto].
  destruct (Z.ltb _ _); eauto.
Qed.

(** X17: the login works end to end.  When a request for a code is answered
    [{sent: true}] for the admin address, a verification with the code it
    drew, made less than ten minutes later with a token that is not
    stored, is answered 200 with that token; and the token then
    authenticates every request made less than 24 hours after the
    verification. *)
Theorem login_flow (e : env) (w1 w2 : world) (d : db)
        (req1 req2 req3 : request) (b1 : json_body) (em admin : string) :
  ADMIN_EMAIL e = Some admin -> admin <> ""%string ->
  em <> ""%string -> JS.toLowerCase em = JS.toLowerCase admin ->
  body req1 = Some b1 -> email b1 = Some em ->
  reply (sendOTP e w1 d req1) = Reply 200 PSent ->
  otp_draw w1 <> ""%string ->
  body req2 = Some (Body (Some em) (Some (otp_draw w1))) ->
  now w1 <= now w2 < now w1 + minutes 10 ->
  existsb (fun s => String.eqb (ses_token s) (token_draw w2))
          (purge_sessions (now w2) (admin_sessions d)) = false ->
  authorization req3 = Some ("Bearer " ++ token_draw w2)%string ->
  let d1 := db_after (sendOTP e w1 d req1) in
  let r2 := verifyOTP e w2 d1 req2 in
  reply r2 = Reply 200 (PToken (token_draw w2) 86400) /\
  forall t, now w2 <= t < now w2 + hours 24 ->
            checkAuth t (db_after r2) req3 = true.
Proof.
  intros Ha Hadm Hem Hlow Hb1 He1 Hsent Hdraw Hb2 Htime Hfresh Hauth d1 r2.
  (* the store after the request for a code *)
  assert (Hd1 : exists codes,
             d1 = Db (codes ++ [OtpRow (otp_seq d) (JS.toLowerCase em) (otp_draw w1)
                                       (now w1 + minutes 10) false (now w1)])
                     (otp_seq d + 1) (admin_sessions d) (ses_seq d)).
  { unfold d1. revert Hsent.
    rewrite (AdminProofs.sendOTP_email e w1 d req1 b1 em admin) by assumption.
    rewrite Hlow, String.eqb_refl. cbn [negb]. cbv zeta. rewrite <- Hlow.
    destruct (Z.leb 5 _); [discriminate|].
    destruct (_ || _); [discriminate|].
    destruct (mail_api w1); try discriminate. intros _. eexists. reflexivity. }
  destruct Hd1 as [codes Hd1].
  (* the verification *)
  assert (Hr2 : exists cs,
             r2 = Result (Db cs (otp_seq d1)
                             (purge_sessions (now w2) (admin_sessions d) ++
                                [SessionRow (ses_seq d1) (token_draw w2)
                                   (JS.toLowerCase em) (now w2 + hours 24) (now w2)])
                             (ses_seq d1 + 1)) []
                         (jsonResponse (PToken (token_draw w2) 86400) 200)).
  { unfold r2.
    rewrite (AdminProofs.verifyOTP_admin e w2 d1 req2 em (otp_draw w1) admin)
      by assumption.
    destruct (latest_some
                (filter (valid_otp (JS.toLowerCase em) (otp_draw w1) (now w2))
                        (otp_codes d1))) as [otp Hotp].
    { rewrite Hd1. cbn [otp_codes]. rewrite filter_app. cbn [filter].
      unfold valid_otp at 2. cbn [otp_email otp_code otp_expires_at otp_used].
      rewrite !String.eqb_refl.
      replace (Z.ltb (now w2) (now w1 + minutes 10)) with true
        by (symmetry; apply Z.ltb_lt; lia).
      cbn. intros H. apply app_eq_nil in H. destruct H as [_ H]. discriminate H. }
    rewrite Hotp. cbv zeta.
    replace (admin_sessions d1) with (admin_sessions d)
      by (rewrite Hd1; reflexivity).
    rewrite Hfresh. eexists. reflexivity. }
  destruct Hr2 as [cs Hr2]. rewrite Hr2. cbn [reply db_after].
  split; [reflexivity|].
  intros t Ht. apply AdminProofs.checkAuth_iff.
  eexists. eexists. split; [exact Hauth|]. cbn [admin_sessions].
  split; [apply in_app_iff; right; left; reflexivity|].
  cbn [ses_token ses_expires_at]. split; [reflexivity | lia].
Qed.

Lemma login_flow_witness :
  let w1 := Examples.at_time 0 "424242" "" in
  let w2 := Examples.at_time (minutes 9) "" "tokA" in
  let d1 := db_after (sendOTP Examples.admin_env w1 empty_db
                        (Examples.send_req Examples.owner)) in
  let r2 := verifyOTP Examples.admin_env w2 d1
              (Examples.verify_req Examples.owner "424242") in
  reply r2 = Reply 200 (PToken "tokA" 86400) /\
  checkAuth (minutes 9 + hours 23) (db_after r2)
            (Examples.with_token "GET" "/api/admin/clients") = true.
Proof.
  intros w1 w2 d1 r2.
  destruct (login_flow Examples.admin_env w1 w2 empty_db
              (Examples.send_req Examples.owner)
              (Examples.verify_req Examples.owner "424242")
              (Examples.with_token "GET" "/api/admin/clients")
              (Body (Some Examples.owner) None)
              Examples.owner "Owner@ScaleRebel.com") as [H1 H2];
    try reflexivity; try discriminate.
  - vm_compute. split; [discriminate | reflexivity].
  - split; [exact H1|]. apply H2. vm_compute. split; [discriminate | reflexivity].
Defined.

(** X18: after a logout the request that carried it no longer
    authenticates, at any time. *)
Theorem logout_revokes (t : Z) (d : db) (req : request) :
  checkAuth t (db_after (logout d req)) req = false.
Proof.
  apply Bool.not_true_is_false. intros H. apply AdminProofs.checkAuth_iff in H.
  destruct H as [token [s [Hh [Hin [Htok _]]]]].
  unfold logout in Hin. cbv zeta in Hin. cbn [db_after] in Hin.
  rewrite Hh in Hin. cbn [JS.truthy JS.orElse] in Hin.
  change (String.eqb ("Bearer " ++ token) "") with false in Hin.
  cbn [negb andb] in Hin. unfold JS.startsWith in Hin.
  rewrite JSFacts.prefix_app, JSFacts.replace_prefix in Hin.
  cbn [admin_sessions] in Hin. apply filter_In in Hin. destruct Hin as [_ Hne].
  rewrite Htok, String.eqb_refl in Hne. discriminate Hne.
Qed.



(** X20: in a well-formed store that holds five or more codes for the
    admin address created within the last ten minutes, a further request
    for a code is answered 429; no code is added and no mail request is
    issued. *)
Theorem rate_limit_refuses (e : env) (w : world) (d : db) (req : request)
        (b : json_body) (em admin : string) :
  body req = Some b -> email b = Some em -> em <> ""%string ->
  ADMIN_EMAIL e = Some admin -> admin <> ""%string ->
  JS.toLowerCase em = JS.toLowerCase admin ->
  db_ok d = true ->
  (5 <= List.length
          (filter (fun r => String.eqb (otp_email r) (JS.toLowerCase em) &&
                            Z.leb (now w - minutes 10) (otp_created_at r))
                  (otp_codes d)))%nat ->
  let r := sendOTP e w d req in
  reply r = Reply 429 (PError "Too many attempts. Try again later.") /\
  mails r = [] /\
  otp_codes (db_after r) = purge_codes (now w) (otp_codes d) /\
  admin_sessions (db_after r) = admin_sessions d.
Proof.
  intros Hb He Hem Ha Hadm Hlow Hok Hfive r. unfold r.
  apply AdminProofs.db_ok_iff in Hok. destruct Hok as [Hrows _].
  rewrite (AdminProofs.sendOTP_email e w d req b em admin) by assumption.
  rewrite Hlow, String.eqb_refl. cbn [negb]. cbv zeta.
  rewrite <- Hlow, (AdminProofs.rate_limit_window _ _ _ Hrows).
  replace (Z.leb 5 _) with true by (symmetry; apply Z.leb_le; lia).
  repeat split.
Qed.

Lemma rate_limit_refuses_witness :
  let r := sendOTP Examples.admin_env (Examples.at_time (minutes 5) "600006" "")
             Examples.five_codes_db (Examples.send_req Examples.owner) in
  reply r = Reply 429 (PError "Too many attempts. Try again later.") /\
  mails r = [] /\
  otp_codes (db_after r) = purge_codes (minutes 5) (otp_codes Examples.five_codes_db) /\
  admin_sessions (db_after r) = admin_sessions Examples.five_codes_db.
Proof.
  apply (rate_limit_refuses Examples.admin_env
           (Examples.at_time (minutes 5) "600006" "") Examples.five_codes_db
           (Examples.send_req Examples.owner) (Body (Some Examples.owner) None)
           Examples.owner "Owner@ScaleRebel.com");
    try reflexivity; try discriminate.
Defined.

(** X21: a verification that is not answered 200 or 500 has no effect: an
    answer 400 or 401 leaves the store as it was and sends nothing. *)
Theorem failed_verification_no_effect (e : env) (w : world) (d : db)
        (req : request) :
  status_of (reply (verifyOTP e w d req)) = Some 400 \/
  status_of (reply (verifyOTP e w d req)) = Some 401 ->
  db_after (verifyOTP e w d req) = d /\ mails (verifyOTP e w d req) = [].
Proof.
  unfold verifyOTP. cbv zeta.
  destruct (body req) as [b|]; [|intros [H|H]; discriminate H].
  destruct (_ || _); [split; reflexivity|].
  destruct (_ || _); [split; reflexivity|].
  destruct (latest _) as [otp|]; [|split; reflexivity].
  destruct (existsb _ _); intros [H|H]; discriminate H.
Qed.

Lemma failed_verification_no_effect_witness :
  db_after (verifyOTP Examples.admin_env (Examples.at_time (minutes 2) "" "tokA")
              Examples.twin_db (Examples.verify_req Examples.owner "000000"))
    = Examples.twin_db /\
  mails (verifyOTP Examples.admin_env (Examples.at_time (minutes 2) "" "tokA")
           Examples.twin_db (Examples.verify_req Examples.owner "000000")) = [].
Proof.
  apply (failed_verification_no_effect Examples.admin_env
           (Examples.at_time (minutes 2) "" "tokA") Examples.twin_db
           (Examples.verify_req Examples.owner "000000")).
  right. reflexivity.
Defined.

(** X22: every store the API can reach is well formed: each code expires
    ten minutes after its creation and each session twenty-four hours
    after its own, no two sessions share a token, and the ids of each
    table are distinct and below the next value of its sequence. *)
Theorem reachable_store_well_formed (e : env) (d : db) :
  reachable e d ->
  (forall r, In r (otp_codes d) ->
             otp_expires_at r = otp_created_at r + minutes 10) /\
  (forall s, In s (admin_sessions d) ->
             ses_expires_at s = ses_created_at s + hours 24) /\
  NoDup (map ses_token (admin_sessions d)) /\
  serial_ok d.
Proof.
  intros Hreach. pose proof (AdminProofs.reachable_db_ok e d Hreach) as Hok.
  apply AdminProofs.db_ok_iff in Hok. destruct Hok as [Hc [Hs Hn]].
  rewrite forallb_forall in Hc, Hs.
  split; [intros r Hr; apply Z.eqb_eq, (Hc r Hr)|].
  split; [intros s Hin; apply Z.eqb_eq, (Hs s Hin)|].
  split; [exact Hn | apply (reachable_serial_ok e d Hreach)].
Qed.

Lemma reachable_store_well_formed_witness :
  NoDup (map ses_token (admin_sessions Examples.session_db)) /\
  serial_ok Examples.session_db.
Proof.
  apply (reachable_store_well_formed Examples.admin_env Examples.session_db).
  exists [ (Examples.at_time 0 "424242" "", Examples.send_req Examples.owner);
           (Examples.at_time (minutes 1) "" "tokA",
            Examples.verify_req Examples.owner "424242") ].
  reflexivity.
Defined.

(** X23: a request for a code for the admin address that passes the rate
    limit stores the code before the mail is attempted: whatever the
    answer (200, or 500 when the mail service is not configured or
    refuses), the store afterwards holds the unexpired codes of before
    followed by one new row with the drawn code, unused, expiring ten
    minutes later; without mail configuration no mail request is
    issued. *)
Theorem code_stored_before_mail (e : env) (w : world) (d : db) (req : request)
        (b : json_body) (em admin : string) :
  body req = Some b -> email b = Some em -> em <> ""%string ->
  ADMIN_EMAIL e = Some admin -> admin <> ""%string ->
  JS.toLowerCase em = JS.toLowerCase admin ->
  recent_count (JS.toLowerCase em) (now w) (purge_codes (now w) (otp_codes d)) < 5 ->
  let r := sendOTP e w d req in
  otp_codes (db_after r) =
    (purge_codes (now w) (otp_codes d) ++
       [OtpRow (otp_seq d) (JS.toLowerCase em) (otp_draw w)
               (now w + minutes 10) false (now w)])%list /\
  admin_sessions (db_after r) = admin_sessions d /\
  (status_of (reply r) = Some 200 \/ status_of (reply r) = Some 500) /\
  (status_of (reply r) = Some 200 <->
   JS.truthy (RESEND_API_KEY e) = true /\ JS.truthy (FROM_EMAIL e) = true /\
   mail_api w = FetchOk) /\
  (JS.truthy (RESEND_API_KEY e) && JS.truthy (FROM_EMAIL e) = false ->
   mails r = []).
Proof.
  intros Hb He Hem Ha Hadm Hlow Hcount r. unfold r.
  rewrite (AdminProofs.sendOTP_email e w d req b em admin) by assumption.
  rewrite Hlow, String.eqb_refl. cbn [negb]. cbv zeta. rewrite <- Hlow.
  replace (Z.leb 5 _) with false by (symmetry; apply Z.leb_gt; exact Hcount).
  destruct (JS.truthy (RESEND_API_KEY e)), (JS.truthy (FROM_EMAIL e));
    cbn [negb orb andb];
    try (destruct (mail_api w));
    cbn [db_after otp_codes admin_sessions reply mails status_of errorResponse
         jsonResponse];
    repeat split; try reflexivity; try (left; reflexivity);
    try (right; reflexivity); try discriminate; intuition discriminate.
Qed.

Lemma code_stored_before_mail_witness :
  let r := sendOTP (Env (Some "owner@scalerebel.com") None None)
             (Examples.at_time 0 "424242" "") empty_db
             (Examples.send_req Examples.owner) in
  otp_codes (db_after r) =
    [OtpRow 1 "owner@scalerebel.com" "424242" (minutes 10) false 0] /\
  status_of (reply r) = Some 500 /\ mails r = [].
Proof.
  intros r.
  destruct (code_stored_before_mail (Env (Some "owner@scalerebel.com") None None)
              (Examples.at_time 0 "424242" "") empty_db
              (Examples.send_req Examples.owner)
              (Body (Some Examples.owner) None) Examples.owner
              "owner@scalerebel.com")
    as [H1 [_ [_ [_ H5]]]]; try reflexivity; try discriminate.
  split; [exact H1|]. split; [reflexivity|]. apply H5. reflexivity.
Defined.

End AdminMore.

(* ------------------------------------------------------------------ *)
(** * The session token *)

Module TokenProofs.
Import Chars Token.

Lemma length_append (s t : string) :
  String.length (s ++ t) = (String.length s + String.length t)%nat.
Proof. induction s as [|c s IH]; cbn; [reflexivity | rewrite IH; reflexivity]. Qed.

Lemma all_chars_app (P : ascii -> bool) (s t : string) :
  all_chars P (s ++ t) = all_chars P s && all_chars P t.
Proof.
  induction s as [|c s IH]; cbn; [reflexivity|].
  rewrite IH. apply andb_assoc.
Qed.

Lemma charAt_token_chars (n : nat) :
  (n < 62)%nat ->
  String.length (charAt token_chars n) = 1%nat /\
  all_chars alphanumeric (charAt token_chars n) = true.
Proof.
  intros H.
  do 62 (destruct n as [|n]; [split; reflexivity|]). lia.
Qed.

Lemma token_loop_spec (draw : nat -> nat) (n i : nat) (token : string) :
  (forall j, (i <= j < i + n)%nat -> (draw j < 62)%nat) ->
  all_chars alphanumeric token = true ->
  String.length (token_loop draw i n token) = (String.length token + n)%nat /\
  all_chars alphanumeric (token_loop draw i n token) = true.
Proof.
  revert i token. induction n as [|n IH]; intros i token Hdraw Htok; cbn [token_loop].
  - rewrite Nat.add_0_r. split; [reflexivity | exact Htok].
  - destruct (charAt_token_chars (draw i)) as [Hlen Hal]; [apply Hdraw; lia|].
    destruct (IH (S i) (token ++ charAt token_chars (draw i))) as [H1 H2].
    + intros j Hj. apply Hdraw. lia.
    + rewrite all_chars_app, Htok, Hal. reflexivity.
    + split; [|exact H2]. rewrite H1, length_append, Hlen. lia.
Qed.

(** X24: when every draw is an index into the 62 characters, the session
    token has 64 characters, all of them ASCII letters or digits. *)
Theorem session_token_shape (draw : nat -> nat) :
  (forall i, (i < 64)%nat -> (draw i < 62)%nat) ->
  String.length (generateSessionToken draw) = 64%nat /\
  all_chars alphanumeric (generateSessionToken draw) = true.
Proof.
  intros H. unfold generateSessionToken.
  destruct (token_loop_spec draw 64 0 "") as [H1 H2];
    [intros j Hj; apply H; lia | reflexivity|].
  split; [exact H1 | exact H2].
Qed.

Lemma session_token_shape_witness :
  String.length (generateSessionToken (fun i => (7 * i) mod 62)%nat) = 64%nat /\
  all_chars alphanumeric (generateSessionToken (fun i => (7 * i) mod 62)%nat) = true.
Proof.
  apply (session_token_shape (fun i => (7 * i) mod 62)%nat).
  intros i _. apply Nat.mod_upper_bound. discriminate.
Defined.

End TokenProofs.
